(** * pkgsign: the package verification core

    A shallow embedding of the trust store ([TrustStore]), the files entry
    of a signature document ([SignatureFilesEntry]), the module verifier
    ([ModuleVerifier]), the verify command ([VerifyCommand]) and the JSON
    normaliser ([JsonNormalize]), followed by the properties established
    about them.

    The JavaScript runtime the program runs on (the [path] and [JSON]
    objects, the hash primitive) is an interface, [Runtime]; a reference
    implementation of it over POSIX-style paths and ASCII JSON text is
    given at the end of the definitions and is used to run the program on
    concrete directories. *)

From Stdlib Require Import Floats Ascii String.
From stdpp Require Import gmap strings list pretty sorting.



(** ** JavaScript values, exceptions and promises *)

Module JS.

(** The values [JSON.parse] produces, and [undefined], which reading an
    absent property produces.  A number is an IEEE 754 binary64. *)
#[local] Unset Elimination Schemes.
Inductive JSValue : Type :=
  | JSUndefined
  | JSNull
  | JSBoolean (b : bool)
  | JSNumber (x : float)
  | JSString (s : string)
  | JSArray (items : list JSValue)
  | JSObject (props : list (string * JSValue)).
#[local] Set Elimination Schemes.

Inductive JSError : Type :=
  | TypeError
  | SyntaxError
  | SystemError (code : string)
  | ForeignError (what : string).

(** The result of running a function body (or of awaiting a promise): a
    value is returned, or an exception is thrown (the promise rejects). *)
Inductive outcome (A : Type) : Type :=
  | Returned (a : A)
  | Thrown (e : JSError).
Arguments Returned {A} a.
Arguments Thrown {A} e.

Definition outcome_bind {A B} (o : outcome A) (k : A → outcome B) : outcome B :=
  match o with
  | Returned a => k a
  | Thrown e => Thrown e
  end.

(** An own property of an object literal; when a key is repeated the last
    binding is the one the object holds. *)
Definition own_property (props : list (string * JSValue)) (key : string)
  : option JSValue :=
  fold_left (λ acc kv, if String.eqb (fst kv) key then Some (snd kv) else acc)
            props None.

(** [v.key], for the keys this program reads ([keybaseUser],
    [pgpPublicKeyUrl], [name]), none of which is defined on a built-in
    prototype: reading from [null] or [undefined] throws, reading from a
    primitive or an array gives [undefined]. *)
Definition get_property (v : JSValue) (key : string) : outcome JSValue :=
  match v with
  | JSUndefined | JSNull => Thrown TypeError
  | JSObject props => Returned (default JSUndefined (own_property props key))
  | _ => Returned JSUndefined
  end.

(** ToBoolean. *)
Definition truthy (v : JSValue) : bool :=
  match v with
  | JSUndefined | JSNull => false
  | JSBoolean b => b
  | JSNumber x => negb (PrimFloat.eqb x 0%float || PrimFloat.is_nan x)
  | JSString s => negb (String.eqb s "")
  | JSArray _ | JSObject _ => true
  end.

(** [a || b]. *)
Definition or_else (a b : JSValue) : JSValue := if truthy a then a else b.

(** [v == null]. *)
Definition is_nullish (v : JSValue) : bool :=
  match v with
  | JSUndefined | JSNull => true
  | _ => false
  end.

(** [a === b], for operands that come from distinct allocations (a freshly
    parsed document against a value held by the caller): two arrays or two
    objects are then never the same reference. *)
Definition strict_equals (a b : JSValue) : bool :=
  match a, b with
  | JSUndefined, JSUndefined => true
  | JSNull, JSNull => true
  | JSBoolean x, JSBoolean y => Bool.eqb x y
  | JSNumber x, JSNumber y => PrimFloat.eqb x y
  | JSString x, JSString y => String.eqb x y
  | _, _ => false
  end.

(** An optional string member of a typed object: absent is [undefined]. *)
Definition of_optional (o : option string) : JSValue :=
  match o with
  | Some s => JSString s
  | None => JSUndefined
  end.

End JS.
Export JS.

(** ** The file system *)

Inductive node : Type :=
  | File (content : string)
  | Directory.

(** A file system maps the paths that exist to what they hold. *)
Abbreviation FS := (gmap string node).

(** An asynchronous function of the program: it runs against the file
    system, may change it, and returns or throws. *)
Definition IO (A : Type) : Type := FS → outcome A * FS.

Global Instance IO_ret : MRet IO := λ A a fs, (Returned a, fs).
Global Instance IO_bind : MBind IO := λ A B k m fs,
  match m fs with
  | (Returned a, fs') => k a fs'
  | (Thrown e, fs') => (Thrown e, fs')
  end.

(** [try { body } catch (e) { ... }]: the outcome of the body is handed to
    the code after the block. *)
Definition attempt {A} (body : IO A) : IO (outcome A) := λ fs,
  let '(o, fs') := body fs in (Returned o, fs').

(** A computation that only reads the file system. *)
Definition reading {A} (f : FS → outcome A) : IO A := λ fs, (f fs, fs).

Definition of_outcome {A} (o : outcome A) : IO A := λ fs, (o, fs).

(** ** The runtime *)

(** What the program uses of Node: [path.join], the parent of a path (which
    decides whether a directory or a file can be created), SHA-512 as
    lowercase hexadecimal, [JSON.parse] ([None] is a [SyntaxError]),
    [JSON.stringify], and the coercing comparison [v == s] of a value that
    is not a string with a string. *)
Class Runtime : Type := {
  path_join : string → string → string;
  path_dirname : string → string;
  sha512_hex : string → string;
  JSON_parse : string → option JSValue;
  JSON_stringify : JSValue → string;
  coercing_equals : JSValue → string → outcome bool;
}.

(** [process.platform] and the two variables of [process.env] that are
    read. *)
Record Process : Type := {
  platform : string;
  USERPROFILE : option string;
  HOME : option string;
}.

Section Program.
Context `{Runtime}.

(** [path.join] throws a [TypeError] on an argument that is not a string. *)
Definition path_join_checked (a : option string) (b : string) : outcome string :=
  match a with
  | Some a => Returned (path_join a b)
  | None => Thrown TypeError
  end.

Definition JSON_parse_checked (text : string) : outcome JSValue :=
  match JSON_parse text with
  | Some v => Returned v
  | None => Thrown SyntaxError
  end.

(** [a == s] where [s] is a string. *)
Definition loose_equals_string (a : JSValue) (s : string) : outcome bool :=
  match a with
  | JSString t => Returned (String.eqb t s)
  | JSUndefined | JSNull => Returned false
  | _ => coercing_equals a s
  end.

Definition existsSync (p : string) (fs : FS) : bool :=
  bool_decide (is_Some (fs !! p)).

(** [fs.mkdirSync(p)]: the path must be free and its parent a directory. *)
Definition mkdirSync (p : string) : IO () := λ fs,
  match fs !! p with
  | Some _ => (Thrown (SystemError "EEXIST"), fs)
  | None =>
      match fs !! path_dirname p with
      | Some Directory => (Returned (), <[p := Directory]> fs)
      | Some (File _) => (Thrown (SystemError "ENOTDIR"), fs)
      | None => (Thrown (SystemError "ENOENT"), fs)
      end
  end.

(** Modelled from the spec: [readFilePromise] of [fsPromise], which is not
    among the sources.  It reads a whole file and fails only with an IO
    error. *)
Definition readFilePromise (p : string) (fs : FS) : outcome string :=
  match fs !! p with
  | Some (File content) => Returned content
  | Some Directory => Thrown (SystemError "EISDIR")
  | None => Thrown (SystemError "ENOENT")
  end.

(** Modelled from the spec: [sha512OfFile] of [fsPromise], which is not
    among the sources.  It is the lowercase hexadecimal SHA-512 of a file
    and fails only with an IO error. *)
Definition sha512OfFile (p : string) (fs : FS) : outcome string :=
  match readFilePromise p fs with
  | Returned content => Returned (sha512_hex content)
  | Thrown e => Thrown e
  end.

(** Modelled from the spec: [writeFilePromise] of [fsPromise], which is not
    among the sources.  It writes a file, replacing a prior one; the
    directory of the file must exist. *)
Definition writeFilePromise (p : string) (content : string) : IO () := λ fs,
  match fs !! p with
  | Some Directory => (Thrown (SystemError "EISDIR"), fs)
  | _ =>
      match fs !! path_dirname p with
      | Some Directory => (Returned (), <[p := File content]> fs)
      | Some (File _) => (Thrown (SystemError "ENOTDIR"), fs)
      | None => (Thrown (SystemError "ENOENT"), fs)
      end
  end.

End Program.

(** ** Identities and verdicts *)

(** [SignatureIdentity]: each member is a string or absent. *)
Record SignatureIdentity : Type := {
  keybaseUser : option string;
  pgpPublicKeyUrl : option string;
}.

Global Instance SignatureIdentity_eq_dec : EqDecision SignatureIdentity.
Proof. solve_decision. Defined.

Definition optional_member (key : string) (o : option string)
  : list (string * JSValue) :=
  match o with
  | Some s => [(key, JSString s)]
  | None => []
  end.

(** The object an identity is at run time. *)
Definition identity_object (identity : SignatureIdentity) : JSValue :=
  JSObject (optional_member "keybaseUser" (keybaseUser identity)
            ++ optional_member "pgpPublicKeyUrl" (pgpPublicKeyUrl identity)).

Inductive ModuleVerificationStatus : Type :=
  | Compromised
  | Unsigned
  | Untrusted
  | Trusted.

Module ModuleVerificationResult.
(** The members of a result object; the members an object literal leaves
    out are [None]. *)
Record t : Type := {
  status : ModuleVerificationStatus;
  reason : option string;
  packageName : string;
  untrustedIdentity : option SignatureIdentity;
  untrustedPackageVersion : option string;
  isPrivate : option bool;
}.
End ModuleVerificationResult.

(** ** The trust store *)

Module TrustStore.
Section TrustStore.
Context `{Runtime} (process : Process).

Definition createTrustStoreIfNecessary : IO string :=
  let isWin := String.prefix "win" (platform process) in
  let trustStoreBaseFolder :=
    if isWin then USERPROFILE process else HOME process in
  trustStoreFolder ←
    of_outcome (path_join_checked trustStoreBaseFolder ".pkgsign-trust-store");
  present ← reading (λ fs, Returned (existsSync trustStoreFolder fs));
  (if negb present then mkdirSync trustStoreFolder else mret ());;
  mret trustStoreFolder.

Definition isTrusted (identity : SignatureIdentity) (packageName : string)
  : IO bool :=
  trustStoreFolder ← createTrustStoreIfNecessary;
  let packageFilename := path_join trustStoreFolder (packageName +:+ ".trust") in
  result ← attempt (
    raw ← reading (readFilePromise packageFilename);
    trustInfo ← of_outcome (JSON_parse_checked raw);
    user ← of_outcome (get_property trustInfo "keybaseUser");
    if strict_equals user (of_optional (keybaseUser identity)) then
      url ← of_outcome (get_property trustInfo "pgpPublicKeyUrl");
      mret (strict_equals url (of_optional (pgpPublicKeyUrl identity)))
    else mret false);
  match result with
  | Returned trusted => mret trusted
  | Thrown _ => mret false
  end.

Definition addTrusted (identity : SignatureIdentity) (packageName : string)
  : IO () :=
  trustStoreFolder ← createTrustStoreIfNecessary;
  let packageFilename := path_join trustStoreFolder (packageName +:+ ".trust") in
  writeFilePromise packageFilename (JSON_stringify (identity_object identity)).

End TrustStore.
End TrustStore.

(** ** The files entry *)

Record SignatureFileEntry : Type := {
  path : string;
  sha512 : string;
}.

Module VerificationContext.
(** The members of the context that the files entry reads.  Of the
    entries of the document only the [entry] tag is read, so
    [signatureEntries] holds the tags, in document order. *)
Record t : Type := {
  dir : string;
  relFilesOnDisk : list string;
  expectedPackageName : string;
  signatureEntries : list string;
  untrustedIdentity : option SignatureIdentity;
  untrustedPackageVersion : option string;
  isPrivate : option bool;
}.
End VerificationContext.

(** The line feed, ['\n']. *)
Definition LF : string := String "010"%char EmptyString.

Module SignatureFilesEntry.
Section SignatureFilesEntry.
Context `{Runtime}.

Import VerificationContext.

Definition entry : string := "files/v1alpha1".

(** [this.files] is the state of a files entry. *)
Definition toDeterministicString (files : list SignatureFileEntry) : string :=
  fold_left
    (λ deterministicString entry,
       deterministicString +:+ (((path entry +:+ LF) +:+ sha512 entry) +:+ LF))
    files "".

(** [relFileOnDisk.replace(/\\/g, '/')]. *)
Fixpoint normalise (relFileOnDisk : string) : string :=
  match relFileOnDisk with
  | EmptyString => EmptyString
  | String c rest =>
      String (if Ascii.eqb c "\"%char then "/"%char else c) (normalise rest)
  end.

Definition compromised (context : VerificationContext.t) (reason : string)
  : ModuleVerificationResult.t :=
  {| ModuleVerificationResult.status := Compromised;
     ModuleVerificationResult.reason := Some reason;
     ModuleVerificationResult.packageName := expectedPackageName context;
     ModuleVerificationResult.untrustedIdentity := untrustedIdentity context;
     ModuleVerificationResult.untrustedPackageVersion :=
       untrustedPackageVersion context;
     ModuleVerificationResult.isPrivate := isPrivate context |}.

(** The inner loop over [this.files]: [found] and [expectedHash] after it. *)
Definition expected (files : list SignatureFileEntry) (normalisedPath : string)
  : bool * option string :=
  fold_left
    (λ state expectedFile,
       if String.eqb (path expectedFile) normalisedPath
       then (true, Some (sha512 expectedFile))
       else state)
    files (false, None).

(** [hash != expectedHash], where [expectedHash] is a string or [null]. *)
Definition differs (hash : string) (expectedHash : option string) : bool :=
  match expectedHash with
  | Some h => negb (String.eqb hash h)
  | None => true
  end.

(** The first loop of [verify], over the files on disk that remain.
    [Returned None] is the loop running to its end. *)
Fixpoint verify_filesOnDisk (context : VerificationContext.t)
    (files : list SignatureFileEntry)
    (skipPackageJsonExactVerification : bool)
    (remaining : list string) (fs : FS)
  : outcome (option ModuleVerificationResult.t) :=
  match remaining with
  | [] => Returned None
  | relFileOnDisk :: remaining =>
      let normalisedPath := normalise relFileOnDisk in
      if String.eqb normalisedPath "signature.json" then
        verify_filesOnDisk context files skipPackageJsonExactVerification
                           remaining fs
      else if String.eqb normalisedPath "package.json"
              && skipPackageJsonExactVerification then
        verify_filesOnDisk context files skipPackageJsonExactVerification
                           remaining fs
      else
        let '(found, expectedHash) := expected files normalisedPath in
        if negb found then
          Returned (Some (compromised context
            (normalisedPath +:+
               " exists in the package, but was not in the signature")))
        else
          match sha512OfFile (path_join (dir context) normalisedPath) fs with
          | Thrown e => Thrown e
          | Returned hash =>
              if differs hash expectedHash then
                Returned (Some (compromised context
                  (normalisedPath +:+
                     " does not have content that was signed for (mismatched hash)")))
              else verify_filesOnDisk context files
                     skipPackageJsonExactVerification remaining fs
          end
  end.

(** The inner loop of the second loop: is [p] among the normalised paths
    on disk. *)
Definition onDisk (relFilesOnDisk : list string) (p : string) : bool :=
  fold_left
    (λ found relFileOnDisk,
       if String.eqb (normalise relFileOnDisk) p then true else found)
    relFilesOnDisk false.

(** The second loop of [verify], over the entries of [this.files] that
    remain. *)
Fixpoint verify_signedFiles (context : VerificationContext.t)
    (remaining : list SignatureFileEntry)
  : option ModuleVerificationResult.t :=
  match remaining with
  | [] => None
  | fileEntry :: remaining =>
      if String.eqb (path fileEntry) "signature.json" then
        verify_signedFiles context remaining
      else if negb (onDisk (relFilesOnDisk context) (path fileEntry)) then
        Some (compromised context
          (path fileEntry +:+
             " is expected by the signature, but is missing in the package"))
      else verify_signedFiles context remaining
  end.

Definition verify (files : list SignatureFileEntry)
    (context : VerificationContext.t) (fs : FS)
  : outcome (option ModuleVerificationResult.t) :=
  let skipPackageJsonExactVerification :=
    existsb (λ x, String.eqb x "packageJson/v1alpha1")
            (signatureEntries context) in
  match verify_filesOnDisk context files skipPackageJsonExactVerification
                           (relFilesOnDisk context) fs with
  | Thrown e => Thrown e
  | Returned (Some failure) => Returned (Some failure)
  | Returned None => Returned (verify_signedFiles context files)
  end.

Definition getIdentity (files : list SignatureFileEntry)
  : option SignatureIdentity := None.

End SignatureFilesEntry.
End SignatureFilesEntry.

(** ** The module verifier *)

Module ModuleVerifier.

(** The context literal that [verify] hands to every entry. *)
Record Context : Type := {
  dir : string;
  relFilesOnDisk : list string;
  expectedPackageName : string;
}.

Module SignatureEntry.
(** The interface of an entry of a signature document: its tag, its
    canonical serialization, its content check (which reads the package
    directory and returns [null] or a result) and the identity it
    provides, if any. *)
Record t : Type := {
  entry : string;
  toDeterministicString : string;
  verify : Context → FS → outcome (option ModuleVerificationResult.t);
  getIdentity : option SignatureIdentity;
}.
End SignatureEntry.

Record SignatureInfo : Type := {
  entries : list SignatureEntry.t;
  signature : string;
}.

(** The parts of the repository [verify] calls that are not among the
    sources: the parser of the signature document, the canonical message
    of a document, and the two identity verifiers, which are handed the
    trust store and so may touch the file system. *)
Class Collaborators : Type := {
  SignatureParser_parse : string → outcome SignatureInfo;
  createDeterministicString : SignatureInfo → string;
  KeybaseVerifier_verify : SignatureIdentity → string → string → IO bool;
  PgpVerifier_verify : SignatureIdentity → string → string → IO bool;
}.

Section ModuleVerifier.
Context `{Runtime} `{Collaborators} (process : Process).

Definition result (status : ModuleVerificationStatus) (reason : option string)
    (packageName : string) (untrustedIdentity : option SignatureIdentity)
  : ModuleVerificationResult.t :=
  {| ModuleVerificationResult.status := status;
     ModuleVerificationResult.reason := reason;
     ModuleVerificationResult.packageName := packageName;
     ModuleVerificationResult.untrustedIdentity := untrustedIdentity;
     ModuleVerificationResult.untrustedPackageVersion := None;
     ModuleVerificationResult.isPrivate := None |}.

(** The loop over the entries: the first result that is not [null]. *)
Fixpoint verify_entries (context : Context) (remaining : list SignatureEntry.t)
    (fs : FS) : outcome (option ModuleVerificationResult.t) :=
  match remaining with
  | [] => Returned None
  | entry :: remaining =>
      match SignatureEntry.verify entry context fs with
      | Thrown e => Thrown e
      | Returned (Some entryResult) => Returned (Some entryResult)
      | Returned None => verify_entries context remaining fs
      end
  end.

(** The loop that finds an entry providing an identity. *)
Fixpoint find_identity (remaining : list SignatureEntry.t)
  : option SignatureIdentity :=
  match remaining with
  | [] => None
  | entry :: remaining =>
      match SignatureEntry.getIdentity entry with
      | Some localIdentity => Some localIdentity
      | None => find_identity remaining
      end
  end.

(** The verifier [verify] picks for an identity, if any. *)
Definition verifier_for (identity : SignatureIdentity)
  : option (SignatureIdentity → string → string → IO bool) :=
  match keybaseUser identity with
  | Some _ => Some KeybaseVerifier_verify
  | None =>
      match pgpPublicKeyUrl identity with
      | Some _ => Some PgpVerifier_verify
      | None => None
      end
  end.

Definition verify (dir : string) (relFilesOnDisk : list string)
    (expectedPackageName : string) : IO ModuleVerificationResult.t :=
  loaded ← attempt (
    rawJson ← reading (readFilePromise (path_join dir "signature.json"));
    of_outcome (SignatureParser_parse rawJson));
  match loaded with
  | Thrown _ =>
      mret (result Unsigned (Some "Missing or unparsable signature.json")
                   expectedPackageName None)
  | Returned signature =>
      let deterministicString := createDeterministicString signature in
      let context :=
        {| dir := dir; relFilesOnDisk := relFilesOnDisk;
           expectedPackageName := expectedPackageName |} in
      entryResult ← reading (verify_entries context (entries signature));
      match entryResult with
      | Some entryResult => mret entryResult
      | None =>
      match find_identity (entries signature) with
      | None =>
          mret (result Compromised
                       (Some "No identity information in signature.json")
                       expectedPackageName None)
      | Some identity_ =>
      let identity := identity_ in
      match verifier_for identity with
      | None =>
          mret (result Compromised (Some "Unknown identity in signature.json")
                       expectedPackageName None)
      | Some verifier =>
          valid ← verifier identity (ModuleVerifier.signature signature)
                           deterministicString;
          if negb valid then
            mret (result Compromised (Some "The signature does not match")
                         expectedPackageName None)
          else
            parsed ← attempt (
              raw ← reading (readFilePromise (path_join dir "package.json"));
              of_outcome (JSON_parse_checked raw));
            match parsed with
            | Thrown _ =>
                mret (result Compromised
                             (Some "Missing or unparsable package.json")
                             expectedPackageName None)
            | Returned packageInfo =>
                mismatch ←
                  (if is_nullish packageInfo then mret true
                   else
                     name ← of_outcome (get_property packageInfo "name");
                     same ← of_outcome
                       (loose_equals_string (or_else name (JSString ""))
                                            expectedPackageName);
                     mret (negb same));
                if (mismatch : bool) then
                  mret (result Compromised
                    (Some "Provided package name in package.json did not match expected package name")
                    expectedPackageName None)
                else
                  trusted ←
                    TrustStore.isTrusted process identity expectedPackageName;
                  if (trusted : bool) then
                    mret (result Trusted None expectedPackageName None)
                  else
                    mret (result Untrusted None expectedPackageName
                                 (Some identity))
            end
      end
      end
      end
  end.

End ModuleVerifier.
End ModuleVerifier.

(** ** A reference runtime *)

(** POSIX paths without normalisation, JSON text over ASCII with integral
    numbers, and an ideal (injective) digest.  The program is run on it to
    evaluate concrete directories. *)
Module Reference.

Definition join (a b : string) : string := a +:+ "/" +:+ b.

(** The text before the last slash, if there is a slash. *)
Fixpoint before_last_slash (p : string) : option string :=
  match p with
  | EmptyString => None
  | String c rest =>
      match before_last_slash rest with
      | Some d => Some (String c d)
      | None => if Ascii.eqb c "/"%char then Some "" else None
      end
  end.

Definition dirname (p : string) : string :=
  match before_last_slash p with
  | Some "" => "/"
  | Some d => d
  | None => "."
  end.

Definition digest (content : string) : string := "sha512:" +:+ content.

(** *** JSON text *)

Definition hex_digit (n : nat) : ascii :=
  match n with
  | 0 => "0" | 1 => "1" | 2 => "2" | 3 => "3" | 4 => "4" | 5 => "5"
  | 6 => "6" | 7 => "7" | 8 => "8" | 9 => "9" | 10 => "a" | 11 => "b"
  | 12 => "c" | 13 => "d" | 14 => "e" | _ => "f"
  end%char.

Definition hex_value (c : ascii) : option nat :=
  let n := nat_of_ascii c in
  (if (48 <=? n) && (n <=? 57) then Some (n - 48)
   else if (97 <=? n) && (n <=? 102) then Some (n - 87)
   else if (65 <=? n) && (n <=? 70) then Some (n - 55)
   else None)%nat.

(** The double quote and the backslash. *)
Definition DQ : ascii := "034"%char.
Definition BS : ascii := "092"%char.

(** How [JSON.stringify] writes one character of a string. *)
Definition escape_char (c : ascii) : string :=
  let n := nat_of_ascii c in
  if (n =? 34)%nat then String BS (String DQ "")
  else if (n =? 92)%nat then String BS (String BS "")
  else if (n =? 8)%nat then String BS "b"
  else if (n =? 9)%nat then String BS "t"
  else if (n =? 10)%nat then String BS "n"
  else if (n =? 12)%nat then String BS "f"
  else if (n =? 13)%nat then String BS "r"
  else if (n <? 32)%nat then
    String BS "u00"
      +:+ String (hex_digit (n / 16)) (String (hex_digit (n mod 16)) "")
  else String c "".

Fixpoint escape (s : string) : string :=
  match s with
  | EmptyString => EmptyString
  | String c rest => escape_char c +:+ escape rest
  end.

Definition quote (s : string) : string :=
  String DQ (escape s +:+ String DQ "").

(** The value of a number or of a literal name. *)
Definition number_of_Z (z : Z) : float :=
  if (z <? 0)%Z then PrimFloat.opp (PrimFloat.of_uint63 (Uint63.of_Z (- z)))
  else PrimFloat.of_uint63 (Uint63.of_Z z).

(** An integral number as [JSON.stringify] writes it; a number that is not
    integral (or not finite) is written [null]. *)
Definition number_to_string (x : float) : string :=
  match Prim2SF x with
  | S754_zero _ => "0"
  | S754_finite negative m e =>
      let sign := if negative then "-" else "" in
      if (0 <=? e)%Z then sign +:+ pretty (Z.pos m * 2 ^ e)%Z
      else if (Z.pos m mod 2 ^ (- e) =? 0)%Z
           then sign +:+ pretty (Z.pos m / 2 ^ (- e))%Z
           else "null"
  | _ => "null"
  end.

Fixpoint stringify (v : JSValue) : string :=
  match v with
  | JSUndefined | JSNull => "null"
  | JSBoolean b => if b then "true" else "false"
  | JSNumber x => number_to_string x
  | JSString s => quote s
  | JSArray items =>
      "[" +:+ String.concat "," (map stringify items) +:+ "]"
  | JSObject props =>
      "{" +:+ String.concat ","
                (map (λ kv, quote (fst kv) +:+ ":" +:+ stringify (snd kv)) props)
          +:+ "}"
  end.

Definition is_space (c : ascii) : bool :=
  let n := nat_of_ascii c in
  ((n =? 32) || (n =? 9) || (n =? 10) || (n =? 13))%nat.

Fixpoint skip_spaces (s : string) : string :=
  match s with
  | String c rest => if is_space c then skip_spaces rest else s
  | EmptyString => EmptyString
  end.

Definition cons_char (c : ascii) (r : option (string * string))
  : option (string * string) :=
  match r with
  | Some (s, rest) => Some (String c s, rest)
  | None => None
  end.

Definition unescape (c : ascii) : option ascii :=
  let n := nat_of_ascii c in
  (if n =? 34 then Some DQ
   else if n =? 92 then Some BS
   else if n =? 47 then Some "/"%char
   else if n =? 98 then Some "008"%char
   else if n =? 116 then Some "009"%char
   else if n =? 110 then Some "010"%char
   else if n =? 102 then Some "012"%char
   else if n =? 114 then Some "013"%char
   else None)%nat.

(** The characters of a string token after its opening quote, and the text
    after its closing quote.  An escape [\uXXXX] is read when it denotes an
    ASCII character. *)
Fixpoint string_token (s : string) : option (string * string) :=
  match s with
  | EmptyString => None
  | String c rest =>
      if Ascii.eqb c DQ then Some (EmptyString, rest)
      else if Ascii.eqb c BS then
        match rest with
        | String e rest' =>
            match unescape e with
            | Some c' => cons_char c' (string_token rest')
            | None =>
                match rest' with
                | String h1 (String h2 (String h3 (String h4 rest''))) =>
                    if Ascii.eqb e "u"%char then
                      match hex_value h1, hex_value h2, hex_value h3, hex_value h4 with
                      | Some 0, Some 0, Some a, Some b =>
                          if (a <? 8)%nat
                          then cons_char (ascii_of_nat (16 * a + b))
                                         (string_token rest'')
                          else None
                      | _, _, _, _ => None
                      end
                    else None
                | _ => None
                end
            end
        | EmptyString => None
        end
      else if (nat_of_ascii c <? 32)%nat then None
      else cons_char c (string_token rest)
  end.

Definition is_digit (c : ascii) : bool :=
  let n := nat_of_ascii c in ((48 <=? n) && (n <=? 57))%nat.

(** The digits at the head of a text, as a number, and the text after. *)
Fixpoint digits (acc : Z) (s : string) : Z * string :=
  match s with
  | String c rest =>
      if is_digit c
      then digits (10 * acc + Z.of_nat (nat_of_ascii c - 48))%Z rest
      else (acc, s)
  | EmptyString => (acc, s)
  end.

(** An integral number token: an optional minus sign, then [0] or digits
    that do not start with [0]. *)
Definition number_token (s : string) : option (float * string) :=
  let '(negative, s) :=
    match s with
    | String "-"%char rest => (true, rest)
    | _ => (false, s)
    end in
  match s with
  | String c rest =>
      if is_digit c then
        let '(z, after) :=
          if Ascii.eqb c "0"%char then (0%Z, rest) else digits 0 s in
        match after with
        | String d _ =>
            if is_digit d || Ascii.eqb d "."%char || Ascii.eqb d "e"%char
               || Ascii.eqb d "E"%char
            then None
            else Some (number_of_Z (if negative then - z else z), after)
        | EmptyString =>
            Some (number_of_Z (if negative then - z else z), after)
        end
      else None
  | EmptyString => None
  end.

Definition literal (name : string) (v : JSValue) (s : string)
  : option (JSValue * string) :=
  if String.prefix name s
  then Some (v, String.substring (String.length name)
                                 (String.length s - String.length name) s)
  else None.

(** A value at the head of a text, and the text after it.  The fuel bounds
    the nesting and the number of members; the length of the text is
    enough. *)
Fixpoint value (fuel : nat) (s : string) : option (JSValue * string) :=
  match fuel with
  | O => None
  | S fuel =>
      match skip_spaces s with
      | EmptyString => None
      | String c rest as s' =>
          if Ascii.eqb c DQ then
            match string_token rest with
            | Some (str, after) => Some (JSString str, after)
            | None => None
            end
          else if Ascii.eqb c "["%char then
            match skip_spaces rest with
            | String "]"%char after => Some (JSArray [], after)
            | _ => elements fuel rest []
            end
          else if Ascii.eqb c "{"%char then
            match skip_spaces rest with
            | String "}"%char after => Some (JSObject [], after)
            | _ => members fuel rest []
            end
          else if Ascii.eqb c "n"%char then literal "null" JSNull s'
          else if Ascii.eqb c "t"%char then literal "true" (JSBoolean true) s'
          else if Ascii.eqb c "f"%char then literal "false" (JSBoolean false) s'
          else
            match number_token s' with
            | Some (x, after) => Some (JSNumber x, after)
            | None => None
            end
      end
  end
with elements (fuel : nat) (s : string) (acc : list JSValue)
  : option (JSValue * string) :=
  match fuel with
  | O => None
  | S fuel =>
      match value fuel s with
      | Some (v, after) =>
          match skip_spaces after with
          | String ","%char after => elements fuel after (acc ++ [v])
          | String "]"%char after => Some (JSArray (acc ++ [v]), after)
          | _ => None
          end
      | None => None
      end
  end
with members (fuel : nat) (s : string) (acc : list (string * JSValue))
  : option (JSValue * string) :=
  match fuel with
  | O => None
  | S fuel =>
      match skip_spaces s with
      | String c rest =>
          if Ascii.eqb c DQ then
            match string_token rest with
            | Some (key, after) =>
                match skip_spaces after with
                | String ":"%char after =>
                    match value fuel after with
                    | Some (v, after) =>
                        match skip_spaces after with
                        | String ","%char after =>
                            members fuel after (acc ++ [(key, v)])
                        | String "}"%char after =>
                            Some (JSObject (acc ++ [(key, v)]), after)
                        | _ => None
                        end
                    | None => None
                    end
                | _ => None
                end
            | None => None
            end
          else None
      | EmptyString => None
      end
  end.

Definition parse (text : string) : option JSValue :=
  match value (S (String.length text)) text with
  | Some (v, after) =>
      match skip_spaces after with
      | EmptyString => Some v
      | _ => None
      end
  | None => None
  end.

(** *** Coercion *)

(** ToString, as far as the comparison below needs it: an element of an
    array that is [null] or [undefined] is written as the empty string,
    and an object as its default tag. *)
Fixpoint display (v : JSValue) : string :=
  match v with
  | JSUndefined => "undefined"
  | JSNull => "null"
  | JSBoolean b => if b then "true" else "false"
  | JSNumber x => number_to_string x
  | JSString s => s
  | JSArray items =>
      String.concat ","
        (map (λ item, if is_nullish item then "" else display item) items)
  | JSObject _ => "[object Object]"
  end.

(** ToNumber of a string holding an integral decimal numeral between
    spaces (the empty string is zero); [None] is [NaN]. *)
Definition to_number (s : string) : option float :=
  match skip_spaces s with
  | EmptyString => Some (number_of_Z 0)
  | String c rest as s' =>
      let '(negative, body) :=
        if Ascii.eqb c "-"%char then (true, rest)
        else if Ascii.eqb c "+"%char then (false, rest)
        else (false, s') in
      match body with
      | String d _ =>
          if is_digit d then
            let '(z, after) := digits 0 body in
            match skip_spaces after with
            | EmptyString => Some (number_of_Z (if negative then - z else z))
            | _ => None
            end
          else None
      | EmptyString => None
      end
  end.

Definition number_equals (x : float) (s : string) : bool :=
  match to_number s with
  | Some y => PrimFloat.eqb x y
  | None => false
  end.

(** [v == s] for a value [v] that is not a string. *)
Definition coerce (v : JSValue) (s : string) : outcome bool :=
  match v with
  | JSBoolean b => Returned (number_equals (number_of_Z (if b then 1 else 0)) s)
  | JSNumber x => Returned (number_equals x s)
  | JSArray _ | JSObject _ => Returned (String.eqb (display v) s)
  | JSString t => Returned (String.eqb t s)
  | JSUndefined | JSNull => Returned false
  end.

Definition runtime : Runtime :=
  {| path_join := join;
     path_dirname := dirname;
     sha512_hex := digest;
     JSON_parse := parse;
     JSON_stringify := stringify;
     coercing_equals := coerce |}.

End Reference.

(** ** A test double for the collaborators *)

Module Double.
Import ModuleVerifier.

(** Modelled from the spec: the identity entry, which is not among the
    sources.  It serializes the populated members, the Keybase member
    first, each as its name, [=], its value and a line feed; its content
    check always succeeds; it provides its identity. *)
Definition identityEntry (identity : SignatureIdentity) : SignatureEntry.t :=
  {| SignatureEntry.entry := "identity/v1alpha1";
     SignatureEntry.toDeterministicString :=
       match keybaseUser identity with
       | Some user => "keybaseUser=" +:+ user +:+ LF
       | None => ""
       end +:+
       match pgpPublicKeyUrl identity with
       | Some url => "pgpPublicKeyUrl=" +:+ url +:+ LF
       | None => ""
       end;
     SignatureEntry.verify := λ _ _, Returned None;
     SignatureEntry.getIdentity := Some identity |}.

(** A files entry as an object of the interface: the context it is handed
    is completed with the tags of the document it belongs to. *)
Definition filesEntry `{Runtime} (tags : list string)
    (files : list SignatureFileEntry) : SignatureEntry.t :=
  {| SignatureEntry.entry := SignatureFilesEntry.entry;
     SignatureEntry.toDeterministicString :=
       SignatureFilesEntry.toDeterministicString files;
     SignatureEntry.verify := λ context fs,
       SignatureFilesEntry.verify files
         {| VerificationContext.dir := dir context;
            VerificationContext.relFilesOnDisk := relFilesOnDisk context;
            VerificationContext.expectedPackageName :=
              expectedPackageName context;
            VerificationContext.signatureEntries := tags;
            VerificationContext.untrustedIdentity := None;
            VerificationContext.untrustedPackageVersion := None;
            VerificationContext.isPrivate := None |} fs;
     SignatureEntry.getIdentity := SignatureFilesEntry.getIdentity files |}.

(** Modelled from the spec: the canonical message of a document, the
    concatenation in document order of the serializations of its entries. *)
Definition canonicalMessage (document : SignatureInfo) : string :=
  String.concat "" (map SignatureEntry.toDeterministicString (entries document)).

(** The collaborators around one document: the parser yields [entries]
    and, as the signature, the [signature] member of every text that is a
    JSON object with such a member (a string); a signature is valid when
    it is the canonical message marked with the name of its signer. *)
Definition collaborators (entries : list SignatureEntry.t) : Collaborators :=
  let seal (who message : string) := who +:+ " signed " +:+ message in
  {| SignatureParser_parse := λ rawJson,
       match Reference.parse rawJson with
       | Some (JSObject props) =>
           match own_property props "signature" with
           | Some (JSString signature) =>
               Returned {| ModuleVerifier.entries := entries;
                           ModuleVerifier.signature := signature |}
           | _ => Thrown TypeError
           end
       | _ => Thrown SyntaxError
       end;
     createDeterministicString := canonicalMessage;
     KeybaseVerifier_verify := λ identity signature message,
       mret (String.eqb signature
               (seal (default "" (keybaseUser identity)) message));
     PgpVerifier_verify := λ identity signature message,
       mret (String.eqb signature
               (seal (default "" (pgpPublicKeyUrl identity)) message)) |}.

End Double.

(** * Vocabulary of the properties *)

(** ** Serialization *)

(** The concatenation of a list of strings. *)
Definition concatenation (parts : list string) : string :=
  foldr String.append "" parts.

(** What a pair contributes: its path, a line feed, its hash, a line feed. *)
Definition pair_parts (e : SignatureFileEntry) : list string :=
  [path e; LF; sha512 e; LF].

Fixpoint line_feed_free (s : string) : bool :=
  match s with
  | EmptyString => true
  | String c rest => negb (Ascii.eqb c "010"%char) && line_feed_free rest
  end.

Definition pair_line_feed_free (e : SignatureFileEntry) : Prop :=
  line_feed_free (path e) = true ∧ line_feed_free (sha512 e) = true.

(** ** The trust store *)

(** The home directory: [USERPROFILE] on Windows, [HOME] elsewhere. *)
Definition trustStoreBaseFolder (process : Process) : option string :=
  if String.prefix "win" (platform process)
  then USERPROFILE process else HOME process.

(** [<home>/.pkgsign-trust-store], when the home variable is set. *)
Definition trustStoreFolder `{Runtime} (process : Process) : option string :=
  (λ home, path_join home ".pkgsign-trust-store") <$> trustStoreBaseFolder process.

(** [<home>/.pkgsign-trust-store/<packageName>.trust]. *)
Definition trustRecordFile `{Runtime} (process : Process) (packageName : string)
  : option string :=
  (λ folder, path_join folder (packageName +:+ ".trust")) <$> trustStoreFolder process.

(** The two members of a parsed record are strictly equal to those of an
    identity. *)
Definition record_matches (trustInfo : JSValue) (identity : SignatureIdentity)
  : Prop :=
  ∃ user url,
    get_property trustInfo "keybaseUser" = Returned user
    ∧ get_property trustInfo "pgpPublicKeyUrl" = Returned url
    ∧ strict_equals user (of_optional (keybaseUser identity)) = true
    ∧ strict_equals url (of_optional (pgpPublicKeyUrl identity)) = true.

(** The record file exists, parses as JSON, and its record matches. *)
Definition record_trusts `{Runtime} (process : Process) (fs : FS)
    (identity : SignatureIdentity) (packageName : string) : Prop :=
  ∃ file content trustInfo,
    trustRecordFile process packageName = Some file
    ∧ fs !! file = Some (File content)
    ∧ JSON_parse content = Some trustInfo
    ∧ record_matches trustInfo identity.

(** The trust-store directory exists, or its parent is a directory (so it
    can be created). *)
Definition trustStoreAvailable `{Runtime} (process : Process) (fs : FS) : Prop :=
  ∃ folder,
    trustStoreFolder process = Some folder
    ∧ (is_Some (fs !! folder) ∨ fs !! path_dirname folder = Some Directory).

(** [JSON.parse] reads back the identity objects [JSON.stringify] writes. *)
Definition JSON_round_trip `{Runtime} : Prop :=
  ∀ identity : SignatureIdentity,
    JSON_parse (JSON_stringify (identity_object identity))
    = Some (identity_object identity).

(** ** Example directories *)

Module Example.

Definition alice : SignatureIdentity :=
  {| keybaseUser := Some "alice"; pgpPublicKeyUrl := None |}.

Definition mallory : SignatureIdentity :=
  {| keybaseUser := Some "mallory"; pgpPublicKeyUrl := None |}.

(** A process on Linux with the given [HOME]. *)
Definition linux (home : option string) : Process :=
  {| platform := "linux"; USERPROFILE := None; HOME := home |}.

(** A machine where [/home/u] exists and holds no trust store yet. *)
Definition fresh_home : FS :=
  list_to_map [("/", Directory); ("/home", Directory); ("/home/u", Directory)].

(** The same machine after the operator approved [alice] for [p]. *)
Definition trusting_home : FS :=
  <["/home/u/.pkgsign-trust-store/p.trust" :=
      File (Reference.stringify (identity_object alice))]>
    (<["/home/u/.pkgsign-trust-store" := Directory]> fresh_home).

(** A machine whose users have no home directory. *)
Definition no_home : FS := list_to_map [("/", Directory)].

(** The package [/p]: a file [a.txt] holding [hi], a manifest naming the
    package [p], and a signature document. *)
Definition manifest : string :=
  Reference.stringify (JSObject [("name", JSString "p")]).

Definition signed (who message : string) : string :=
  Reference.stringify
    (JSObject [("signature", JSString (who +:+ " signed " +:+ message))]).

Definition listing (manifest : string) : list SignatureFileEntry :=
  [ {| path := "a.txt"; sha512 := Reference.digest "hi" |};
    {| path := "package.json"; sha512 := Reference.digest manifest |} ].

Definition package (manifest signature_json : string) : FS :=
  list_to_map
    [("/", Directory); ("/p", Directory); ("/p/a.txt", File "hi");
     ("/p/package.json", File manifest);
     ("/p/signature.json", File signature_json);
     ("/home", Directory); ("/home/u", Directory)].

(** The context of a content check in [/p], for the files found on disk
    and the tags of the document. *)
Definition context (relFilesOnDisk tags : list string) : VerificationContext.t :=
  {| VerificationContext.dir := "/p";
     VerificationContext.relFilesOnDisk := relFilesOnDisk;
     VerificationContext.expectedPackageName := "p";
     VerificationContext.signatureEntries := tags;
     VerificationContext.untrustedIdentity := None;
     VerificationContext.untrustedPackageVersion := None;
     VerificationContext.isPrivate := None |}.

(** The document of [/p]: a files entry and the identity of [alice]. *)
Definition tags : list string := ["files/v1alpha1"; "identity/v1alpha1"].

Definition document (manifest : string) : list ModuleVerifier.SignatureEntry.t :=
  [ Double.filesEntry (H := Reference.runtime) tags (listing manifest);
    Double.identityEntry alice ].

Definition message (manifest : string) : string :=
  Double.canonicalMessage
    {| ModuleVerifier.entries := document manifest;
       ModuleVerifier.signature := "" |}.

(** The package with its document signed by [alice], the files found in
    it, and a run of the verifier on this package for the user [u]. *)
Definition signed_package : FS :=
  package manifest (signed "alice" (message manifest)).

Definition found : list string := ["a.txt"; "package.json"; "signature.json"].

Definition run (relFilesOnDisk : list string) (expectedPackageName : string)
    (fs : FS) : outcome ModuleVerificationResult.t * FS :=
  ModuleVerifier.verify (H := Reference.runtime)
    (H0 := Double.collaborators (document manifest))
    (linux (Some "/home/u")) "/p" relFilesOnDisk expectedPackageName fs.

End Example.

(** ** The content check of a files entry *)

Section FilesEntryVocabulary.
Context `{Runtime}.

(** Some entry of the document carries the tag of the package manifest
    entry. *)
Definition manifest_entry_present (context : VerificationContext.t) : Prop :=
  "packageJson/v1alpha1" ∈ VerificationContext.signatureEntries context.

(** The skip set: [signature.json], and [package.json] exactly when a
    package manifest entry is present. *)
Definition in_skip_set (context : VerificationContext.t) (p : string) : Prop :=
  p = "signature.json"
  ∨ (p = "package.json" ∧ manifest_entry_present context).

(** The path occurs in the list of the entry. *)
Definition listed (files : list SignatureFileEntry) (p : string) : Prop :=
  ∃ e, e ∈ files ∧ path e = p.

(** The hash the list holds for a path: that of the last pair with this
    path. *)
Definition listed_hash (files : list SignatureFileEntry) (p : string)
  : option string :=
  sha512 <$> last (filter (λ e, path e = p) files).

(** The path occurs among the normalised relative paths on disk. *)
Definition on_disk (context : VerificationContext.t) (p : string) : Prop :=
  ∃ relFileOnDisk,
    relFileOnDisk ∈ VerificationContext.relFilesOnDisk context
    ∧ SignatureFilesEntry.normalise relFileOnDisk = p.

(** A file on disk passes the first loop: its normalised path is in the
    skip set, or it is listed and the SHA-512 of the file is the listed
    hash. *)
Definition passes (context : VerificationContext.t)
    (files : list SignatureFileEntry) (fs : FS) (relFileOnDisk : string) : Prop :=
  let p := SignatureFilesEntry.normalise relFileOnDisk in
  in_skip_set context p
  ∨ ∃ h, listed_hash files p = Some h
         ∧ sha512OfFile (path_join (VerificationContext.dir context) p) fs
           = Returned h.

(** A pair of the list passes the second loop: it is [signature.json], or
    its path is on disk. *)
Definition present (context : VerificationContext.t) (e : SignatureFileEntry)
  : Prop :=
  path e = "signature.json" ∨ on_disk context (path e).

(** The flag [verify] computes before its loops. *)
Definition skipPackageJson (context : VerificationContext.t) : bool :=
  existsb (λ x, String.eqb x "packageJson/v1alpha1")
          (VerificationContext.signatureEntries context).

End FilesEntryVocabulary.

(** ** The module verifier *)

Section ModuleVerifierVocabulary.
Import ModuleVerifier.
Context `{Runtime} `{Collaborators}.

(** [<dir>/signature.json] is read and parses as [signature]. *)
Definition signature_document (dir : string) (fs : FS) (signature : SignatureInfo)
  : Prop :=
  ∃ rawJson,
    readFilePromise (path_join dir "signature.json") fs = Returned rawJson
    ∧ SignatureParser_parse rawJson = Returned signature.

(** Reading or parsing [<dir>/signature.json] fails. *)
Definition signature_fails (dir : string) (fs : FS) : Prop :=
  (∃ e, readFilePromise (path_join dir "signature.json") fs = Thrown e)
  ∨ (∃ rawJson e,
       readFilePromise (path_join dir "signature.json") fs = Returned rawJson
       ∧ SignatureParser_parse rawJson = Thrown e).

(** The content check of every entry passes. *)
Definition entries_pass (context : Context) (signature : SignatureInfo) (fs : FS)
  : Prop :=
  Forall (λ entry, SignatureEntry.verify entry context fs = Returned None)
         (entries signature).

(** A content check that fails, fails with [Compromised]. *)
Definition entries_fail_compromised (context : Context)
    (signature : SignatureInfo) (fs : FS) : Prop :=
  Forall (λ entry, ∀ failure,
            SignatureEntry.verify entry context fs = Returned (Some failure) →
            ModuleVerificationResult.status failure = Compromised)
         (entries signature).

(** [identity] is provided by the first entry that provides an identity. *)
Definition extracted (signature : SignatureInfo) (identity : SignatureIdentity)
  : Prop :=
  ∃ before entry after,
    entries signature = before ++ entry :: after
    ∧ Forall (λ e, SignatureEntry.getIdentity e = None) before
    ∧ SignatureEntry.getIdentity entry = Some identity.

(** The verifier an identity is routed to: the Keybase verifier when
    [keybaseUser] is populated, else the PGP verifier when
    [pgpPublicKeyUrl] is. *)
Definition routed (identity : SignatureIdentity)
    (verifier : SignatureIdentity → string → string → IO bool) : Prop :=
  (is_Some (keybaseUser identity) ∧ verifier = KeybaseVerifier_verify)
  ∨ (keybaseUser identity = None ∧ is_Some (pgpPublicKeyUrl identity)
     ∧ verifier = PgpVerifier_verify).

(** The package reaches its signature check, and the verifier's answer on
    the canonical message is [valid], leaving the file system as [fs']. *)
Definition signature_checked (dir : string) (relFilesOnDisk : list string)
    (expectedPackageName : string) (fs : FS) (identity : SignatureIdentity)
    (valid : bool) (fs' : FS) : Prop :=
  ∃ signature verifier,
    signature_document dir fs signature
    ∧ entries_pass {| dir := dir; relFilesOnDisk := relFilesOnDisk;
                      expectedPackageName := expectedPackageName |} signature fs
    ∧ extracted signature identity
    ∧ routed identity verifier
    ∧ verifier identity (ModuleVerifier.signature signature)
               (createDeterministicString signature) fs
      = (Returned valid, fs').

End ModuleVerifierVocabulary.


(** ** The verify command *)

Module VerifyCommand.

Module Prompt.
(** A property of the schema handed to [prompt.get]. *)
Record t : Type := {
  name : string;
  type : string;
  description : string;
  required : bool;
  default : bool;
}.
End Prompt.

(** The results of a hierarchy verification: the properties of the object,
    path and result, in the order in which [for ... in] enumerates them
    (an object holds a path once). *)
Abbreviation Results := (list (string * ModuleVerificationResult.t)).

(** What the command calls that is not among the sources: [basename] of
    Node's [path]; the verification of a package hierarchy
    ([ModuleHierarchyVerifier], built for a path, and its [verify]); the
    [prompt] library, whose [get] hands back the operator's answers, name
    and value in enumeration order, or an error; and [addTrusted] of the
    trust store when it is handed [undefined] for the identity, which it
    stringifies to [undefined] and hands to [writeFilePromise]. *)
Class Terminal : Type := {
  path_basename : string → string;
  ModuleHierarchyVerifier_verify : string → IO Results;
  prompt_get : list Prompt.t → outcome (list (string * JSValue));
  addTrusted_undefined : string → IO ();
}.

Section VerifyCommand.
Context `{Runtime} `{Terminal} (process : Process).

(** [results[path]]. *)
Fixpoint property (results : Results) (path : string)
  : option ModuleVerificationResult.t :=
  match results with
  | [] => None
  | (key, result) :: results =>
      if String.eqb key path then Some result else property results path
  end.

(** [path.endsWith(suffix)]. *)
Definition endsWith (path suffix : string) : bool :=
  (String.length suffix <=? String.length path)%nat
  && String.eqb
       (String.substring (String.length path - String.length suffix)
                         (String.length suffix) path)
       suffix.

(** [lstatSync(path).isFile()]. *)
Definition lstatSync_isFile (path : string) (fs : FS) : outcome bool :=
  match fs !! path with
  | Some (File _) => Returned true
  | Some Directory => Returned false
  | None => Thrown (SystemError "ENOENT")
  end.

Definition identityString (identity : SignatureIdentity) : string :=
  match keybaseUser identity with
  | Some user => user +:+ " on keybase.io"
  | None =>
      "public key at "
        +:+ match pgpPublicKeyUrl identity with
            | Some url => url
            | None => "undefined"
            end
  end.

(** The first loop of [verifyDirectory], over the results that remain: a
    prompt for every untrusted result whose basename has no prompt yet. *)
Fixpoint verifyDirectory_prompts (remaining : Results) (prompts : list Prompt.t)
  : outcome (list Prompt.t) :=
  match remaining with
  | [] => Returned prompts
  | (path, result) :: remaining =>
      match ModuleVerificationResult.status result with
      | Untrusted =>
          match ModuleVerificationResult.untrustedIdentity result with
          | None => Thrown TypeError
          | Some untrustedIdentity =>
              if (length (filter (λ value,
                                    path_basename (Prompt.name value)
                                    = path_basename path) prompts) =? 0)%nat
              then
                verifyDirectory_prompts remaining
                  (prompts ++
                   [ {| Prompt.name := path;
                        Prompt.type := "boolean";
                        Prompt.description :=
                          "Package '" +:+ path_basename path
                          +:+ "' is not trusted, but is signed by "
                          +:+ identityString untrustedIdentity +:+ ". "
                          +:+ "Do you want to trust this identity to sign '"
                          +:+ path_basename path +:+ "' now and forever";
                        Prompt.required := true;
                        Prompt.default := false |} ])
              else verifyDirectory_prompts remaining prompts
          end
      | _ => verifyDirectory_prompts remaining prompts
      end
  end.

(** The loop over the answers that remain; it returns [didModify]. *)
Fixpoint verifyDirectory_trust (results : Results)
    (remaining : list (string * JSValue)) (didModify : bool) : IO bool :=
  match remaining with
  | [] => mret didModify
  | (path, answer) :: remaining =>
      if truthy answer then
        match property results path with
        | None => of_outcome (Thrown TypeError)
        | Some result =>
            match ModuleVerificationResult.untrustedIdentity result with
            | Some untrustedIdentity =>
                TrustStore.addTrusted process untrustedIdentity
                                      (path_basename path)
            | None => addTrusted_undefined (path_basename path)
            end;;
            verifyDirectory_trust results remaining true
        end
      else verifyDirectory_trust results remaining didModify
  end.

(** The four counters after the last loop: compromised, unsigned,
    untrusted, trusted. *)
Definition verifyDirectory_counts (results : Results) : nat * nat * nat * nat :=
  fold_left
    (λ '(compromisedCount, unsignedCount, untrustedCount, trustedCount) entry,
       match ModuleVerificationResult.status (snd entry) with
       | Compromised =>
           (S compromisedCount, unsignedCount, untrustedCount, trustedCount)
       | Unsigned =>
           (compromisedCount, S unsignedCount, untrustedCount, trustedCount)
       | Untrusted =>
           (compromisedCount, unsignedCount, S untrustedCount, trustedCount)
       | Trusted =>
           (compromisedCount, unsignedCount, untrustedCount, S trustedCount)
       end)
    results (0, 0, 0, 0)%nat.

(** The summary of [verifyDirectory]: the lines it logs and what it
    returns. *)
Definition verifyDirectory_summary (results : Results) : list string * bool :=
  let '(compromisedCount, unsignedCount, untrustedCount, trustedCount) :=
    verifyDirectory_counts results in
  ([ "package verification summary:";
     pretty compromisedCount +:+ " compromised";
     pretty unsignedCount +:+ " unsigned";
     pretty untrustedCount +:+ " untrusted";
     pretty trustedCount +:+ " trusted" ],
   if ((0 <? compromisedCount) || (0 <? unsignedCount)
       || (0 <? untrustedCount))%nat
   then false else true).

(** [verifyDirectory]: the lines it logs and its result. *)
Definition verifyDirectory (path : string) : IO (list string * bool) :=
  results ← ModuleHierarchyVerifier_verify path;
  prompts ← of_outcome (verifyDirectory_prompts results []);
  results ←
    (if (0 <? length prompts)%nat then
       trustResults ← of_outcome (prompt_get prompts);
       didModify ← verifyDirectory_trust results trustResults false;
       if (didModify : bool) then ModuleHierarchyVerifier_verify path
       else mret results
     else mret results);
  mret (verifyDirectory_summary results).

(** [verifyTarball] throws an [Error] with this message. *)
Definition verifyTarball (tarballPath : string) : IO (list string * bool) :=
  of_outcome (Thrown (ForeignError "not supported yet!")).

(** [execute]: the lines logged and the exit code. *)
Definition execute (path : string) : IO (list string * nat) :=
  isTarball ←
    (if endsWith path ".tgz" then reading (lstatSync_isFile path)
     else mret false);
  logged ←
    (if (isTarball : bool) then verifyTarball path else verifyDirectory path);
  let '(lines, outcome) := (logged : list string * bool) in
  mret (lines, if outcome then 0%nat else 1%nat).

End VerifyCommand.
End VerifyCommand.

(** ** The JSON normaliser *)

Module JsonNormalize.

(** The replacer handed to [normalizeSync], taken as a function of the key
    and the value that neither throws nor keeps state. *)
Abbreviation Replacer := (string → JSValue → JSValue).

(** A run of the synchronous serialiser within a number of nested calls:
    [None] when the calls are used up, otherwise an exception or what is
    handed to the [done] callback, a text or [undefined] ([None]). *)
Definition Run (A : Type) : Type := option (outcome A).

Definition Run_bind {A B} (m : Run A) (k : A → Run B) : Run B :=
  match m with
  | None => None
  | Some (Thrown e) => Some (Thrown e)
  | Some (Returned a) => k a
  end.

(** [keys.map(f)], for an [f] that may throw: the calls are made in the
    order of the keys. *)
Fixpoint map_keys {K A} (f : K → Run A) (keys : list K) : Run (list A) :=
  match keys with
  | [] => Some (Returned [])
  | key :: keys =>
      Run_bind (f key) (λ a,
      Run_bind (map_keys f keys) (λ rest, Some (Returned (a :: rest))))
  end.

(** [typeof v === "object"]. *)
Definition is_object (v : JSValue) : bool :=
  match v with
  | JSNull | JSArray _ | JSObject _ => true
  | _ => false
  end.

(** [Object.keys] of an object: every key once, where it occurs first.
    (Keys that are array indices come first in JavaScript; the order of
    the keys does not reach the text of an object, whose members are
    sorted.) *)
Definition Object_keys (props : list (string * JSValue)) : list string :=
  reverse (remove_dups (reverse props.*1)).

(** [obj[key]]. *)
Definition member (props : list (string * JSValue)) (key : string) : JSValue :=
  default JSUndefined (own_property props key).

(** How the default [sort] of an array sees an element: a string as it
    is, [null] as the text [null]. *)
Definition sort_key (value : option string) : string := default "null" value.

(** [values.sort()], on texts and [null]: by the characters of the
    elements as strings.  (For texts of characters below 128 this is the
    order by code units that [sort] uses; the properties stated about the
    normaliser do not depend on which total order it is.) *)
Definition sort (values : list (option string)) : list (option string) :=
  merge_sort (λ a b, String.le (sort_key a) (sort_key b)) values.

(** [values.filter(Boolean)]: [null] and the empty text are dropped. *)
Definition filter_Boolean (values : list (option string)) : list string :=
  omap (λ value,
          match value with
          | Some text => if String.eqb text "" then None else Some text
          | None => None
          end) values.

Definition quotation_mark : string := String "034"%char "".

Section JsonNormalize.
Context `{Runtime}.

(** [handleLiteral]: what [JSON.stringify] gives for a literal is handed
    to [done]; it is [undefined] for [undefined], and [JSON.stringify]
    throws for none of the values of this model. *)
Definition handleLiteral (value : JSValue) : outcome (option string) :=
  Returned match value with
           | JSUndefined => None
           | _ => Some (JSON_stringify value)
           end.

(** [handleReplacer]: the value and the replacer to go on with.  No value
    of this model is a function, so that without a replacer the value
    stays as it is. *)
Definition handleReplacer (val : JSValue) (key : option string)
    (replacer : option Replacer) : outcome (JSValue * option Replacer) :=
  match replacer with
  | Some onValue =>
      match key with
      | None => Thrown (ForeignError "key is undefined in handleReplacer")
      | Some key =>
          let value := onValue key val in
          Returned (value, if is_object value then Some onValue else None)
      end
  | None => Returned (val, None)
  end.

(** [handleObject], for the arrays and objects that [serializeSync] hands
    to it.  The element of [values] for an item or a member is the text
    its serialisation hands back, or [null] ([None]) when that is
    [undefined]; a member whose value is [undefined] leaves no element.
    An array is closed in item order; an object after [sort] and
    [filter(Boolean)], members as the key between quotation marks, a
    colon and the text.  The last case is not reached: [serializeSync]
    hands over arrays and objects only. *)
Definition handleObject
    (recurse : JSValue → option Replacer → string → Run (option string))
    (obj : JSValue) (replacer : option Replacer) : Run (option string) :=
  match obj with
  | JSArray items =>
      let mapArray '(index, item) :=
        recurse (match item with JSUndefined => JSNull | _ => item end)
                replacer (pretty (index : nat)) in
      Run_bind (map_keys mapArray (imap (λ index item, (index, item)) items))
        (λ values,
           Some (Returned (Some
             ("[" +:+ String.concat "," (map (default "null") values) +:+ "]"))))
  | JSObject props =>
      let mapObject key :=
        match member props key with
        | JSUndefined => Some (Returned [])
        | value =>
            Run_bind (recurse value replacer key) (λ val,
              Some (Returned
                [ (λ val, quotation_mark +:+ key +:+ quotation_mark
                          +:+ ":" +:+ val) <$> val ]))
        end in
      Run_bind (map_keys mapObject (Object_keys props))
        (λ values,
           Some (Returned (Some
             ("{" +:+ String.concat "," (filter_Boolean (sort (concat values)))
                  +:+ "}"))))
  | _ => Some (Returned (Some "{}"))
  end.

(** [serializeSync], within [calls] nested calls. *)
Fixpoint serializeSync (calls : nat) (obj : JSValue)
    (replacer : option Replacer) (key : option string) : Run (option string) :=
  match calls with
  | 0 => None
  | S calls =>
      match handleReplacer obj key replacer with
      | Thrown e => Some (Thrown e)
      | Returned (value, onValue) =>
          if negb (truthy value) || negb (is_object value)
          then Some (handleLiteral value)
          else handleObject
                 (λ child replacer key,
                    serializeSync calls child replacer (Some key))
                 value onValue
      end
  end.

End JsonNormalize.

(** The nesting of a value. *)
Fixpoint depth (v : JSValue) : nat :=
  match v with
  | JSArray items => S (foldr (λ item, Nat.max (depth item)) 0 items)
  | JSObject props => S (foldr (λ kv, Nat.max (depth (snd kv))) 0 props)
  | _ => 0
  end.

(** [normalizeSync]: with a replacer the first call throws, and without
    one every nested call is on an item or a member, so that one call
    more than the nesting of the value is never used up. *)
Definition normalizeSync `{Runtime} (obj : JSValue)
    (replacer : option Replacer) : Run (option string) :=
  serializeSync (S (depth obj)) obj replacer None.

End JsonNormalize.

(** ** Further vocabulary: the JSON normaliser *)

(** Two values with the same content: literals that are equal; arrays
    whose items, [undefined] taken as [null], have the same content in
    turn; objects whose members have the same content, key by key, an
    absent member being [undefined]. *)
#[local] Unset Elimination Schemes.
Inductive same_content : JSValue → JSValue → Prop :=
  | same_literal (v : JSValue) :
      JsonNormalize.depth v = 0 → same_content v v
  | same_array (items items' : list JSValue) :
      Forall2 (λ item item',
                 same_content
                   (match item with JSUndefined => JSNull | _ => item end)
                   (match item' with JSUndefined => JSNull | _ => item' end))
              items items' →
      same_content (JSArray items) (JSArray items')
  | same_object (props props' : list (string * JSValue)) :
      (∀ key, same_content (JsonNormalize.member props key)
                           (JsonNormalize.member props' key)) →
      same_content (JSObject props) (JSObject props').
#[local] Set Elimination Schemes.

(** The members of an object that are not [undefined]. *)
Definition is_defined (v : JSValue) : bool :=
  match v with
  | JSUndefined => false
  | _ => true
  end.

Definition defined_members (props : list (string * JSValue))
  : list (string * JSValue) :=
  filter (λ kv, is_defined (snd kv)) props.

(** ** A test double for the terminal *)

Module TerminalDouble.
Import VerifyCommand.

(** The text after the last slash. *)
Fixpoint basename_from (acc p : string) : string :=
  match p with
  | EmptyString => acc
  | String c rest =>
      if Ascii.eqb c "/"%char then basename_from "" rest
      else basename_from (acc +:+ String c "") rest
  end.

Definition basename (p : string) : string := basename_from "" p.

(** A hierarchy of one package, the directory itself, holding the files
    [found]: it is verified under its basename. *)
Definition hierarchy `{Runtime} `{ModuleVerifier.Collaborators}
    (process : Process) (found : list string) (path : string) : IO Results :=
  verdict ← ModuleVerifier.verify process path found (basename path);
  mret [(path, verdict)].

(** An operator who gives the same answer to every prompt. *)
Definition terminal `{Runtime} `{ModuleVerifier.Collaborators}
    (process : Process) (found : list string) (answer : JSValue) : Terminal :=
  {| path_basename := basename;
     ModuleHierarchyVerifier_verify := hierarchy process found;
     prompt_get := λ prompts,
       Returned (map (λ prompt, (Prompt.name prompt, answer)) prompts);
     addTrusted_undefined := λ _, of_outcome (Thrown TypeError) |}.

(** A terminal whose hierarchy verification hands back given results. *)
Definition reporting (results : Results) (answer : JSValue) : Terminal :=
  {| path_basename := basename;
     ModuleHierarchyVerifier_verify := λ _, mret results;
     prompt_get := λ prompts,
       Returned (map (λ prompt, (Prompt.name prompt, answer)) prompts);
     addTrusted_undefined := λ _, of_outcome (Thrown TypeError) |}.

End TerminalDouble.

(** ** Further vocabulary: the verify command *)

Global Instance ModuleVerificationStatus_eq_dec :
  EqDecision ModuleVerificationStatus.
Proof. solve_decision. Defined.

(** The number of results with a status. *)
Definition count_status (status : ModuleVerificationStatus)
    (results : VerifyCommand.Results) : nat :=
  length (filter (λ entry, ModuleVerificationResult.status (snd entry) = status)
                 results).

(** Every result is [Trusted]. *)
Definition all_trusted (results : VerifyCommand.Results) : Prop :=
  Forall (λ entry, ModuleVerificationResult.status (snd entry) = Trusted) results.

(** ** Further vocabulary: contexts *)

(** The context of a content check with another list of files on disk. *)
Definition with_relFilesOnDisk (context : VerificationContext.t)
    (relFilesOnDisk : list string) : VerificationContext.t :=
  {| VerificationContext.dir := VerificationContext.dir context;
     VerificationContext.relFilesOnDisk := relFilesOnDisk;
     VerificationContext.expectedPackageName :=
       VerificationContext.expectedPackageName context;
     VerificationContext.signatureEntries :=
       VerificationContext.signatureEntries context;
     VerificationContext.untrustedIdentity :=
       VerificationContext.untrustedIdentity context;
     VerificationContext.untrustedPackageVersion :=
       VerificationContext.untrustedPackageVersion context;
     VerificationContext.isPrivate := VerificationContext.isPrivate context |}.

(** ** Further vocabulary: verifiers *)

(** The two identity verifiers leave the file system as it is. *)
Definition verifiers_read_only `{ModuleVerifier.Collaborators} : Prop :=
  ∀ identity signature message fs,
    snd (ModuleVerifier.KeybaseVerifier_verify identity signature message fs) = fs
    ∧ snd (ModuleVerifier.PgpVerifier_verify identity signature message fs) = fs.

(** A prompt asks about an untrusted result of [results]: it is named
    after the path of one, quotes the basename and the signer, and is a
    required yes-or-no question whose default is no. *)
Definition asks_about `{VerifyCommand.Terminal}
    (results : VerifyCommand.Results) (prompt : VerifyCommand.Prompt.t) : Prop :=
  ∃ result signer,
    (VerifyCommand.Prompt.name prompt, result) ∈ results
    ∧ ModuleVerificationResult.status result = Untrusted
    ∧ ModuleVerificationResult.untrustedIdentity result = Some signer
    ∧ VerifyCommand.Prompt.type prompt = "boolean"
    ∧ VerifyCommand.Prompt.required prompt = true
    ∧ VerifyCommand.Prompt.default prompt = false.

(** The basenames the prompts ask about. *)
Definition prompted `{VerifyCommand.Terminal}
    (prompts : list VerifyCommand.Prompt.t) : list string :=
  map (λ prompt, VerifyCommand.path_basename (VerifyCommand.Prompt.name prompt))
      prompts.

(** Every untrusted result names its signer. *)
Definition untrusted_are_identified (results : VerifyCommand.Results) : Prop :=
  Forall (λ entry,
            ModuleVerificationResult.status (snd entry) = Untrusted →
            is_Some (ModuleVerificationResult.untrustedIdentity (snd entry)))
         results.

(** The operator declines a prompt: the answer is falsy. *)
Definition declined (answer : string * JSValue) : Prop :=
  truthy (snd answer) = false.

(** The command run on the example package [/p] for the user [u], with an
    operator who gives [answer] to every prompt. *)
Module CommandExample.

Definition terminal (answer : JSValue) : VerifyCommand.Terminal :=
  TerminalDouble.terminal (H := Reference.runtime)
    (H0 := Double.collaborators (Example.document Example.manifest))
    (Example.linux (Some "/home/u")) Example.found answer.

Definition execute (answer : JSValue) (path : string) (fs : FS)
  : outcome (list string * nat) * FS :=
  VerifyCommand.execute (H := Reference.runtime) (H0 := terminal answer)
    (Example.linux (Some "/home/u")) path fs.

Definition untrusted (signer : SignatureIdentity) (name : string)
  : ModuleVerificationResult.t :=
  ModuleVerifier.result Untrusted None name (Some signer).

(** Two packages of the same name at different places, signed by different
    identities, and a trusted one. *)
Definition results : VerifyCommand.Results :=
  [ ("/a/node_modules/p", untrusted Example.alice "p");
    ("/b/node_modules/p", untrusted Example.mallory "p");
    ("/c", ModuleVerifier.result Trusted None "c" None) ].

Definition prompts : list VerifyCommand.Prompt.t :=
  [ {| VerifyCommand.Prompt.name := "/a/node_modules/p";
       VerifyCommand.Prompt.type := "boolean";
       VerifyCommand.Prompt.description :=
         "Package 'p' is not trusted, but is signed by alice on keybase.io. "
         +:+ "Do you want to trust this identity to sign 'p' now and forever";
       VerifyCommand.Prompt.required := true;
       VerifyCommand.Prompt.default := false |} ].

End CommandExample.

(** The element of [values] for a member: the key between quotation
    marks, a colon and the text of the value. *)
Definition member_text (key text : string) : string :=
  JsonNormalize.quotation_mark +:+ key +:+ JsonNormalize.quotation_mark
    +:+ ":" +:+ text.

(** Values to normalise: an object with an [undefined] member and an
    array that holds [undefined], and the same content written in another
    order, without the member, and with [null] in the array. *)
Module NormalizeExample.

Definition written : JSValue :=
  JSObject [ ("a", JSBoolean true); ("b", JSUndefined);
             ("c", JSArray [JSUndefined; JSString "x"]) ].

Definition rewritten : JSValue :=
  JSObject [ ("c", JSArray [JSNull; JSString "x"]); ("a", JSBoolean true) ].

End NormalizeExample.

(** * Properties *)

(** Unfolding the monad of [IO]. *)
Ltac io_unfold :=
  unfold mbind, mret, IO_bind, IO_ret, of_outcome, reading, attempt in *.

(** ** Strings *)

Lemma string_app_cons (x : ascii) (a b : string) :
  String x a +:+ b = String x (a +:+ b).
Proof. reflexivity. Qed.

Lemma string_app_nil (b : string) : "" +:+ b = b.
Proof. reflexivity. Qed.

Lemma string_app_assoc (a b c : string) : (a +:+ b) +:+ c = a +:+ (b +:+ c).
Proof.
  induction a as [|x a IH]; [done|]. rewrite !string_app_cons. by f_equal.
Qed.

Lemma string_app_empty_r (a : string) : a +:+ "" = a.
Proof. induction a as [|x a IH]; [done|]. rewrite string_app_cons. by f_equal. Qed.

(** ** The canonical serialization of a files entry *)

Lemma toDeterministicString_from (acc : string) (files : list SignatureFileEntry) :
  fold_left
    (λ deterministicString entry,
       deterministicString +:+ (((path entry +:+ LF) +:+ sha512 entry) +:+ LF))
    files acc
  = acc +:+ concatenation (flat_map pair_parts files).
Proof.
  revert acc. induction files as [|e files IH]; intros acc; simpl.
  - by rewrite string_app_empty_r.
  - rewrite IH. unfold concatenation. simpl.
    by rewrite !string_app_assoc.
Qed.

Lemma toDeterministicString_concatenation (files : list SignatureFileEntry) :
  SignatureFilesEntry.toDeterministicString files
  = concatenation (flat_map pair_parts files).
Proof.
  unfold SignatureFilesEntry.toDeterministicString.
  by rewrite toDeterministicString_from, string_app_nil.
Qed.

Lemma line_feed_splits (a b x y : string) :
  line_feed_free a = true → line_feed_free b = true →
  a +:+ LF +:+ x = b +:+ LF +:+ y → a = b ∧ x = y.
Proof.
  revert b. induction a as [|c a IH]; intros [|d b] Ha Hb Heq.
  - rewrite !string_app_nil in Heq. unfold LF in Heq.
    rewrite !string_app_cons, !string_app_nil in Heq. by injection Heq.
  - exfalso. unfold LF in Heq.
    rewrite !string_app_cons, !string_app_nil in Heq.
    injection Heq as Hc _. subst d. simpl in Hb. done.
  - exfalso. unfold LF in Heq.
    rewrite !string_app_cons, !string_app_nil in Heq.
    injection Heq as Hc _. subst c. simpl in Ha. done.
  - rewrite !string_app_cons in Heq. injection Heq as Hc Heq.
    simpl in Ha, Hb. apply andb_prop in Ha as [_ Ha], Hb as [_ Hb].
    destruct (IH b Ha Hb Heq) as [-> ->]. by subst.
Qed.

Lemma serialization_injective (l1 l2 : list SignatureFileEntry) :
  Forall pair_line_feed_free l1 → Forall pair_line_feed_free l2 →
  concatenation (flat_map pair_parts l1) = concatenation (flat_map pair_parts l2) →
  l1 = l2.
Proof.
  intros H1. revert l2.
  induction H1 as [|e1 l1 [Hp1 Hs1] _ IH]; intros l2 H2 Heq.
  - destruct H2 as [|e2 l2 _ _]; [done|]. exfalso.
    unfold concatenation in Heq. simpl in Heq.
    destruct (path e2); unfold LF in Heq;
      rewrite ?string_app_cons, ?string_app_nil in Heq; discriminate.
  - destruct H2 as [|e2 l2 [Hp2 Hs2] H2].
    + exfalso. unfold concatenation in Heq. simpl in Heq.
      destruct (path e1); unfold LF in Heq;
        rewrite ?string_app_cons, ?string_app_nil in Heq; discriminate.
    + unfold concatenation in Heq. simpl in Heq.
      apply line_feed_splits in Heq as [Hp Heq]; [|done..].
      apply line_feed_splits in Heq as [Hs Heq]; [|done..].
      f_equal.
      * destruct e1, e2; simpl in *; by subst.
      * by apply IH.
Qed.

(** C3 (as amended).  The canonical serialization of a files entry is the
    concatenation, over its pairs in their stored order, of the path, a
    line feed, the hash and a line feed.  Nothing is sorted: two files
    entries that hold the same pairs in orders that disagree at some
    position serialize differently, provided no path and no hash holds a
    line feed. *)
Theorem files_serialization_keeps_order (files files' : list SignatureFileEntry) :
  SignatureFilesEntry.toDeterministicString files
    = concatenation (flat_map pair_parts files)
  ∧ (files ≡ₚ files' →
     (∃ i, files !! i ≠ files' !! i) →
     Forall pair_line_feed_free files →
     SignatureFilesEntry.toDeterministicString files
       ≠ SignatureFilesEntry.toDeterministicString files').
Proof.
  split; [apply toDeterministicString_concatenation|].
  intros Hperm [i Hi] Hfree Heq.
  rewrite !toDeterministicString_concatenation in Heq.
  apply serialization_injective in Heq; [by subst| done |].
  by rewrite <- Hperm.
Qed.

Lemma files_serialization_keeps_order_witness :
  let a := {| path := "a.txt"; sha512 := "01" |} in
  let b := {| path := "b.txt"; sha512 := "02" |} in
  SignatureFilesEntry.toDeterministicString [a; b]
    ≠ SignatureFilesEntry.toDeterministicString [b; a].
Proof.
  intros a b.
  apply (files_serialization_keeps_order [a; b] [b; a]).
  - apply perm_swap.
  - exists 0. simpl. discriminate.
  - repeat constructor.
Defined.

(** C3 (as stated) fails: with line feeds inside the members, two orders
    of the same two pairs serialize to the same text. *)
Lemma files_serialization_collision :
  let a := {| path := "x"; sha512 := "x" |} in
  let b := {| path := "x" +:+ LF +:+ "x"; sha512 := "x" +:+ LF +:+ "x" |} in
  [a; b] ≡ₚ [b; a]
  ∧ [a; b] !! 0 ≠ [b; a] !! 0
  ∧ SignatureFilesEntry.toDeterministicString [a; b]
    = SignatureFilesEntry.toDeterministicString [b; a].
Proof.
  intros a b. split; [apply perm_swap|]. split; [|reflexivity].
  simpl. intros Heq. discriminate Heq.
Qed.

(** ** The reference runtime reads back what it writes *)

Section ReferenceJSON.
Import Reference.

Lemma string_token_escape_char (c : ascii) (rest : string) :
  string_token (escape_char c +:+ rest) = cons_char c (string_token rest).
Proof.
  destruct c as [[] [] [] [] [] [] [] []]; reflexivity.
Qed.

Lemma string_token_escape (s rest : string) :
  string_token (escape s +:+ String DQ rest) = Some (s, rest).
Proof.
  induction s as [|c s IH]; [reflexivity|].
  cbn [escape]. rewrite string_app_assoc, string_token_escape_char, IH. done.
Qed.

Lemma string_length_app (a b : string) :
  String.length (a +:+ b) = String.length a + String.length b.
Proof. induction a as [|c a IH]; [done|]. rewrite string_app_cons. simpl. by rewrite IH. Qed.

Lemma value_string_token (n : nat) (s rest : string) :
  value (S n) (String DQ (escape s +:+ String DQ rest)) = Some (JSString s, rest).
Proof. simpl. by rewrite string_token_escape. Qed.

Lemma value_object_members (n : nat) (s : string) :
  value (S n) (String "{" (String DQ s)) = members n (String DQ s) [].
Proof. reflexivity. Qed.

Lemma members_next (n : nat) (k v rest : string) (acc : list (string * JSValue)) :
  members (S (S n))
    (String DQ (escape k +:+ String DQ (String ":"
       (String DQ (escape v +:+ String DQ (String "," rest)))))) acc
  = members (S n) rest (acc ++ [(k, JSString v)]).
Proof.
  change (members (S (S n)) ?s acc) with
    (match string_token (escape k +:+ String DQ (String ":"
       (String DQ (escape v +:+ String DQ (String "," rest))))) with
     | Some (key, after) =>
         match skip_spaces after with
         | String ":"%char after =>
             match value (S n) after with
             | Some (v, after) =>
                 match skip_spaces after with
                 | String ","%char after => members (S n) after (acc ++ [(key, v)])
                 | String "}"%char after => Some (JSObject (acc ++ [(key, v)]), after)
                 | _ => None
                 end
             | None => None
             end
         | _ => None
         end
     | None => None
     end).
  rewrite string_token_escape. cbv beta iota.
  change (skip_spaces (String ":" ?s)) with (String ":" s). cbv beta iota.
  rewrite value_string_token. reflexivity.
Qed.

Lemma members_last (n : nat) (k v rest : string) (acc : list (string * JSValue)) :
  members (S (S n))
    (String DQ (escape k +:+ String DQ (String ":"
       (String DQ (escape v +:+ String DQ (String "}" rest)))))) acc
  = Some (JSObject (acc ++ [(k, JSString v)]), rest).
Proof.
  change (members (S (S n)) ?s acc) with
    (match string_token (escape k +:+ String DQ (String ":"
       (String DQ (escape v +:+ String DQ (String "}" rest))))) with
     | Some (key, after) =>
         match skip_spaces after with
         | String ":"%char after =>
             match value (S n) after with
             | Some (v, after) =>
                 match skip_spaces after with
                 | String ","%char after => members (S n) after (acc ++ [(key, v)])
                 | String "}"%char after => Some (JSObject (acc ++ [(key, v)]), after)
                 | _ => None
                 end
             | None => None
             end
         | _ => None
         end
     | None => None
     end).
  rewrite string_token_escape. cbv beta iota.
  change (skip_spaces (String ":" ?s)) with (String ":" s). cbv beta iota.
  rewrite value_string_token. reflexivity.
Qed.

Ltac flatten_text :=
  repeat (rewrite string_app_assoc || rewrite string_app_cons
          || rewrite string_app_nil).

Lemma parse_stringify_identity (identity : SignatureIdentity) :
  parse (stringify (identity_object identity)) = Some (identity_object identity).
Proof.
  destruct identity as [[user|] [url|]]; unfold parse;
    cbn [identity_object optional_member keybaseUser pgpPublicKeyUrl app
         stringify map String.concat fst snd]; unfold quote;
    flatten_text; cbn [String.length]; rewrite ?string_length_app;
    cbn [String.length]; rewrite ?Nat.add_succ_r.
  - rewrite value_object_members, members_next, members_last. reflexivity.
  - rewrite value_object_members, members_last. reflexivity.
  - rewrite value_object_members, members_last. reflexivity.
  - reflexivity.
Qed.

End ReferenceJSON.

(** ** The trust store *)

Section TrustStoreProperties.
Context `{Runtime} (process : Process).

Lemma createTrustStoreIfNecessary_unfold (fs : FS) :
  TrustStore.createTrustStoreIfNecessary process fs =
  match trustStoreFolder process with
  | None => (Thrown TypeError, fs)
  | Some folder =>
      match fs !! folder with
      | Some _ => (Returned folder, fs)
      | None =>
          match fs !! path_dirname folder with
          | Some Directory => (Returned folder, <[folder := Directory]> fs)
          | Some (File _) => (Thrown (SystemError "ENOTDIR"), fs)
          | None => (Thrown (SystemError "ENOENT"), fs)
          end
      end
  end.
Proof.
  unfold TrustStore.createTrustStoreIfNecessary, trustStoreFolder,
    trustStoreBaseFolder.
  destruct (if String.prefix "win" (platform process)
            then USERPROFILE process else HOME process) as [home|];
    io_unfold; simpl; [|done].
  unfold existsSync, mkdirSync.
  destruct (fs !! path_join home ".pkgsign-trust-store") as [n|] eqn:Hfolder.
  - rewrite bool_decide_eq_true_2 by eauto. done.
  - rewrite bool_decide_eq_false_2 by (intros [? ?]; done). simpl.
    rewrite Hfolder.
    by destruct (fs !! path_dirname (path_join home ".pkgsign-trust-store"))
      as [[?|]|].
Qed.

(** The guarded block of [isTrusted], on a file system where the folder is
    in place. *)
Lemma isTrusted_unfold (identity : SignatureIdentity) (packageName : string)
    (fs fs1 : FS) (folder : string) :
  TrustStore.createTrustStoreIfNecessary process fs = (Returned folder, fs1) →
  TrustStore.isTrusted process identity packageName fs =
  (Returned
     match fs1 !! path_join folder (packageName +:+ ".trust") with
     | Some (File content) =>
         match JSON_parse content with
         | Some trustInfo =>
             match get_property trustInfo "keybaseUser" with
             | Returned user =>
                 if strict_equals user (of_optional (keybaseUser identity)) then
                   match get_property trustInfo "pgpPublicKeyUrl" with
                   | Returned url =>
                       strict_equals url (of_optional (pgpPublicKeyUrl identity))
                   | Thrown _ => false
                   end
                 else false
             | Thrown _ => false
             end
         | None => false
         end
     | _ => false
     end, fs1).
Proof.
  intros Hcreate. unfold TrustStore.isTrusted.
  unfold mbind at 1. unfold IO_bind at 1. rewrite Hcreate.
  io_unfold. unfold readFilePromise, JSON_parse_checked.
  destruct (fs1 !! _) as [[content|]|]; simpl; try done.
  destruct (JSON_parse content) as [trustInfo|]; simpl; try done.
  destruct (get_property trustInfo "keybaseUser") as [user|]; simpl; try done.
  destruct (strict_equals user _); simpl; try done.
  destruct (get_property trustInfo "pgpPublicKeyUrl") as [url|]; simpl; done.
Qed.

Lemma addTrusted_unfold (identity : SignatureIdentity) (packageName : string)
    (fs : FS) :
  TrustStore.addTrusted process identity packageName fs =
  match TrustStore.createTrustStoreIfNecessary process fs with
  | (Returned folder, fs1) =>
      writeFilePromise (path_join folder (packageName +:+ ".trust"))
                       (JSON_stringify (identity_object identity)) fs1
  | (Thrown e, fs1) => (Thrown e, fs1)
  end.
Proof. reflexivity. Qed.

Lemma createTrustStoreIfNecessary_returns (fs fs1 : FS) (folder : string) :
  TrustStore.createTrustStoreIfNecessary process fs = (Returned folder, fs1) →
  trustStoreFolder process = Some folder
  ∧ is_Some (fs1 !! folder)
  ∧ (fs1 = fs ∨ (fs !! folder = None ∧ fs1 = <[folder := Directory]> fs)).
Proof.
  rewrite createTrustStoreIfNecessary_unfold.
  destruct (trustStoreFolder process) as [folder'|]; [|done].
  destruct (fs !! folder') as [n|] eqn:Hfolder.
  - intros [= <- <-]. rewrite Hfolder. eauto.
  - destruct (fs !! path_dirname folder') as [[?|]|]; try done.
    intros [= <- <-]. rewrite lookup_insert_eq. eauto.
Qed.

Lemma createTrustStoreIfNecessary_present (fs : FS) (folder : string) :
  trustStoreFolder process = Some folder → is_Some (fs !! folder) →
  TrustStore.createTrustStoreIfNecessary process fs = (Returned folder, fs).
Proof.
  intros Hfolder [n Hn]. rewrite createTrustStoreIfNecessary_unfold, Hfolder.
  by rewrite Hn.
Qed.

Lemma addTrusted_completes (identity : SignatureIdentity) (packageName : string)
    (fs fs' : FS) :
  TrustStore.addTrusted process identity packageName fs = (Returned (), fs') →
  ∃ folder,
    trustStoreFolder process = Some folder
    ∧ is_Some (fs' !! folder)
    ∧ fs' !! path_join folder (packageName +:+ ".trust")
      = Some (File (JSON_stringify (identity_object identity))).
Proof.
  rewrite addTrusted_unfold.
  destruct (TrustStore.createTrustStoreIfNecessary process fs)
    as [[folder|e] fs1] eqn:Hcreate; [|done].
  apply createTrustStoreIfNecessary_returns in Hcreate as (Hfolder & Hin & _).
  unfold writeFilePromise.
  set (file := path_join folder (packageName +:+ ".trust")).
  intros Hwrite. exists folder. split; [done|].
  assert (fs' = <[file := File (JSON_stringify (identity_object identity))]> fs1)
    as ->.
  { destruct (fs1 !! file) as [[?|]|];
      destruct (fs1 !! path_dirname file) as [[?|]|]; by simplify_eq. }
  split; [|by rewrite lookup_insert_eq].
  destruct (decide (file = folder)) as [->|Hne].
  - rewrite lookup_insert_eq. eauto.
  - by rewrite lookup_insert_ne.
Qed.

Lemma strict_equals_optional (a b : option string) :
  strict_equals (of_optional a) (of_optional b) = true ↔ a = b.
Proof.
  destruct a as [a|], b as [b|]; simpl; try (split; done).
  rewrite String.eqb_eq. split; congruence.
Qed.

Lemma identity_object_members (identity : SignatureIdentity) :
  get_property (identity_object identity) "keybaseUser"
    = Returned (of_optional (keybaseUser identity))
  ∧ get_property (identity_object identity) "pgpPublicKeyUrl"
    = Returned (of_optional (pgpPublicKeyUrl identity)).
Proof. by destruct identity as [[user|] [url|]]. Qed.

(** With the record of [identity] in place, [isTrusted] compares the
    identity it is asked about with [identity]. *)
Lemma isTrusted_reads_record (identity asked : SignatureIdentity)
    (packageName folder : string) (fs : FS) :
  JSON_round_trip →
  trustStoreFolder process = Some folder →
  is_Some (fs !! folder) →
  fs !! path_join folder (packageName +:+ ".trust")
    = Some (File (JSON_stringify (identity_object identity))) →
  TrustStore.isTrusted process asked packageName fs
  = (Returned (bool_decide (asked = identity)), fs).
Proof.
  intros Hjson Hfolder Hin Hfile.
  rewrite (isTrusted_unfold _ _ fs fs folder)
    by by apply createTrustStoreIfNecessary_present.
  rewrite Hfile, Hjson.
  destruct (identity_object_members identity) as [-> ->].
  f_equal. f_equal.
  destruct (strict_equals (of_optional (keybaseUser identity)) _) eqn:Huser.
  - apply strict_equals_optional in Huser.
    destruct (strict_equals (of_optional (pgpPublicKeyUrl identity)) _) eqn:Hurl.
    + apply strict_equals_optional in Hurl.
      rewrite bool_decide_eq_true_2; [done|].
      destruct asked, identity; simpl in *; congruence.
    + rewrite bool_decide_eq_false_2; [done|]. intros ->.
      by rewrite (proj2 (strict_equals_optional _ _) eq_refl) in Hurl.
  - rewrite bool_decide_eq_false_2; [done|]. intros ->.
    by rewrite (proj2 (strict_equals_optional _ _) eq_refl) in Huser.
Qed.

End TrustStoreProperties.

(** C6 (as amended).  With the trust-store directory in place or
    creatable, [isTrusted] returns and never throws, and what it returns is
    true exactly when the record file
    [<home>/.pkgsign-trust-store/<packageName>.trust] exists, parses as
    JSON, and the [keybaseUser] and [pgpPublicKeyUrl] members of the record
    are strictly equal to those of the identity (an absent member only to
    an absent member); so an error in reading or parsing the record makes
    it return false. *)
Theorem isTrusted_iff_record_matches `{Runtime} (process : Process)
    (identity : SignatureIdentity) (packageName : string) (fs : FS) :
  trustStoreAvailable process fs →
  ∃ trusted fs',
    TrustStore.isTrusted process identity packageName fs = (Returned trusted, fs')
    ∧ (trusted = true ↔ record_trusts process fs identity packageName).
Proof.
  intros (folder & Hfolder & Havailable).
  set (file := path_join folder (packageName +:+ ".trust")).
  assert (trustRecordFile process packageName = Some file) as Hfile
    by (unfold trustRecordFile; by rewrite Hfolder).
  assert (∃ fs1,
    TrustStore.createTrustStoreIfNecessary process fs = (Returned folder, fs1)
    ∧ ∀ content, fs1 !! file = Some (File content) ↔ fs !! file = Some (File content))
    as (fs1 & Hcreate & Hsame).
  { rewrite createTrustStoreIfNecessary_unfold, Hfolder.
    destruct (fs !! folder) as [n|] eqn:Hin; [by eauto|].
    destruct Havailable as [[? ?]|Hparent]; [done|]. rewrite Hparent.
    eexists; split; [done|]. intros content.
    destruct (decide (folder = file)) as [Heq|Hne].
    - rewrite <- Heq, lookup_insert_eq, Hin. split; done.
    - by rewrite lookup_insert_ne. }
  eexists _, fs1. split; [by apply isTrusted_unfold|].
  split.
  - intros Htrusted. fold file in Htrusted.
    destruct (fs1 !! file) as [[content|]|] eqn:Hread; try done.
    destruct (JSON_parse content) as [trustInfo|] eqn:Hparse; try done.
    destruct (get_property trustInfo "keybaseUser") as [user|] eqn:Huser;
      try done.
    destruct (strict_equals user _) eqn:Hu; try done.
    destruct (get_property trustInfo "pgpPublicKeyUrl") as [url|] eqn:Hurl;
      try done.
    exists file, content, trustInfo. repeat split; [done|by apply Hsame|done|].
    by exists user, url.
  - intros (file' & content & trustInfo & Hfile' & Hread & Hparse & Hmatch).
    assert (file' = file) as -> by congruence.
    destruct Hmatch as (user & url & Huser & Hurl & Hu & Hv).
    apply Hsame in Hread. fold file.
    by rewrite Hread, Hparse, Huser, Hu, Hurl.
Qed.

Lemma isTrusted_iff_record_matches_witness :
  record_trusts (H := Reference.runtime) (Example.linux (Some "/home/u"))
    Example.trusting_home Example.alice "p".
Proof.
  destruct (isTrusted_iff_record_matches (H := Reference.runtime)
              (Example.linux (Some "/home/u")) Example.alice "p"
              Example.trusting_home) as (trusted & fs' & Hrun & Htrusted).
  - exists "/home/u/.pkgsign-trust-store". split; [reflexivity|].
    left. vm_compute. eauto.
  - apply Htrusted. vm_compute in Hrun. by injection Hrun as <- _.
Defined.

(** C6 (as stated) fails: where the home directory does not exist, the
    trust-store directory cannot be created, and this IO error is thrown
    by [isTrusted], not turned into [false]. *)
Lemma isTrusted_throws_without_home :
  TrustStore.isTrusted (H := Reference.runtime) (Example.linux (Some "/nonexistent"))
    Example.alice "p" Example.no_home
  = (Thrown (SystemError "ENOENT"), Example.no_home).
Proof. vm_compute. reflexivity. Qed.

(** C7.  Right after [addTrusted] completes for an identity and a name,
    [isTrusted] returns true for that identity and name and false for
    every other identity; a later [addTrusted] for the same name replaces
    the record, so that only the identity approved last is trusted. *)
Theorem addTrusted_then_isTrusted `{Runtime} (process : Process)
    (identity : SignatureIdentity) (packageName : string) (fs fs1 : FS) :
  JSON_round_trip →
  TrustStore.addTrusted process identity packageName fs = (Returned (), fs1) →
  TrustStore.isTrusted process identity packageName fs1 = (Returned true, fs1)
  ∧ (∀ other, other ≠ identity →
       TrustStore.isTrusted process other packageName fs1 = (Returned false, fs1))
  ∧ (∀ later fs2,
       TrustStore.addTrusted process later packageName fs1 = (Returned (), fs2) →
       TrustStore.isTrusted process later packageName fs2 = (Returned true, fs2)
       ∧ (identity ≠ later →
          TrustStore.isTrusted process identity packageName fs2
          = (Returned false, fs2))).
Proof.
  intros Hjson Hadd.
  assert (∀ approved asked fs fs',
    TrustStore.addTrusted process approved packageName fs = (Returned (), fs') →
    TrustStore.isTrusted process asked packageName fs'
    = (Returned (bool_decide (asked = approved)), fs')) as Hread.
  { intros approved asked fs0 fs' Hadd'.
    apply addTrusted_completes in Hadd' as (folder & Hfolder & Hin & Hfile).
    by eapply isTrusted_reads_record. }
  split; [|split].
  - rewrite (Hread _ _ _ _ Hadd). by rewrite bool_decide_eq_true_2.
  - intros other Hne. rewrite (Hread _ _ _ _ Hadd).
    by rewrite bool_decide_eq_false_2.
  - intros later fs2 Hlater. split.
    + rewrite (Hread _ _ _ _ Hlater). by rewrite bool_decide_eq_true_2.
    + intros Hne. rewrite (Hread _ _ _ _ Hlater).
      by rewrite bool_decide_eq_false_2.
Qed.

Lemma addTrusted_then_isTrusted_witness :
  let process := Example.linux (Some "/home/u") in
  TrustStore.isTrusted (H := Reference.runtime) process Example.alice "p"
    Example.trusting_home = (Returned true, Example.trusting_home)
  ∧ TrustStore.isTrusted (H := Reference.runtime) process Example.mallory "p"
      Example.trusting_home = (Returned false, Example.trusting_home).
Proof.
  intros process.
  destruct (addTrusted_then_isTrusted (H := Reference.runtime) process
              Example.alice "p" Example.fresh_home Example.trusting_home)
    as (Hsame & Hother & _).
  - exact parse_stringify_identity.
  - vm_compute. reflexivity.
  - split; [exact Hsame|]. apply Hother. discriminate.
Defined.

(** C8 (as amended).  The trust-store directory is created on the first
    access, by [isTrusted] as well as by [addTrusted]: when the directory
    exists, [isTrusted] leaves the file system unchanged; when it does not
    exist and its parent is a directory, [isTrusted] creates it, and
    [addTrusted] creates it too; in every case [isTrusted] changes nothing
    but this directory, and creates, changes or removes no file. *)
Theorem isTrusted_creates_only_the_folder `{Runtime} (process : Process)
    (identity : SignatureIdentity) (packageName : string) (fs : FS) :
  let fs' := snd (TrustStore.isTrusted process identity packageName fs) in
  (∀ folder, trustStoreFolder process = Some folder →
     is_Some (fs !! folder) → fs' = fs)
  ∧ (∀ folder, trustStoreFolder process = Some folder →
       fs !! folder = None → fs !! path_dirname folder = Some Directory →
       fs' = <[folder := Directory]> fs
       ∧ snd (TrustStore.addTrusted process identity packageName fs) !! folder
         = Some Directory)
  ∧ (fs' = fs
     ∨ ∃ folder, trustStoreFolder process = Some folder
                 ∧ fs !! folder = None ∧ fs' = <[folder := Directory]> fs)
  ∧ (∀ file content,
       fs' !! file = Some (File content) ↔ fs !! file = Some (File content)).
Proof.
  intros fs'.
  assert (fs' = snd (TrustStore.createTrustStoreIfNecessary process fs)) as Hfs'.
  { unfold fs'.
    destruct (TrustStore.createTrustStoreIfNecessary process fs)
      as [[folder|e] fs1] eqn:Hcreate.
    - by rewrite (isTrusted_unfold _ _ _ _ _ _ Hcreate).
    - unfold TrustStore.isTrusted. unfold mbind at 1. unfold IO_bind at 1.
      by rewrite Hcreate. }
  clearbody fs'. subst fs'.
  rewrite createTrustStoreIfNecessary_unfold.
  split; [|split; [|split]].
  - intros folder -> [n ->]. done.
  - intros folder Hfolder Hout Hparent. rewrite Hfolder, Hout, Hparent.
    split; [done|]. rewrite addTrusted_unfold, createTrustStoreIfNecessary_unfold.
    rewrite Hfolder, Hout, Hparent. unfold writeFilePromise.
    set (file := path_join folder (packageName +:+ ".trust")).
    destruct (decide (file = folder)) as [->|Hne].
    + rewrite lookup_insert_eq. simpl. by rewrite lookup_insert_eq.
    + destruct (<[folder:=Directory]> fs !! file) as [[?|]|];
        destruct (<[folder:=Directory]> fs !! path_dirname file) as [[?|]|];
        simpl; rewrite ?lookup_insert_ne by done; by rewrite lookup_insert_eq.
  - destruct (trustStoreFolder process) as [folder|]; [|by left].
    destruct (fs !! folder) as [n|] eqn:Hin; [by left|].
    destruct (fs !! path_dirname folder) as [[?|]|]; try by left.
    right. by exists folder.
  - intros file content.
    destruct (trustStoreFolder process) as [folder|]; [|done].
    destruct (fs !! folder) as [n|] eqn:Hin; [done|].
    destruct (fs !! path_dirname folder) as [[?|]|]; try done. simpl.
    destruct (decide (folder = file)) as [<-|Hne].
    + rewrite lookup_insert_eq, Hin. split; done.
    + by rewrite lookup_insert_ne.
Qed.

Lemma isTrusted_creates_only_the_folder_witness :
  snd (TrustStore.isTrusted (H := Reference.runtime)
         (Example.linux (Some "/home/u")) Example.alice "p" Example.trusting_home)
  = Example.trusting_home.
Proof.
  destruct (isTrusted_creates_only_the_folder (H := Reference.runtime)
              (Example.linux (Some "/home/u")) Example.alice "p"
              Example.trusting_home) as (Hpresent & _).
  apply (Hpresent "/home/u/.pkgsign-trust-store").
  - reflexivity.
  - vm_compute. eauto.
Defined.

(** C8 (as stated) fails: on a machine without a trust store, [isTrusted]
    creates the directory. *)
Lemma isTrusted_creates_the_folder :
  let fs' := snd (TrustStore.isTrusted (H := Reference.runtime)
                    (Example.linux (Some "/home/u")) Example.alice "p"
                    Example.fresh_home) in
  Example.fresh_home !! "/home/u/.pkgsign-trust-store" = None
  ∧ fs' !! "/home/u/.pkgsign-trust-store" = Some Directory
  ∧ fs' ≠ Example.fresh_home.
Proof.
  intros fs'. split; [reflexivity|]. split; [vm_compute; reflexivity|].
  intros Heq. apply (f_equal (λ m : FS, m !! "/home/u/.pkgsign-trust-store")) in Heq.
  vm_compute in Heq. discriminate.
Qed.

(** ** The content check of a files entry *)

Section FilesEntryProperties.
Context `{Runtime}.
Import VerificationContext.

Lemma skipPackageJson_present (context : VerificationContext.t) :
  skipPackageJson context = true ↔ manifest_entry_present context.
Proof.
  unfold skipPackageJson, manifest_entry_present.
  rewrite existsb_exists. split.
  - intros (x & Hin & Heq). apply String.eqb_eq in Heq as ->.
    by apply list_elem_of_In.
  - intros Hin. exists "packageJson/v1alpha1". split; [|done].
    by apply list_elem_of_In.
Qed.

Lemma expected_snoc (files : list SignatureFileEntry) (e : SignatureFileEntry)
    (p : string) :
  SignatureFilesEntry.expected (files ++ [e]) p =
  if String.eqb (path e) p then (true, Some (sha512 e))
  else SignatureFilesEntry.expected files p.
Proof. unfold SignatureFilesEntry.expected. by rewrite fold_left_app. Qed.

Lemma listed_hash_snoc (files : list SignatureFileEntry) (e : SignatureFileEntry)
    (p : string) :
  listed_hash (files ++ [e]) p =
  if String.eqb (path e) p then Some (sha512 e) else listed_hash files p.
Proof.
  unfold listed_hash. rewrite filter_app.
  destruct (String.eqb_spec (path e) p) as [Heq|Hne].
  - rewrite filter_cons_True, filter_nil by done. by rewrite last_snoc.
  - rewrite filter_cons_False, filter_nil by done. by rewrite app_nil_r.
Qed.

(** The inner loop finds the listed hash. *)
Lemma expected_listed_hash (files : list SignatureFileEntry) (p : string) :
  SignatureFilesEntry.expected files p
  = (bool_decide (is_Some (listed_hash files p)), listed_hash files p).
Proof.
  induction files as [|e files IH] using rev_ind; [done|].
  rewrite expected_snoc, listed_hash_snoc.
  destruct (String.eqb (path e) p); [|done].
  by rewrite bool_decide_eq_true_2 by eauto.
Qed.

Lemma listed_iff_hash (files : list SignatureFileEntry) (p : string) :
  listed files p ↔ is_Some (listed_hash files p).
Proof.
  unfold listed. induction files as [|e files IH] using rev_ind.
  - split; [intros (e & He & _); by apply elem_of_nil in He|].
    intros [h Hh]. done.
  - rewrite listed_hash_snoc. destruct (String.eqb_spec (path e) p) as [Heq|Hne].
    + split; [eauto|]. intros _. exists e. split; [|done].
      apply elem_of_app. right. by apply list_elem_of_singleton.
    + rewrite <- IH. split.
      * intros (e' & [He'|He']%elem_of_app & Hp); [by eauto|].
        apply list_elem_of_singleton in He' as ->. done.
      * intros (e' & He' & Hp). exists e'. split; [|done].
        apply elem_of_app. by left.
Qed.

(** The pair that decides is the last one with the path. *)
Lemma listed_hash_last (before after : list SignatureFileEntry)
    (e : SignatureFileEntry) :
  (∀ e', e' ∈ after → path e' ≠ path e) →
  listed_hash (before ++ e :: after) (path e) = Some (sha512 e).
Proof.
  intros Hafter. unfold listed_hash.
  rewrite filter_app, filter_cons_True by done.
  replace (filter (λ e0, path e0 = path e) after) with (@nil SignatureFileEntry).
  - by rewrite last_snoc.
  - symmetry. induction after as [|e' after IH]; [done|].
    rewrite filter_cons_False by (apply Hafter; left).
    apply IH. intros e'' He''. apply Hafter. by right.
Qed.

Lemma onDisk_spec (context : VerificationContext.t) (p : string) :
  SignatureFilesEntry.onDisk (relFilesOnDisk context) p = true ↔ on_disk context p.
Proof.
  unfold on_disk, SignatureFilesEntry.onDisk.
  induction (relFilesOnDisk context) as [|rel rels IH] using rev_ind.
  - split; [done|]. intros (rel & Hin & _). by apply elem_of_nil in Hin.
  - rewrite fold_left_app. simpl.
    destruct (String.eqb_spec (SignatureFilesEntry.normalise rel) p) as [Heq|Hne].
    + split; [|done]. intros _. exists rel. split; [|done].
      apply elem_of_app. right. by apply list_elem_of_singleton.
    + rewrite IH. split.
      * intros (rel' & Hin & Hp). exists rel'. split; [|done].
        apply elem_of_app. by left.
      * intros (rel' & [Hin|Hin]%elem_of_app & Hp); [by eauto|].
        apply list_elem_of_singleton in Hin as ->. done.
Qed.


Lemma verify_filesOnDisk_pass (context : VerificationContext.t)
    (files : list SignatureFileEntry) (fs : FS) (rel : string)
    (rest : list string) :
  passes context files fs rel →
  SignatureFilesEntry.verify_filesOnDisk context files (skipPackageJson context)
    (rel :: rest) fs
  = SignatureFilesEntry.verify_filesOnDisk context files (skipPackageJson context)
      rest fs.
Proof.
  intros Hpass. simpl.
  destruct (String.eqb_spec (SignatureFilesEntry.normalise rel) "signature.json")
    as [Hsig|Hsig]; [done|].
  destruct (String.eqb_spec (SignatureFilesEntry.normalise rel) "package.json")
    as [Hpkg|Hpkg]; simpl.
  - destruct (skipPackageJson context) eqn:Hskip; [done|].
    destruct Hpass as [[?|[_ Hpresent]]|(h & Hh & Hsha)]; [done| |].
    + apply skipPackageJson_present in Hpresent. congruence.
    + rewrite expected_listed_hash, Hh, Hsha.
      rewrite bool_decide_eq_true_2 by eauto. simpl.
      by rewrite String.eqb_refl.
  - destruct Hpass as [[?|[? _]]|(h & Hh & Hsha)]; [done..|].
    rewrite expected_listed_hash, Hh, Hsha.
    rewrite bool_decide_eq_true_2 by eauto. simpl.
    by rewrite String.eqb_refl.
Qed.

Lemma verify_filesOnDisk_passes (context : VerificationContext.t)
    (files : list SignatureFileEntry) (fs : FS) (before rest : list string) :
  Forall (passes context files fs) before →
  SignatureFilesEntry.verify_filesOnDisk context files (skipPackageJson context)
    (before ++ rest) fs
  = SignatureFilesEntry.verify_filesOnDisk context files (skipPackageJson context)
      rest fs.
Proof.
  induction 1 as [|rel before Hrel _ IH]; [done|].
  rewrite <- app_comm_cons. by rewrite verify_filesOnDisk_pass.
Qed.

(** The head of the first loop at a path outside the skip set. *)
Lemma verify_filesOnDisk_examines (context : VerificationContext.t)
    (files : list SignatureFileEntry) (fs : FS) (rel : string)
    (rest : list string) :
  let p := SignatureFilesEntry.normalise rel in
  ¬ in_skip_set context p →
  SignatureFilesEntry.verify_filesOnDisk context files (skipPackageJson context)
    (rel :: rest) fs
  = match listed_hash files p with
    | None =>
        Returned (Some (SignatureFilesEntry.compromised context
          (p +:+ " exists in the package, but was not in the signature")))
    | Some h =>
        match sha512OfFile (path_join (dir context) p) fs with
        | Thrown e => Thrown e
        | Returned hash =>
            if String.eqb hash h then
              SignatureFilesEntry.verify_filesOnDisk context files
                (skipPackageJson context) rest fs
            else
              Returned (Some (SignatureFilesEntry.compromised context
                (p +:+ " does not have content that was signed for (mismatched hash)")))
        end
    end.
Proof.
  intros p Hskip. simpl. fold p.
  destruct (String.eqb_spec p "signature.json") as [Hsig|Hsig].
  { exfalso. apply Hskip. by left. }
  destruct (String.eqb_spec p "package.json") as [Hpkg|Hpkg]; simpl.
  - destruct (skipPackageJson context) eqn:Hflag.
    { exfalso. apply Hskip. right. split; [done|].
      by apply skipPackageJson_present. }
    rewrite expected_listed_hash.
    destruct (listed_hash files p) as [h|].
    + rewrite bool_decide_eq_true_2 by eauto. simpl.
      destruct (sha512OfFile _ fs) as [hash|]; [|done].
      by destruct (String.eqb hash h).
    + by rewrite bool_decide_eq_false_2 by (intros [? ?]; done).
  - rewrite expected_listed_hash.
    destruct (listed_hash files p) as [h|].
    + rewrite bool_decide_eq_true_2 by eauto. simpl.
      destruct (sha512OfFile _ fs) as [hash|]; [|done].
      by destruct (String.eqb hash h).
    + by rewrite bool_decide_eq_false_2 by (intros [? ?]; done).
Qed.

Lemma verify_unfold (context : VerificationContext.t)
    (files : list SignatureFileEntry) (fs : FS) :
  SignatureFilesEntry.verify files context fs =
  match SignatureFilesEntry.verify_filesOnDisk context files
          (skipPackageJson context) (relFilesOnDisk context) fs with
  | Thrown e => Thrown e
  | Returned (Some failure) => Returned (Some failure)
  | Returned None =>
      Returned (SignatureFilesEntry.verify_signedFiles context files)
  end.
Proof. reflexivity. Qed.

End FilesEntryProperties.

(** C1 (as amended).  The content check of a files entry examines every
    relative path on disk, normalised to forward slashes, that is outside
    the skip set ([signature.json], and [package.json] exactly when some
    entry of the document has the tag [packageJson/v1alpha1]).  At the
    first such path that does not pass, it returns a result whose status
    is [Compromised], whose package name and other members are those of
    the context, and whose reason is that the path exists in the package
    but was not in the signature when the path is absent from the list,
    and otherwise that of the mismatched hash when the SHA-512 of the file
    differs from the listed hash; when the file of a listed path cannot be
    hashed, the check throws the error of the read.  When every path on
    disk passes (it is in the skip set, or listed with the SHA-512 of its
    file), the loop produces no failure (and the check goes on to its
    second loop). *)
Theorem files_on_disk_are_checked `{Runtime} (context : VerificationContext.t)
    (files : list SignatureFileEntry) (fs : FS) :
  let compromised_with reason :=
    {| ModuleVerificationResult.status := Compromised;
       ModuleVerificationResult.reason := Some reason;
       ModuleVerificationResult.packageName :=
         VerificationContext.expectedPackageName context;
       ModuleVerificationResult.untrustedIdentity :=
         VerificationContext.untrustedIdentity context;
       ModuleVerificationResult.untrustedPackageVersion :=
         VerificationContext.untrustedPackageVersion context;
       ModuleVerificationResult.isPrivate :=
         VerificationContext.isPrivate context |} in
  (∀ before relFileOnDisk after,
     VerificationContext.relFilesOnDisk context = before ++ relFileOnDisk :: after →
     Forall (passes context files fs) before →
     let p := SignatureFilesEntry.normalise relFileOnDisk in
     ¬ in_skip_set context p →
     (¬ listed files p →
      SignatureFilesEntry.verify files context fs
      = Returned (Some (compromised_with
          (p +:+ " exists in the package, but was not in the signature"))))
     ∧ (∀ h hash,
          listed_hash files p = Some h →
          sha512OfFile (path_join (VerificationContext.dir context) p) fs
            = Returned hash →
          hash ≠ h →
          SignatureFilesEntry.verify files context fs
          = Returned (Some (compromised_with
              (p +:+ " does not have content that was signed for (mismatched hash)"))))
     ∧ (∀ h e,
          listed_hash files p = Some h →
          sha512OfFile (path_join (VerificationContext.dir context) p) fs
            = Thrown e →
          SignatureFilesEntry.verify files context fs = Thrown e))
  ∧ (Forall (passes context files fs) (VerificationContext.relFilesOnDisk context) →
     SignatureFilesEntry.verify_filesOnDisk context files (skipPackageJson context)
       (VerificationContext.relFilesOnDisk context) fs = Returned None
     ∧ SignatureFilesEntry.verify files context fs
       = Returned (SignatureFilesEntry.verify_signedFiles context files)).
Proof.
  intros compromised_with. split.
  - intros before rel after Hdisk Hbefore p Hskip.
    rewrite verify_unfold, Hdisk, verify_filesOnDisk_passes by done.
    rewrite verify_filesOnDisk_examines by done. fold p. split; [|split].
    + intros Hlisted.
      destruct (listed_hash files p) as [h|] eqn:Hh; [|done].
      exfalso. apply Hlisted, listed_iff_hash. eauto.
    + intros h hash -> -> Hne.
      apply String.eqb_neq in Hne. by rewrite Hne.
    + by intros h e -> ->.
  - intros Hall.
    assert (SignatureFilesEntry.verify_filesOnDisk context files
              (skipPackageJson context)
              (VerificationContext.relFilesOnDisk context) fs = Returned None)
      as Hloop.
    { rewrite <- (app_nil_r (VerificationContext.relFilesOnDisk context)).
      by rewrite verify_filesOnDisk_passes. }
    split; [done|]. by rewrite verify_unfold, Hloop.
Qed.

Lemma files_on_disk_are_checked_witness :
  let context :=
    Example.context ["a.txt"; "signature.json"; "lib\b.txt"; "package.json"]
                    ["files/v1alpha1"; "identity/v1alpha1"] in
  SignatureFilesEntry.verify (H := Reference.runtime) (Example.listing Example.manifest)
    context (Example.package Example.manifest "")
  = Returned (Some
      {| ModuleVerificationResult.status := Compromised;
         ModuleVerificationResult.reason :=
           Some "lib/b.txt exists in the package, but was not in the signature";
         ModuleVerificationResult.packageName := "p";
         ModuleVerificationResult.untrustedIdentity := None;
         ModuleVerificationResult.untrustedPackageVersion := None;
         ModuleVerificationResult.isPrivate := None |}).
Proof.
  intros context.
  destruct (files_on_disk_are_checked (H := Reference.runtime) context
              (Example.listing Example.manifest)
              (Example.package Example.manifest "")) as [Hfirst _].
  apply (Hfirst ["a.txt"; "signature.json"] "lib\b.txt" ["package.json"]).
  - reflexivity.
  - constructor; [|constructor; [|constructor]].
    + right. exists (Reference.digest "hi"). split; vm_compute; reflexivity.
    + left. left. reflexivity.
  - intros [Hsig|[Hpkg _]]; discriminate.
  - rewrite listed_iff_hash. vm_compute. intros [h Hh]. discriminate.
Defined.

(** C1 (as stated) fails: when the one path on disk is listed and its file
    cannot be read, the path is neither absent from the list nor has a
    hash that differs from the listed one, and yet the loop does not end
    without a failure: the check throws the error of the read. *)
Lemma unreadable_listed_file_throws :
  let context := Example.context ["a.txt"] ["files/v1alpha1"] in
  let files := [ {| path := "a.txt"; sha512 := Reference.digest "hi" |} ] in
  let fs := delete "/p/a.txt" (Example.package Example.manifest "") in
  listed_hash files "a.txt" = Some (Reference.digest "hi")
  ∧ SignatureFilesEntry.verify_filesOnDisk (H := Reference.runtime) context
      files false ["a.txt"] fs
    = Thrown (SystemError "ENOENT")
  ∧ SignatureFilesEntry.verify (H := Reference.runtime) files context fs
    = Thrown (SystemError "ENOENT").
Proof. vm_compute. done. Qed.

Section SecondLoop.
Context `{Runtime}.

Lemma verify_signedFiles_present (context : VerificationContext.t)
    (before rest : list SignatureFileEntry) :
  Forall (present context) before →
  SignatureFilesEntry.verify_signedFiles context (before ++ rest)
  = SignatureFilesEntry.verify_signedFiles context rest.
Proof.
  induction 1 as [|e before He _ IH]; [done|].
  rewrite <- app_comm_cons. simpl.
  destruct (String.eqb_spec (path e) "signature.json") as [Hsig|Hsig]; [done|].
  destruct He as [?|Hdisk]; [done|].
  apply onDisk_spec in Hdisk. by rewrite Hdisk.
Qed.

Lemma verify_signedFiles_missing (context : VerificationContext.t)
    (e : SignatureFileEntry) (rest : list SignatureFileEntry) :
  path e ≠ "signature.json" → ¬ on_disk context (path e) →
  SignatureFilesEntry.verify_signedFiles context (e :: rest)
  = Some (SignatureFilesEntry.compromised context
      (path e +:+ " is expected by the signature, but is missing in the package")).
Proof.
  intros Hsig Hdisk. simpl.
  apply String.eqb_neq in Hsig. rewrite Hsig.
  destruct (SignatureFilesEntry.onDisk _ _) eqn:Hon; [|done].
  by apply onDisk_spec in Hon.
Qed.

Lemma present_dec (context : VerificationContext.t) (e : SignatureFileEntry) :
  present context e ∨ (path e ≠ "signature.json" ∧ ¬ on_disk context (path e)).
Proof.
  unfold present.
  destruct (String.eqb_spec (path e) "signature.json") as [Hsig|Hsig]; [by eauto|].
  destruct (SignatureFilesEntry.onDisk
              (VerificationContext.relFilesOnDisk context) (path e)) eqn:Hon.
  - apply onDisk_spec in Hon. by eauto.
  - right. split; [done|]. intros Hdisk%onDisk_spec. congruence.
Qed.

(** The first pair that is not present, if any. *)
Lemma first_missing (context : VerificationContext.t)
    (files : list SignatureFileEntry) :
  Forall (present context) files
  ∨ ∃ before e after,
      files = before ++ e :: after ∧ Forall (present context) before
      ∧ path e ≠ "signature.json" ∧ ¬ on_disk context (path e).
Proof.
  induction files as [|e files IH]; [by left|].
  destruct (present_dec context e) as [He|[Hsig Hdisk]].
  - destruct IH as [Hall|(before & e' & after & -> & Hbefore & Hsig & Hdisk)].
    + left. by constructor.
    + right. exists (e :: before), e', after. repeat split; try done.
      by constructor.
  - right. by exists [], e, files.
Qed.

End SecondLoop.

(** C2.  When some path of the list other than [signature.json] does not
    occur among the normalised relative paths on disk, the content check
    returns [Compromised] with the reason that the path is expected by the
    signature but is missing in the package (for the first such path of
    the list).  Only [signature.json] is exempt from this check, not
    [package.json]; and the check runs only after every path on disk has
    passed the first loop: a failure of the first loop is what [verify]
    returns. *)
Theorem missing_files_are_reported `{Runtime} (context : VerificationContext.t)
    (files : list SignatureFileEntry) (fs : FS) :
  let compromised_with reason :=
    {| ModuleVerificationResult.status := Compromised;
       ModuleVerificationResult.reason := Some reason;
       ModuleVerificationResult.packageName :=
         VerificationContext.expectedPackageName context;
       ModuleVerificationResult.untrustedIdentity :=
         VerificationContext.untrustedIdentity context;
       ModuleVerificationResult.untrustedPackageVersion :=
         VerificationContext.untrustedPackageVersion context;
       ModuleVerificationResult.isPrivate :=
         VerificationContext.isPrivate context |} in
  (∀ failure,
     SignatureFilesEntry.verify_filesOnDisk context files (skipPackageJson context)
       (VerificationContext.relFilesOnDisk context) fs = Returned (Some failure) →
     SignatureFilesEntry.verify files context fs = Returned (Some failure))
  ∧ (Forall (passes context files fs) (VerificationContext.relFilesOnDisk context) →
     (∀ before e after,
        files = before ++ e :: after →
        Forall (present context) before →
        path e ≠ "signature.json" →
        ¬ on_disk context (path e) →
        SignatureFilesEntry.verify files context fs
        = Returned (Some (compromised_with
            (path e +:+ " is expected by the signature, but is missing in the package"))))
     ∧ ((∃ e, e ∈ files ∧ path e ≠ "signature.json" ∧ ¬ on_disk context (path e)) →
        ∃ e, e ∈ files ∧ path e ≠ "signature.json" ∧ ¬ on_disk context (path e)
             ∧ SignatureFilesEntry.verify files context fs
               = Returned (Some (compromised_with
                   (path e +:+ " is expected by the signature, but is missing in the package"))))
     ∧ (Forall (present context) files →
        SignatureFilesEntry.verify files context fs = Returned None)).
Proof.
  intros compromised_with. split.
  - intros failure Hloop. by rewrite verify_unfold, Hloop.
  - intros Hall.
    assert (SignatureFilesEntry.verify files context fs
            = Returned (SignatureFilesEntry.verify_signedFiles context files))
      as Hverify.
    { rewrite verify_unfold.
      rewrite <- (app_nil_r (VerificationContext.relFilesOnDisk context)).
      by rewrite verify_filesOnDisk_passes. }
    rewrite Hverify.
    assert (∀ before e after,
      files = before ++ e :: after →
      Forall (present context) before →
      path e ≠ "signature.json" →
      ¬ on_disk context (path e) →
      Returned (SignatureFilesEntry.verify_signedFiles context files)
      = Returned (Some (compromised_with
          (path e +:+ " is expected by the signature, but is missing in the package"))))
      as Hfirst.
    { intros before e after -> Hbefore Hsig Hdisk.
      by rewrite verify_signedFiles_present, verify_signedFiles_missing. }
    split; [done|]. split.
    + intros (e & He & Hsig & Hdisk).
      destruct (first_missing context files)
        as [Hpresent|(before & e' & after & Hfiles & Hbefore & Hsig' & Hdisk')].
      * exfalso. rewrite Forall_forall in Hpresent.
        destruct (Hpresent e He) as [?|?]; done.
      * exists e'. repeat split; try done.
        -- rewrite Hfiles. apply elem_of_app. right. by left.
        -- by eapply Hfirst.
    + intros Hpresent. f_equal.
      rewrite <- (app_nil_r files). by rewrite verify_signedFiles_present.
Qed.

Lemma missing_files_are_reported_witness :
  let context :=
    Example.context ["a.txt"; "signature.json"]
                    ["files/v1alpha1"; "packageJson/v1alpha1"] in
  SignatureFilesEntry.verify (H := Reference.runtime) (Example.listing Example.manifest)
    context (Example.package Example.manifest "")
  = Returned (Some
      {| ModuleVerificationResult.status := Compromised;
         ModuleVerificationResult.reason :=
           Some "package.json is expected by the signature, but is missing in the package";
         ModuleVerificationResult.packageName := "p";
         ModuleVerificationResult.untrustedIdentity := None;
         ModuleVerificationResult.untrustedPackageVersion := None;
         ModuleVerificationResult.isPrivate := None |}).
Proof.
  intros context.
  destruct (missing_files_are_reported (H := Reference.runtime) context
              (Example.listing Example.manifest)
              (Example.package Example.manifest "")) as [_ Hsecond].
  destruct Hsecond as [Hfirst _].
  - constructor; [|constructor; [|constructor]].
    + right. exists (Reference.digest "hi"). split; vm_compute; reflexivity.
    + left. left. reflexivity.
  - apply (Hfirst [ {| path := "a.txt"; sha512 := Reference.digest "hi" |} ]
                  {| path := "package.json";
                     sha512 := Reference.digest Example.manifest |} []).
    + reflexivity.
    + constructor; [|constructor]. right. exists "a.txt". split; [|reflexivity].
      left.
    + discriminate.
    + intros (rel & Hin & Hrel). vm_compute in Hin.
      apply elem_of_cons in Hin as [->|Hin]; [discriminate|].
      apply elem_of_cons in Hin as [->|Hin]; [discriminate|].
      by apply elem_of_nil in Hin.
Defined.

(** C9.  When the list holds a path more than once with different hashes,
    the inner search runs through the whole list, so the hash the file on
    disk is compared with is that of the last occurrence: a file whose
    SHA-512 is the hash of an earlier occurrence and not that of the last
    one yields [Compromised] with the reason of the mismatched hash. *)
Theorem last_occurrence_decides `{Runtime} (files : list SignatureFileEntry)
    (l1 l2 l3 : list SignatureFileEntry) (earlier latest : SignatureFileEntry) :
  files = l1 ++ earlier :: l2 ++ latest :: l3 →
  path earlier = path latest →
  (∀ e, e ∈ l3 → path e ≠ path latest) →
  sha512 earlier ≠ sha512 latest →
  SignatureFilesEntry.expected files (path latest) = (true, Some (sha512 latest))
  ∧ ∀ context fs before relFileOnDisk after,
      VerificationContext.relFilesOnDisk context = before ++ relFileOnDisk :: after →
      Forall (passes context files fs) before →
      SignatureFilesEntry.normalise relFileOnDisk = path latest →
      ¬ in_skip_set context (path latest) →
      sha512OfFile (path_join (VerificationContext.dir context) (path latest)) fs
        = Returned (sha512 earlier) →
      SignatureFilesEntry.verify files context fs
      = Returned (Some
          {| ModuleVerificationResult.status := Compromised;
             ModuleVerificationResult.reason :=
               Some (path latest
                     +:+ " does not have content that was signed for (mismatched hash)");
             ModuleVerificationResult.packageName :=
               VerificationContext.expectedPackageName context;
             ModuleVerificationResult.untrustedIdentity :=
               VerificationContext.untrustedIdentity context;
             ModuleVerificationResult.untrustedPackageVersion :=
               VerificationContext.untrustedPackageVersion context;
             ModuleVerificationResult.isPrivate :=
               VerificationContext.isPrivate context |}).
Proof.
  intros Hfiles Hpath Hlast Hne.
  assert (listed_hash files (path latest) = Some (sha512 latest)) as Hhash.
  { rewrite Hfiles.
    replace (l1 ++ earlier :: l2 ++ latest :: l3)
      with ((l1 ++ earlier :: l2) ++ latest :: l3)
      by (by rewrite <- app_assoc).
    by apply listed_hash_last. }
  split.
  - rewrite expected_listed_hash, Hhash. by rewrite bool_decide_eq_true_2 by eauto.
  - intros context fs before rel after Hdisk Hbefore Hrel Hskip Hsha.
    rewrite verify_unfold, Hdisk, verify_filesOnDisk_passes by done.
    rewrite verify_filesOnDisk_examines by (by rewrite Hrel).
    rewrite Hrel, Hhash, Hsha.
    apply String.eqb_neq in Hne. by rewrite Hne.
Qed.

Lemma last_occurrence_decides_witness :
  let earlier := {| path := "a.txt"; sha512 := Reference.digest "hi" |} in
  let latest := {| path := "a.txt"; sha512 := Reference.digest "ho" |} in
  let context := Example.context ["a.txt"] ["files/v1alpha1"] in
  SignatureFilesEntry.verify (H := Reference.runtime) [earlier; latest] context
    (Example.package Example.manifest "")
  = Returned (Some
      {| ModuleVerificationResult.status := Compromised;
         ModuleVerificationResult.reason :=
           Some "a.txt does not have content that was signed for (mismatched hash)";
         ModuleVerificationResult.packageName := "p";
         ModuleVerificationResult.untrustedIdentity := None;
         ModuleVerificationResult.untrustedPackageVersion := None;
         ModuleVerificationResult.isPrivate := None |}).
Proof.
  intros earlier latest context.
  destruct (last_occurrence_decides (H := Reference.runtime) [earlier; latest]
              [] [] [] earlier latest) as [_ Hverify].
  - reflexivity.
  - reflexivity.
  - intros e He. by apply elem_of_nil in He.
  - discriminate.
  - apply (Hverify context (Example.package Example.manifest "") [] "a.txt" []).
    + reflexivity.
    + constructor.
    + reflexivity.
    + intros [Hsig|[Hpkg _]]; discriminate.
    + vm_compute. reflexivity.
Defined.

(** ** The module verifier *)

Section ModuleVerifierProperties.
Import ModuleVerifier.
Context `{Runtime} `{Collaborators} (process : Process).

Lemma signature_loads_or_fails (dir : string) (fs : FS) :
  signature_fails dir fs ∨ ∃ signature, signature_document dir fs signature.
Proof.
  unfold signature_fails, signature_document.
  destruct (readFilePromise (path_join dir "signature.json") fs)
    as [rawJson|e] eqn:Hread; [|by eauto].
  destruct (SignatureParser_parse rawJson) as [signature|e] eqn:Hparse.
  - right. by eauto.
  - left. right. by eauto.
Qed.

Lemma signature_fails_not_document (dir : string) (fs : FS)
    (signature : SignatureInfo) :
  signature_fails dir fs → signature_document dir fs signature → False.
Proof.
  intros [[e He]|(raw & e & Hread & Hparse)] (raw' & Hread' & Hparse');
    congruence.
Qed.

Lemma verify_entries_pass (context : Context) (signature : SignatureInfo)
    (fs : FS) :
  entries_pass context signature fs →
  verify_entries context (entries signature) fs = Returned None.
Proof.
  unfold entries_pass. induction 1 as [|entry rest Hentry _ IH]; [done|].
  simpl. by rewrite Hentry.
Qed.

Lemma verify_entries_compromised (context : Context) (signature : SignatureInfo)
    (fs : FS) (failure : ModuleVerificationResult.t) :
  entries_fail_compromised context signature fs →
  verify_entries context (entries signature) fs = Returned (Some failure) →
  ModuleVerificationResult.status failure = Compromised.
Proof.
  unfold entries_fail_compromised.
  induction 1 as [|entry rest Hentry _ IH]; [done|]. simpl.
  destruct (SignatureEntry.verify entry context fs) as [[r|]|] eqn:Hverify;
    [|done..].
  intros [= ->]. by apply Hentry.
Qed.

Lemma find_identity_extracted (signature : SignatureInfo)
    (identity : SignatureIdentity) :
  extracted signature identity →
  find_identity (entries signature) = Some identity.
Proof.
  intros (before & entry & after & -> & Hbefore & Hentry).
  induction Hbefore as [|e before He _ IH]; simpl.
  - by rewrite Hentry.
  - by rewrite He.
Qed.

Lemma verifier_for_routed (identity : SignatureIdentity)
    (verifier : SignatureIdentity → string → string → IO bool) :
  routed identity verifier → verifier_for identity = Some verifier.
Proof.
  unfold verifier_for.
  intros [[[user Huser] ->]|(Huser & [url Hurl] & ->)].
  - by rewrite Huser.
  - by rewrite Huser, Hurl.
Qed.

(** What [verify] does once the signature check has been reached. *)
Lemma verify_after_signature_check (dir : string) (relFilesOnDisk : list string)
    (expectedPackageName : string) (fs fs' : FS) (identity : SignatureIdentity)
    (valid : bool) :
  signature_checked dir relFilesOnDisk expectedPackageName fs identity valid fs' →
  verify process dir relFilesOnDisk expectedPackageName fs =
  if valid then
    match readFilePromise (path_join dir "package.json") fs' with
    | Thrown _ =>
        (Returned (result Compromised (Some "Missing or unparsable package.json")
                          expectedPackageName None), fs')
    | Returned raw =>
        match JSON_parse raw with
        | None =>
            (Returned (result Compromised
                         (Some "Missing or unparsable package.json")
                         expectedPackageName None), fs')
        | Some packageInfo =>
            let mismatch :=
              if is_nullish packageInfo then Returned true
              else
                outcome_bind (get_property packageInfo "name") (λ name,
                  outcome_bind
                    (loose_equals_string (or_else name (JSString ""))
                                         expectedPackageName)
                    (λ same, Returned (negb same))) in
            match mismatch with
            | Thrown e => (Thrown e, fs')
            | Returned true =>
                (Returned (result Compromised
                   (Some "Provided package name in package.json did not match expected package name")
                   expectedPackageName None), fs')
            | Returned false =>
                match TrustStore.isTrusted process identity expectedPackageName fs' with
                | (Returned true, fs'') =>
                    (Returned (result Trusted None expectedPackageName None), fs'')
                | (Returned false, fs'') =>
                    (Returned (result Untrusted None expectedPackageName
                                      (Some identity)), fs'')
                | (Thrown e, fs'') => (Thrown e, fs'')
                end
            end
        end
    end
  else
    (Returned (result Compromised (Some "The signature does not match")
                      expectedPackageName None), fs').
Proof.
  intros (signature & verifier & (rawJson & Hread & Hparse) & Hpass & Hid
          & Hrouted & Hvalid).
  apply verify_entries_pass in Hpass.
  apply find_identity_extracted in Hid.
  apply verifier_for_routed in Hrouted.
  unfold verify. io_unfold. rewrite Hread. simpl. rewrite Hparse. simpl.
  rewrite Hpass, Hid. simpl. rewrite Hrouted, Hvalid.
  destruct valid; simpl; [|done].
  unfold JSON_parse_checked.
  destruct (readFilePromise (path_join dir "package.json") fs') as [raw|];
    simpl; [|done].
  destruct (JSON_parse raw) as [packageInfo|]; simpl; [|done].
  destruct (is_nullish packageInfo); simpl; [done|].
  destruct (get_property packageInfo "name") as [name|]; simpl; [|done].
  destruct (loose_equals_string _ _) as [[]|]; simpl; try done.
  by destruct (TrustStore.isTrusted process identity expectedPackageName fs')
    as [[[]|] ?].
Qed.


Lemma verify_unsigned (dir : string) (relFilesOnDisk : list string)
    (expectedPackageName : string) (fs : FS) :
  signature_fails dir fs →
  verify process dir relFilesOnDisk expectedPackageName fs
  = (Returned (result Unsigned (Some "Missing or unparsable signature.json")
                      expectedPackageName None), fs).
Proof.
  unfold verify. io_unfold.
  intros [[e Hread]|(rawJson & e & Hread & Hparse)]; rewrite Hread; simpl;
    [done|]. by rewrite Hparse.
Qed.

Lemma verify_signed_not_unsigned (dir : string) (relFilesOnDisk : list string)
    (expectedPackageName : string) (fs fs' : FS) (signature : SignatureInfo)
    (verdict : ModuleVerificationResult.t) :
  signature_document dir fs signature →
  entries_fail_compromised
    {| dir := dir; relFilesOnDisk := relFilesOnDisk;
       expectedPackageName := expectedPackageName |} signature fs →
  verify process dir relFilesOnDisk expectedPackageName fs = (Returned verdict, fs') →
  ModuleVerificationResult.status verdict ≠ Unsigned.
Proof.
  intros (rawJson & Hread & Hparse) Hentries.
  unfold verify. io_unfold. rewrite Hread. simpl. rewrite Hparse. simpl.
  destruct (verify_entries _ (entries signature) fs) as [[failure|]|] eqn:Hloop;
    simpl; [| |done].
  { intros [= <- <-].
    by rewrite (verify_entries_compromised _ _ _ _ Hentries Hloop). }
  destruct (find_identity (entries signature)) as [identity|];
    [|by intros [= <- <-]].
  destruct (verifier_for identity) as [verifier|]; [|by intros [= <- <-]].
  destruct (verifier identity _ _ fs) as [[[]|] fs1]; simpl;
    [|by intros [= <- <-]|done].
  unfold JSON_parse_checked.
  destruct (readFilePromise (path_join dir "package.json") fs1) as [raw|];
    simpl; [|by intros [= <- <-]].
  destruct (JSON_parse raw) as [packageInfo|]; simpl; [|by intros [= <- <-]].
  destruct (is_nullish packageInfo); simpl; [by intros [= <- <-]|].
  destruct (get_property packageInfo "name") as [name|]; simpl; [|done].
  destruct (loose_equals_string _ _) as [[]|]; simpl; [| |done].
  - destruct (TrustStore.isTrusted process identity expectedPackageName fs1)
      as [[[]|] ?]; [by intros [= <- <-]..|done].
  - by intros [= <- <-].
Qed.

End ModuleVerifierProperties.

Section FilesEntryFailures.
Context `{Runtime}.

(** The files entry fails with [Compromised] only. *)
Lemma files_entry_fails_compromised (files : list SignatureFileEntry)
    (context : VerificationContext.t) (fs : FS)
    (failure : ModuleVerificationResult.t) :
  SignatureFilesEntry.verify files context fs = Returned (Some failure) →
  ModuleVerificationResult.status failure = Compromised.
Proof.
  rewrite verify_unfold.
  assert (∀ rels,
    SignatureFilesEntry.verify_filesOnDisk context files (skipPackageJson context)
      rels fs = Returned (Some failure) →
    ModuleVerificationResult.status failure = Compromised) as Hfirst.
  { induction rels as [|rel rels IH]; [done|]. simpl.
    destruct (String.eqb _ "signature.json"); [done|].
    destruct (String.eqb _ "package.json" && _); [done|].
    destruct (SignatureFilesEntry.expected files _) as [[] expectedHash]; simpl.
    - destruct (sha512OfFile _ fs) as [hash|]; [|done].
      destruct (SignatureFilesEntry.differs hash expectedHash); [|done].
      by intros [= <-].
    - by intros [= <-]. }
  assert (∀ rest,
    SignatureFilesEntry.verify_signedFiles context rest = Some failure →
    ModuleVerificationResult.status failure = Compromised) as Hsecond.
  { induction rest as [|e rest IH]; [done|]. simpl.
    destruct (String.eqb (path e) "signature.json"); [done|].
    destruct (SignatureFilesEntry.onDisk _ _); simpl; [done|].
    by intros [= <-]. }
  destruct (SignatureFilesEntry.verify_filesOnDisk _ _ _ _ fs)
    as [[failure'|]|] eqn:Hloop; [|by intros [= ?%Hsecond]|done].
  intros [= ->]. by eapply Hfirst.
Qed.

End FilesEntryFailures.

(** C4.  When the signature document parses, the content check of every
    entry passes, an identity is extracted and routed to a verifier, and
    the verifier returns false on the canonical message, [verify] returns
    [Compromised] with the reason that the signature does not match,
    whatever [package.json] is: the manifest is read, and its name
    compared, only after the verifier has returned true. *)
Theorem signature_mismatch_comes_first `{Runtime} `{ModuleVerifier.Collaborators}
    (process : Process) (dir : string) (relFilesOnDisk : list string)
    (expectedPackageName : string) (fs fs' : FS) (identity : SignatureIdentity) :
  signature_checked dir relFilesOnDisk expectedPackageName fs identity false fs' →
  ModuleVerifier.verify process dir relFilesOnDisk expectedPackageName fs
  = (Returned
       {| ModuleVerificationResult.status := Compromised;
          ModuleVerificationResult.reason := Some "The signature does not match";
          ModuleVerificationResult.packageName := expectedPackageName;
          ModuleVerificationResult.untrustedIdentity := None;
          ModuleVerificationResult.untrustedPackageVersion := None;
          ModuleVerificationResult.isPrivate := None |},
     fs').
Proof.
  intros Hchecked. by rewrite (verify_after_signature_check _ _ _ _ _ _ _ _ Hchecked).
Qed.

Lemma signature_mismatch_comes_first_witness :
  let fs :=
    Example.package Example.manifest
      (Example.signed "mallory" (Example.message Example.manifest)) in
  ModuleVerifier.verify (H := Reference.runtime)
    (H0 := Double.collaborators (Example.document Example.manifest))
    (Example.linux (Some "/home/u")) "/p"
    ["a.txt"; "package.json"; "signature.json"] "p" fs
  = (Returned
       {| ModuleVerificationResult.status := Compromised;
          ModuleVerificationResult.reason := Some "The signature does not match";
          ModuleVerificationResult.packageName := "p";
          ModuleVerificationResult.untrustedIdentity := None;
          ModuleVerificationResult.untrustedPackageVersion := None;
          ModuleVerificationResult.isPrivate := None |},
     fs).
Proof.
  intros fs.
  apply (signature_mismatch_comes_first (H := Reference.runtime)
           (H0 := Double.collaborators (Example.document Example.manifest))
           _ _ _ _ fs fs Example.alice).
  exists {| ModuleVerifier.entries := Example.document Example.manifest;
            ModuleVerifier.signature :=
              "mallory signed " +:+ Example.message Example.manifest |},
         (@ModuleVerifier.KeybaseVerifier_verify
            (Double.collaborators (Example.document Example.manifest))).
  split; [|split; [|split; [|split]]].
  - eexists. split; [vm_compute; reflexivity|]. reflexivity.
  - constructor; [|constructor; [|constructor]]; vm_compute; reflexivity.
  - exists [Double.filesEntry (H := Reference.runtime) Example.tags
              (Example.listing Example.manifest)],
           (Double.identityEntry Example.alice), [].
    split; [reflexivity|]. split; [|reflexivity].
    constructor; [reflexivity|constructor].
  - left. split; [|reflexivity]. simpl. eauto.
  - vm_compute. reflexivity.
Defined.

(** C10.  Once the signature is valid and [package.json] parses, a
    manifest that is not [null] and whose [name] member is absent, empty
    or otherwise falsy is compared as the empty string: the verdict is
    [Compromised], with the reason that the provided package name did not
    match, for every expected package name that is not empty, and the name
    check passes (the verdict is that of the trust store) when the
    expected package name is the empty string.  A manifest whose whole
    content is [null] yields the same [Compromised] verdict, not a parse
    failure. *)
Theorem falsy_name_is_the_empty_name `{Runtime} `{ModuleVerifier.Collaborators}
    (process : Process) (dir : string) (relFilesOnDisk : list string)
    (expectedPackageName : string) (fs fs' : FS) (identity : SignatureIdentity)
    (raw : string) (packageInfo : JSValue) :
  signature_checked dir relFilesOnDisk expectedPackageName fs identity true fs' →
  readFilePromise (path_join dir "package.json") fs' = Returned raw →
  JSON_parse raw = Some packageInfo →
  let mismatch :=
    (Returned
       {| ModuleVerificationResult.status := Compromised;
          ModuleVerificationResult.reason := Some "Provided package name in package.json did not match expected package name";
          ModuleVerificationResult.packageName := expectedPackageName;
          ModuleVerificationResult.untrustedIdentity := None;
          ModuleVerificationResult.untrustedPackageVersion := None;
          ModuleVerificationResult.isPrivate := None |},
     fs') in
  (∀ name,
     is_nullish packageInfo = false →
     get_property packageInfo "name" = Returned name →
     truthy name = false →
     (expectedPackageName ≠ "" →
      ModuleVerifier.verify process dir relFilesOnDisk expectedPackageName fs
      = mismatch)
     ∧ (expectedPackageName = "" →
        ModuleVerifier.verify process dir relFilesOnDisk expectedPackageName fs
        = match TrustStore.isTrusted process identity expectedPackageName fs' with
          | (Returned true, fs'') =>
              (Returned
                 {| ModuleVerificationResult.status := Trusted;
                    ModuleVerificationResult.reason := None;
                    ModuleVerificationResult.packageName := expectedPackageName;
                    ModuleVerificationResult.untrustedIdentity := None;
                    ModuleVerificationResult.untrustedPackageVersion := None;
                    ModuleVerificationResult.isPrivate := None |},
               fs'')
          | (Returned false, fs'') =>
              (Returned
                 {| ModuleVerificationResult.status := Untrusted;
                    ModuleVerificationResult.reason := None;
                    ModuleVerificationResult.packageName := expectedPackageName;
                    ModuleVerificationResult.untrustedIdentity := Some identity;
                    ModuleVerificationResult.untrustedPackageVersion := None;
                    ModuleVerificationResult.isPrivate := None |},
               fs'')
          | (Thrown e, fs'') => (Thrown e, fs'')
          end))
  ∧ (packageInfo = JSNull →
     ModuleVerifier.verify process dir relFilesOnDisk expectedPackageName fs
     = mismatch).
Proof.
  intros Hchecked Hread Hparse mismatch.
  rewrite (verify_after_signature_check _ _ _ _ _ _ _ _ Hchecked).
  rewrite Hread, Hparse. split.
  - intros name Hnull Hname Hfalsy. rewrite Hnull, Hname. simpl.
    unfold or_else. rewrite Hfalsy. simpl. split.
    + intros Hne. by destruct expectedPackageName.
    + intros ->. done.
  - intros ->. done.
Qed.

Lemma falsy_name_is_the_empty_name_witness :
  let manifest := Reference.stringify (JSObject []) in
  let fs :=
    Example.package manifest (Example.signed "alice" (Example.message manifest)) in
  ModuleVerifier.verify (H := Reference.runtime)
    (H0 := Double.collaborators (Example.document manifest))
    (Example.linux (Some "/home/u")) "/p"
    ["a.txt"; "package.json"; "signature.json"] "q" fs
  = (Returned
       {| ModuleVerificationResult.status := Compromised;
          ModuleVerificationResult.reason := Some "Provided package name in package.json did not match expected package name";
          ModuleVerificationResult.packageName := "q";
          ModuleVerificationResult.untrustedIdentity := None;
          ModuleVerificationResult.untrustedPackageVersion := None;
          ModuleVerificationResult.isPrivate := None |},
     fs).
Proof.
  intros manifest fs.
  destruct (falsy_name_is_the_empty_name (H := Reference.runtime)
              (H0 := Double.collaborators (Example.document manifest))
              (Example.linux (Some "/home/u")) "/p"
              ["a.txt"; "package.json"; "signature.json"] "q" fs fs
              Example.alice manifest (JSObject [])) as [Hname _].
  - exists {| ModuleVerifier.entries := Example.document manifest;
              ModuleVerifier.signature :=
                "alice signed " +:+ Example.message manifest |},
           (@ModuleVerifier.KeybaseVerifier_verify
              (Double.collaborators (Example.document manifest))).
    split; [|split; [|split; [|split]]].
    + eexists. split; [vm_compute; reflexivity|]. reflexivity.
    + constructor; [|constructor; [|constructor]]; vm_compute; reflexivity.
    + exists [Double.filesEntry (H := Reference.runtime) Example.tags
                (Example.listing manifest)],
             (Double.identityEntry Example.alice), [].
      split; [reflexivity|]. split; [|reflexivity].
      constructor; [reflexivity|constructor].
    + left. split; [|reflexivity]. simpl. eauto.
    + vm_compute. reflexivity.
  - vm_compute. reflexivity.
  - reflexivity.
  - apply (Hname JSUndefined); [reflexivity..|]. discriminate.
Defined.

(** C5 (as amended).  [verify] returns the [Unsigned] verdict exactly when
    reading or parsing [<dir>/signature.json] fails; the reason is then
    [Missing or unparsable signature.json] and the package name of the
    result is the expected package name.  In every other case in which
    [verify] returns, the verdict is [Compromised], [Untrusted] or
    [Trusted]; it may also throw instead of returning a verdict.  (A
    content check of an entry that fails is taken to fail with
    [Compromised], as that of the files entry does.) *)
Theorem unsigned_iff_signature_fails `{Runtime} `{ModuleVerifier.Collaborators}
    (process : Process) (dir : string) (relFilesOnDisk : list string)
    (expectedPackageName : string) (fs : FS) :
  (∀ signature,
     signature_document dir fs signature →
     entries_fail_compromised
       {| ModuleVerifier.dir := dir;
          ModuleVerifier.relFilesOnDisk := relFilesOnDisk;
          ModuleVerifier.expectedPackageName := expectedPackageName |}
       signature fs) →
  (signature_fails dir fs →
   ModuleVerifier.verify process dir relFilesOnDisk expectedPackageName fs
   = (Returned
        {| ModuleVerificationResult.status := Unsigned;
           ModuleVerificationResult.reason := Some "Missing or unparsable signature.json";
           ModuleVerificationResult.packageName := expectedPackageName;
           ModuleVerificationResult.untrustedIdentity := None;
           ModuleVerificationResult.untrustedPackageVersion := None;
           ModuleVerificationResult.isPrivate := None |},
      fs))
  ∧ (∀ verdict fs',
       ModuleVerifier.verify process dir relFilesOnDisk expectedPackageName fs
         = (Returned verdict, fs') →
       (ModuleVerificationResult.status verdict = Unsigned ↔ signature_fails dir fs)
       ∧ (ModuleVerificationResult.status verdict = Unsigned →
          ModuleVerificationResult.reason verdict
            = Some "Missing or unparsable signature.json"
          ∧ ModuleVerificationResult.packageName verdict = expectedPackageName)
       ∧ (¬ signature_fails dir fs →
          ModuleVerificationResult.status verdict = Compromised
          ∨ ModuleVerificationResult.status verdict = Untrusted
          ∨ ModuleVerificationResult.status verdict = Trusted)).
Proof.
  intros Hentries. split; [apply verify_unsigned|].
  intros verdict fs' Hverify.
  destruct (signature_loads_or_fails dir fs) as [Hfails|[signature Hdoc]].
  - rewrite (verify_unsigned _ _ _ _ _ Hfails) in Hverify.
    injection Hverify as <- <-. split; [done|]. split; [done|].
    intros Hnot. by destruct Hnot.
  - pose proof (verify_signed_not_unsigned _ _ _ _ _ _ _ _ Hdoc
                  (Hentries _ Hdoc) Hverify) as Hstatus.
    split; [|split].
    + split; [done|]. intros Hfails.
      by destruct (signature_fails_not_document _ _ _ Hfails Hdoc).
    + done.
    + intros _. destruct (ModuleVerificationResult.status verdict); by eauto.
Qed.

Lemma unsigned_iff_signature_fails_witness :
  let fs :=
    Example.package Example.manifest
      (Example.signed "alice" (Example.message Example.manifest)) in
  let verdict :=
    {| ModuleVerificationResult.status := Untrusted;
       ModuleVerificationResult.reason := None;
       ModuleVerificationResult.packageName := "p";
       ModuleVerificationResult.untrustedIdentity := Some Example.alice;
       ModuleVerificationResult.untrustedPackageVersion := None;
       ModuleVerificationResult.isPrivate := None |} in
  ModuleVerificationResult.status verdict = Unsigned ↔
  signature_fails (H := Reference.runtime)
    (H0 := Double.collaborators (Example.document Example.manifest)) "/p" fs.
Proof.
  intros fs verdict.
  destruct (unsigned_iff_signature_fails (H := Reference.runtime)
              (H0 := Double.collaborators (Example.document Example.manifest))
              (Example.linux (Some "/home/u")) "/p"
              ["a.txt"; "package.json"; "signature.json"] "p" fs)
    as [_ Hverdict].
  - intros signature (rawJson & Hread & Hparse).
    vm_compute in Hread. injection Hread as <-.
    injection Hparse as <-.
    constructor; [|constructor; [|constructor]].
    + intros failure. apply files_entry_fails_compromised.
    + intros failure. discriminate.
  - apply (Hverdict verdict
             (<["/home/u/.pkgsign-trust-store" := Directory]> fs)).
    vm_compute. reflexivity.
Defined.

(** C5 (as stated) fails: with a signature document that parses, [verify]
    need not come to a verdict.  For a package that is signed and whose
    manifest carries the expected name, run where the home variable is not
    set, it throws a [TypeError]: the trust store is asked outside any
    [try] block. *)
Lemma verify_throws_for_a_signed_package :
  let fs := Example.signed_package in
  signature_document (H := Reference.runtime)
    (H0 := Double.collaborators (Example.document Example.manifest)) "/p" fs
    {| ModuleVerifier.entries := Example.document Example.manifest;
       ModuleVerifier.signature :=
         "alice signed " +:+ Example.message Example.manifest |}
  ∧ ModuleVerifier.verify (H := Reference.runtime)
      (H0 := Double.collaborators (Example.document Example.manifest))
      (Example.linux None) "/p" Example.found "p" fs
    = (Thrown TypeError, fs).
Proof.
  intros fs. split.
  - eexists. split; [vm_compute; reflexivity|]. reflexivity.
  - vm_compute. reflexivity.
Qed.

(** ** The scenarios of the specification, on the reference runtime *)

Section Scenarios.
Import Example.

(** A package signed by an identity that is not trusted yet. *)
Example scenario_untrusted :
  fst (run found "p" signed_package)
  = Returned (ModuleVerifier.result Untrusted None "p" (Some alice)).
Proof. vm_compute. reflexivity. Qed.

(** The same package once [alice] is trusted for [p]. *)
Example scenario_trusted :
  fst (run found "p"
         (snd (TrustStore.addTrusted (H := Reference.runtime)
                 (linux (Some "/home/u")) alice "p"
                 signed_package)))
  = Returned (ModuleVerifier.result Trusted None "p" None).
Proof. vm_compute. reflexivity. Qed.

(** The content of [a.txt] replaced. *)
Example scenario_mismatched_hash :
  fst (run found "p" (<["/p/a.txt" := File "ho"]> signed_package))
  = Returned (ModuleVerifier.result Compromised
      (Some "a.txt does not have content that was signed for (mismatched hash)")
      "p" None).
Proof. vm_compute. reflexivity. Qed.

(** A file that the signature does not list. *)
Example scenario_extra_file :
  fst (run (found ++ ["b.txt"]) "p" (<["/p/b.txt" := File "x"]> signed_package))
  = Returned (ModuleVerifier.result Compromised
      (Some "b.txt exists in the package, but was not in the signature")
      "p" None).
Proof. vm_compute. reflexivity. Qed.

(** Another package name expected. *)
Example scenario_other_name :
  fst (run found "q" signed_package)
  = Returned (ModuleVerifier.result Compromised
      (Some "Provided package name in package.json did not match expected package name")
      "q" None).
Proof. vm_compute. reflexivity. Qed.

(** No signature document. *)
Example scenario_unsigned :
  fst (run ["a.txt"; "package.json"] "p" (delete "/p/signature.json" signed_package))
  = Returned (ModuleVerifier.result Unsigned
      (Some "Missing or unparsable signature.json") "p" None).
Proof. vm_compute. reflexivity. Qed.

End Scenarios.

(** * Further properties *)

(** ** The trust store *)

Section TrustStoreFurther.
Context `{Runtime} (process : Process).

Lemma isTrusted_thrown (identity : SignatureIdentity) (packageName : string)
    (fs fs1 : FS) (e : JSError) :
  TrustStore.createTrustStoreIfNecessary process fs = (Thrown e, fs1) →
  TrustStore.isTrusted process identity packageName fs = (Thrown e, fs1).
Proof.
  intros Hcreate. unfold TrustStore.isTrusted.
  unfold mbind at 1. unfold IO_bind at 1. by rewrite Hcreate.
Qed.

(** What [createTrustStoreIfNecessary] leaves behind: the file system it was
    given, with the folder added when it was created. *)
Lemma createTrustStoreIfNecessary_effect (fs : FS) :
  let '(o, fs1) := TrustStore.createTrustStoreIfNecessary process fs in
  (∀ e, o = Thrown e → fs1 = fs)
  ∧ (∀ folder, o = Returned folder →
       trustStoreFolder process = Some folder
       ∧ is_Some (fs1 !! folder)
       ∧ (fs1 = fs ∨ (fs !! folder = None ∧ fs1 = <[folder := Directory]> fs))).
Proof.
  destruct (TrustStore.createTrustStoreIfNecessary process fs) as [o fs1] eqn:Hc.
  split.
  - intros e ->. rewrite createTrustStoreIfNecessary_unfold in Hc.
    destruct (trustStoreFolder process) as [folder|]; [|by simplify_eq].
    destruct (fs !! folder); [by simplify_eq|].
    destruct (fs !! path_dirname folder) as [[?|]|]; by simplify_eq.
  - intros folder ->. by apply createTrustStoreIfNecessary_returns.
Qed.

End TrustStoreFurther.

(** X1.  When the home variable the platform selects is not set
    ([USERPROFILE] on a platform whose name starts with [win], [HOME]
    elsewhere), [isTrusted] and [addTrusted] throw a [TypeError] and leave
    the file system as it was. *)
Theorem trust_store_needs_home `{Runtime} (process : Process)
    (identity : SignatureIdentity) (packageName : string) (fs : FS) :
  (if String.prefix "win" (platform process)
   then USERPROFILE process else HOME process) = None →
  TrustStore.isTrusted process identity packageName fs = (Thrown TypeError, fs)
  ∧ TrustStore.addTrusted process identity packageName fs = (Thrown TypeError, fs).
Proof.
  intros Hhome.
  assert (TrustStore.createTrustStoreIfNecessary process fs = (Thrown TypeError, fs))
    as Hcreate.
  { rewrite createTrustStoreIfNecessary_unfold.
    unfold trustStoreFolder, trustStoreBaseFolder. by rewrite Hhome. }
  split; [by apply isTrusted_thrown|].
  by rewrite addTrusted_unfold, Hcreate.
Qed.

Lemma trust_store_needs_home_witness :
  let process :=
    {| platform := "linux"; USERPROFILE := Some "C:\Users\u"; HOME := None |} in
  TrustStore.isTrusted (H := Reference.runtime) process Example.alice "p"
    Example.trusting_home = (Thrown TypeError, Example.trusting_home).
Proof.
  intros process.
  apply (trust_store_needs_home (H := Reference.runtime) process Example.alice "p"
           Example.trusting_home).
  reflexivity.
Defined.

(** X2.  [addTrusted] touches nothing but the trust-store folder and the
    record file of the name: whether it returns or throws, every other
    path holds what it held. *)
Theorem addTrusted_touches_only_its_record `{Runtime} (process : Process)
    (identity : SignatureIdentity) (packageName : string) (fs : FS)
    (folder file : string) :
  trustStoreFolder process = Some folder →
  trustRecordFile process packageName = Some file →
  ∀ q, q ≠ folder → q ≠ file →
    snd (TrustStore.addTrusted process identity packageName fs) !! q = fs !! q.
Proof.
  intros Hfolder Hfile q Hq1 Hq2.
  unfold trustRecordFile in Hfile. rewrite Hfolder in Hfile. simpl in Hfile.
  injection Hfile as <-.
  rewrite addTrusted_unfold.
  pose proof (createTrustStoreIfNecessary_effect process fs) as Heffect.
  destruct (TrustStore.createTrustStoreIfNecessary process fs) as [[folder'|e] fs1].
  - destruct Heffect as [_ Hreturned].
    destruct (Hreturned folder' eq_refl) as (Hfolder' & _ & Hfs1).
    assert (folder' = folder) as -> by congruence.
    assert (fs1 !! q = fs !! q) as Hq.
    { destruct Hfs1 as [->|[_ ->]]; [done|]. by rewrite lookup_insert_ne. }
    unfold writeFilePromise.
    set (file := path_join folder (packageName +:+ ".trust")) in *.
    destruct (fs1 !! file) as [[?|]|];
      destruct (fs1 !! path_dirname file) as [[?|]|]; simpl;
      rewrite ?lookup_insert_ne by done; done.
  - destruct Heffect as [Hthrown _]. simpl. by rewrite (Hthrown e eq_refl).
Qed.

Lemma addTrusted_touches_only_its_record_witness :
  snd (TrustStore.addTrusted (H := Reference.runtime)
         (Example.linux (Some "/home/u")) Example.mallory "q"
         Example.trusting_home) !! "/home/u/.pkgsign-trust-store/p.trust"
  = Example.trusting_home !! "/home/u/.pkgsign-trust-store/p.trust".
Proof.
  apply (addTrusted_touches_only_its_record (H := Reference.runtime)
           (Example.linux (Some "/home/u")) Example.mallory "q"
           Example.trusting_home "/home/u/.pkgsign-trust-store"
           "/home/u/.pkgsign-trust-store/q.trust").
  - reflexivity.
  - reflexivity.
  - discriminate.
  - discriminate.
Defined.

Section TrustStoreComposition.
Context `{Runtime} (process : Process).

(** The answer of [isTrusted] is read from the record file, on the file
    system that [createTrustStoreIfNecessary] leaves. *)
Lemma isTrusted_answer (identity : SignatureIdentity) (packageName : string)
    (fs1 fs2 : FS) (folder : string) :
  trustStoreFolder process = Some folder →
  is_Some (fs1 !! folder) → is_Some (fs2 !! folder) →
  fs1 !! path_join folder (packageName +:+ ".trust")
    = fs2 !! path_join folder (packageName +:+ ".trust") →
  fst (TrustStore.isTrusted process identity packageName fs1)
  = fst (TrustStore.isTrusted process identity packageName fs2).
Proof.
  intros Hfolder Hin1 Hin2 Hsame.
  rewrite (isTrusted_unfold process identity packageName fs1 fs1 folder)
    by by apply createTrustStoreIfNecessary_present.
  rewrite (isTrusted_unfold process identity packageName fs2 fs2 folder)
    by by apply createTrustStoreIfNecessary_present.
  simpl. by rewrite Hsame.
Qed.

(** A completed [addTrusted], decomposed. *)
Lemma addTrusted_returns (identity : SignatureIdentity) (packageName : string)
    (fs fs' : FS) :
  TrustStore.addTrusted process identity packageName fs = (Returned (), fs') →
  ∃ folder fs1,
    let file := path_join folder (packageName +:+ ".trust") in
    TrustStore.createTrustStoreIfNecessary process fs = (Returned folder, fs1)
    ∧ fs1 !! file ≠ Some Directory
    ∧ fs1 !! path_dirname file = Some Directory
    ∧ fs' = <[file := File (JSON_stringify (identity_object identity))]> fs1.
Proof.
  rewrite addTrusted_unfold.
  destruct (TrustStore.createTrustStoreIfNecessary process fs)
    as [[folder|e] fs1] eqn:Hcreate; [|done].
  unfold writeFilePromise. intros Hwrite. exists folder, fs1. simpl.
  set (file := path_join folder (packageName +:+ ".trust")) in *.
  split; [done|].
  destruct (fs1 !! file) as [[?|]|];
    destruct (fs1 !! path_dirname file) as [[?|]|]; by simplify_eq.
Qed.

End TrustStoreComposition.

(** X3.  Names are independent: once [addTrusted] has completed for a name,
    the answer of [isTrusted] for any identity and any other name, one
    whose record file is another file, is what it was before. *)
Theorem addTrusted_keeps_other_names `{Runtime} (process : Process)
    (identity asked : SignatureIdentity) (packageName other : string)
    (fs fs' : FS) :
  TrustStore.addTrusted process identity packageName fs = (Returned (), fs') →
  trustRecordFile process other ≠ trustRecordFile process packageName →
  fst (TrustStore.isTrusted process asked other fs')
  = fst (TrustStore.isTrusted process asked other fs).
Proof.
  intros Hadd Hother.
  apply addTrusted_returns in Hadd as (folder & fs1 & Hcreate & _ & _ & ->).
  pose proof (createTrustStoreIfNecessary_returns _ _ _ _ Hcreate)
    as (Hfolder & Hin & _).
  unfold trustRecordFile in Hother. rewrite Hfolder in Hother. simpl in Hother.
  set (file := path_join folder (packageName +:+ ".trust")) in *.
  set (file' := path_join folder (other +:+ ".trust")) in *.
  assert (file ≠ file') as Hne by congruence.
  rewrite (isTrusted_unfold process asked other fs fs1 folder Hcreate). simpl.
  assert (is_Some (<[file := File (JSON_stringify (identity_object identity))]>
                     fs1 !! folder)) as Hin'.
  { destruct (decide (file = folder)) as [Heq|Hne'].
    - rewrite <- Heq, lookup_insert_eq. eauto.
    - by rewrite lookup_insert_ne. }
  rewrite (isTrusted_unfold process asked other _ _ folder
             (createTrustStoreIfNecessary_present process _ folder Hfolder Hin')).
  simpl. fold file'. by rewrite lookup_insert_ne.
Qed.

Lemma addTrusted_keeps_other_names_witness :
  let process := Example.linux (Some "/home/u") in
  fst (TrustStore.isTrusted (H := Reference.runtime) process Example.alice "p"
         (snd (TrustStore.addTrusted (H := Reference.runtime) process
                 Example.mallory "q" Example.trusting_home)))
  = fst (TrustStore.isTrusted (H := Reference.runtime) process Example.alice "p"
           Example.trusting_home).
Proof.
  intros process.
  apply (addTrusted_keeps_other_names (H := Reference.runtime) process
           Example.mallory Example.alice "q" "p" Example.trusting_home).
  - vm_compute. reflexivity.
  - vm_compute. discriminate.
Defined.

(** X4.  The last writer wins, down to the file system: when [addTrusted]
    has completed for a name, a second [addTrusted] for the same name
    completes too, and leaves the file system that it would have left
    without the first. *)
Theorem addTrusted_replaces_the_record `{Runtime} (process : Process)
    (first second : SignatureIdentity) (packageName : string) (fs fs1 : FS) :
  TrustStore.addTrusted process first packageName fs = (Returned (), fs1) →
  TrustStore.addTrusted process second packageName fs1
  = TrustStore.addTrusted process second packageName fs
  ∧ fst (TrustStore.addTrusted process second packageName fs1) = Returned ().
Proof.
  intros Hadd.
  apply addTrusted_returns in Hadd as (folder & fs0 & Hcreate & Hfile & Hparent & ->).
  pose proof (createTrustStoreIfNecessary_returns _ _ _ _ Hcreate)
    as (Hfolder & Hin & _).
  set (file := path_join folder (packageName +:+ ".trust")) in *.
  assert (path_dirname file ≠ file) as Hne by congruence.
  rewrite !addTrusted_unfold, Hcreate.
  rewrite (createTrustStoreIfNecessary_present process _ folder); [|done|].
  - unfold writeFilePromise. fold file.
    rewrite lookup_insert_eq, lookup_insert_ne, Hparent by done.
    rewrite insert_insert_eq.
    by destruct (fs0 !! file) as [[?|]|].
  - destruct (decide (file = folder)) as [Heq|Hne'].
    + rewrite <- Heq, lookup_insert_eq. eauto.
    + by rewrite lookup_insert_ne.
Qed.

Lemma addTrusted_replaces_the_record_witness :
  let process := Example.linux (Some "/home/u") in
  TrustStore.addTrusted (H := Reference.runtime) process Example.alice "p"
    (snd (TrustStore.addTrusted (H := Reference.runtime) process
            Example.mallory "p" Example.fresh_home))
  = TrustStore.addTrusted (H := Reference.runtime) process Example.alice "p"
      Example.fresh_home.
Proof.
  intros process.
  apply (addTrusted_replaces_the_record (H := Reference.runtime) process
           Example.mallory Example.alice "p" Example.fresh_home).
  vm_compute. reflexivity.
Defined.

(** X5.  Asking again changes nothing: on the file system that a call of
    [isTrusted] leaves, the same call has the same outcome, and when the
    first call returned, no later call of [isTrusted], for any identity
    and name, changes the file system. *)
Theorem isTrusted_settles `{Runtime} (process : Process)
    (identity : SignatureIdentity) (packageName : string) (fs : FS) :
  let first := TrustStore.isTrusted process identity packageName fs in
  TrustStore.isTrusted process identity packageName (snd first) = first
  ∧ (∀ trusted asked other,
       fst first = Returned trusted →
       snd (TrustStore.isTrusted process asked other (snd first)) = snd first).
Proof.
  intros first. subst first.
  destruct (TrustStore.createTrustStoreIfNecessary process fs)
    as [[folder|e] fs1] eqn:Hcreate.
  - pose proof (createTrustStoreIfNecessary_returns _ _ _ _ Hcreate)
      as (Hfolder & Hin & _).
    rewrite (isTrusted_unfold process identity packageName fs fs1 folder Hcreate).
    pose proof (createTrustStoreIfNecessary_present process fs1 folder Hfolder Hin)
      as Hagain.
    simpl. split.
    + by rewrite (isTrusted_unfold process identity packageName fs1 fs1 folder).
    + intros trusted asked other _.
      by rewrite (isTrusted_unfold process asked other fs1 fs1 folder).
  - rewrite (isTrusted_thrown process identity packageName fs fs1 e Hcreate).
    pose proof (createTrustStoreIfNecessary_effect process fs) as Heffect.
    rewrite Hcreate in Heffect. destruct Heffect as [Hthrown _].
    rewrite (Hthrown e eq_refl) in *. simpl. split; [|done].
    by apply isTrusted_thrown.
Qed.

Lemma isTrusted_settles_witness :
  let process := Example.linux (Some "/home/u") in
  let first :=
    TrustStore.isTrusted (H := Reference.runtime) process Example.alice "p"
      Example.fresh_home in
  snd (TrustStore.isTrusted (H := Reference.runtime) process Example.mallory "q"
         (snd first)) = snd first.
Proof.
  intros process first.
  apply (isTrusted_settles (H := Reference.runtime) process Example.alice "p"
           Example.fresh_home) with (trusted := false).
  vm_compute. reflexivity.
Defined.

(** ** The content check of a files entry *)

Section FilesEntryFurther.
Context `{Runtime}.
Import VerificationContext.

Lemma in_skip_set_dec (context : VerificationContext.t) (p : string) :
  in_skip_set context p ∨ ¬ in_skip_set context p.
Proof.
  unfold in_skip_set.
  destruct (decide (p = "signature.json")) as [->|Hsig]; [by left; left|].
  destruct (decide (p = "package.json")) as [->|Hpkg].
  - destruct (skipPackageJson context) eqn:Hflag.
    + left. right. split; [done|]. by apply skipPackageJson_present.
    + right. intros [?|[_ Hpresent%skipPackageJson_present]]; congruence.
  - right. intros [?|[? _]]; done.
Qed.

(** What the first loop returns, read backwards. *)
Lemma verify_filesOnDisk_inv (context : VerificationContext.t)
    (files : list SignatureFileEntry) (fs : FS) (rels : list string)
    (result : option ModuleVerificationResult.t) :
  SignatureFilesEntry.verify_filesOnDisk context files (skipPackageJson context)
    rels fs = Returned result →
  match result with
  | None => Forall (passes context files fs) rels
  | Some failure =>
      ∃ rel, rel ∈ rels ∧
        let p := SignatureFilesEntry.normalise rel in
        ¬ in_skip_set context p
        ∧ ((¬ listed files p
            ∧ failure = SignatureFilesEntry.compromised context
                (p +:+ " exists in the package, but was not in the signature"))
           ∨ (∃ h hash,
                listed_hash files p = Some h
                ∧ sha512OfFile (path_join (dir context) p) fs = Returned hash
                ∧ hash ≠ h
                ∧ failure = SignatureFilesEntry.compromised context
                    (p +:+ " does not have content that was signed for (mismatched hash)")))
  end.
Proof.
  induction rels as [|rel rels IH].
  - intros [= <-]. constructor.
  - destruct (in_skip_set_dec context (SignatureFilesEntry.normalise rel))
      as [Hskip|Hskip].
    + rewrite verify_filesOnDisk_pass by (by left). intros Hrest.
      specialize (IH Hrest). destruct result as [failure|].
      * destruct IH as (rel' & Hin & Hrel'). exists rel'. split; [by right|done].
      * constructor; [by left|done].
    + rewrite verify_filesOnDisk_examines by done.
      destruct (listed_hash files _) as [h|] eqn:Hh.
      * destruct (sha512OfFile _ fs) as [hash|] eqn:Hsha; [|done].
        destruct (String.eqb_spec hash h) as [->|Hne].
        -- intros Hrest. specialize (IH Hrest). destruct result as [failure|].
           ++ destruct IH as (rel' & Hin & Hrel'). exists rel'.
              split; [by right|done].
           ++ constructor; [|done]. right. by exists h.
        -- intros [= <-]. exists rel. split; [by left|]. split; [done|].
           right. by exists h, hash.
      * intros [= <-]. exists rel. split; [by left|]. split; [done|].
        left. split; [|done]. rewrite listed_iff_hash, Hh. by intros [? ?].
Qed.

(** What the second loop returns, read backwards. *)
Lemma verify_signedFiles_inv (context : VerificationContext.t)
    (files : list SignatureFileEntry) :
  match SignatureFilesEntry.verify_signedFiles context files with
  | None => Forall (present context) files
  | Some failure =>
      ∃ e, e ∈ files ∧ path e ≠ "signature.json" ∧ ¬ on_disk context (path e)
           ∧ failure = SignatureFilesEntry.compromised context
               (path e +:+ " is expected by the signature, but is missing in the package")
  end.
Proof.
  destruct (first_missing context files)
    as [Hall|(before & e & after & -> & Hbefore & Hsig & Hdisk)].
  - rewrite <- (app_nil_r files), verify_signedFiles_present by done.
    simpl. by rewrite app_nil_r.
  - rewrite verify_signedFiles_present, verify_signedFiles_missing by done.
    exists e. split; [|done]. apply elem_of_app. right. by left.
Qed.

End FilesEntryFurther.

(** X6.  No false alarm: a failure of the content check of a files entry
    is always a result whose status is [Compromised] and whose other
    members are those of the context, and its reason names a real
    discrepancy: a path on disk outside the skip set that the list
    does not hold, or whose file hashes to something else than the listed
    hash, or a path of the list, other than [signature.json], that is not
    on disk. *)
Theorem files_entry_failure_is_real `{Runtime} (files : list SignatureFileEntry)
    (context : VerificationContext.t) (fs : FS)
    (failure : ModuleVerificationResult.t) :
  SignatureFilesEntry.verify files context fs = Returned (Some failure) →
  ∃ p told,
    failure
    = {| ModuleVerificationResult.status := Compromised;
         ModuleVerificationResult.reason := Some (p +:+ told);
         ModuleVerificationResult.packageName :=
           VerificationContext.expectedPackageName context;
         ModuleVerificationResult.untrustedIdentity :=
           VerificationContext.untrustedIdentity context;
         ModuleVerificationResult.untrustedPackageVersion :=
           VerificationContext.untrustedPackageVersion context;
         ModuleVerificationResult.isPrivate :=
           VerificationContext.isPrivate context |}
    ∧ ((on_disk context p ∧ ¬ in_skip_set context p ∧ ¬ listed files p
        ∧ told = " exists in the package, but was not in the signature")
       ∨ (on_disk context p ∧ ¬ in_skip_set context p
          ∧ (∃ h hash,
               listed_hash files p = Some h
               ∧ sha512OfFile (path_join (VerificationContext.dir context) p) fs
                 = Returned hash
               ∧ hash ≠ h)
          ∧ told = " does not have content that was signed for (mismatched hash)")
       ∨ (listed files p ∧ p ≠ "signature.json" ∧ ¬ on_disk context p
          ∧ told = " is expected by the signature, but is missing in the package")).
Proof.
  rewrite verify_unfold.
  destruct (SignatureFilesEntry.verify_filesOnDisk _ _ _ _ fs)
    as [[failure'|]|] eqn:Hloop; [| |done].
  - intros [= ->]. apply verify_filesOnDisk_inv in Hloop
      as (rel & Hin & Hskip & [[Hlisted ->]|(h & hash & Hh & Hsha & Hne & ->)]).
    + exists (SignatureFilesEntry.normalise rel). eexists.
      split; [reflexivity|].
      left. split; [by exists rel|done].
    + exists (SignatureFilesEntry.normalise rel). eexists.
      split; [reflexivity|].
      right. left.
      split; [by exists rel|]. split; [done|]. split; [|done]. by exists h, hash.
  - intros [= Hsecond].
    pose proof (verify_signedFiles_inv context files) as Hinv.
    rewrite Hsecond in Hinv. destruct Hinv as (e & He & Hsig & Hdisk & ->).
    exists (path e). eexists. split; [reflexivity|].
    right. right. split; [by exists e|done].
Qed.

Lemma files_entry_failure_is_real_witness :
  let context :=
    Example.context ["a.txt"; "signature.json"; "lib\b.txt"; "package.json"]
                    ["files/v1alpha1"; "identity/v1alpha1"] in
  let files := Example.listing Example.manifest in
  let fs := Example.package Example.manifest "" in
  ∃ p told,
    {| ModuleVerificationResult.status := Compromised;
       ModuleVerificationResult.reason :=
         Some "lib/b.txt exists in the package, but was not in the signature";
       ModuleVerificationResult.packageName := "p";
       ModuleVerificationResult.untrustedIdentity := None;
       ModuleVerificationResult.untrustedPackageVersion := None;
       ModuleVerificationResult.isPrivate := None |}
    = {| ModuleVerificationResult.status := Compromised;
         ModuleVerificationResult.reason := Some (p +:+ told);
         ModuleVerificationResult.packageName :=
           VerificationContext.expectedPackageName context;
         ModuleVerificationResult.untrustedIdentity :=
           VerificationContext.untrustedIdentity context;
         ModuleVerificationResult.untrustedPackageVersion :=
           VerificationContext.untrustedPackageVersion context;
         ModuleVerificationResult.isPrivate :=
           VerificationContext.isPrivate context |}
    ∧ ((on_disk context p ∧ ¬ in_skip_set context p ∧ ¬ listed files p
        ∧ told = " exists in the package, but was not in the signature")
       ∨ (on_disk context p ∧ ¬ in_skip_set context p
          ∧ (∃ h hash,
               listed_hash files p = Some h
               ∧ sha512OfFile (H := Reference.runtime)
                   (path_join (Runtime := Reference.runtime)
                      (VerificationContext.dir context) p) fs
                 = Returned hash
               ∧ hash ≠ h)
          ∧ told = " does not have content that was signed for (mismatched hash)")
       ∨ (listed files p ∧ p ≠ "signature.json" ∧ ¬ on_disk context p
          ∧ told = " is expected by the signature, but is missing in the package")).
Proof.
  intros context files fs.
  apply (files_entry_failure_is_real (H := Reference.runtime) files context fs).
  vm_compute. reflexivity.
Defined.

(** X7.  The content check of a files entry returns no failure exactly
    when the disk and the list agree: every path on disk passes (it is in
    the skip set, or listed with the SHA-512 of its file) and every path
    of the list is [signature.json] or on disk. *)
Theorem files_entry_passes_iff `{Runtime} (files : list SignatureFileEntry)
    (context : VerificationContext.t) (fs : FS) :
  SignatureFilesEntry.verify files context fs = Returned None
  ↔ Forall (passes context files fs) (VerificationContext.relFilesOnDisk context)
    ∧ Forall (present context) files.
Proof.
  rewrite verify_unfold. split.
  - destruct (SignatureFilesEntry.verify_filesOnDisk _ _ _ _ fs)
      as [[failure'|]|] eqn:Hloop; [done| |done].
    intros [= Hsecond]. split; [by apply verify_filesOnDisk_inv in Hloop|].
    pose proof (verify_signedFiles_inv context files) as Hinv.
    by rewrite Hsecond in Hinv.
  - intros [Hdisk Hlist].
    rewrite <- (app_nil_r (VerificationContext.relFilesOnDisk context)).
    rewrite verify_filesOnDisk_passes by done. simpl. f_equal.
    rewrite <- (app_nil_r files). by rewrite verify_signedFiles_present.
Qed.

Lemma files_entry_passes_iff_witness :
  let context :=
    Example.context ["a.txt"; "package.json"; "signature.json"]
                    ["files/v1alpha1"; "identity/v1alpha1"] in
  Forall (present context) (Example.listing Example.manifest).
Proof.
  intros context.
  apply (files_entry_passes_iff (H := Reference.runtime)
           (Example.listing Example.manifest) context
           (Example.package Example.manifest "")).
  vm_compute. reflexivity.
Defined.

Section FilesEntryPaths.
Context `{Runtime}.
Import VerificationContext.

Lemma normalise_idempotent (s : string) :
  SignatureFilesEntry.normalise (SignatureFilesEntry.normalise s)
  = SignatureFilesEntry.normalise s.
Proof.
  induction s as [|c s IH]; [done|]. simpl. rewrite IH.
  by destruct (Ascii.eqb_spec c "\"%char) as [->|Hc]; [|rewrite (proj2 (Ascii.eqb_neq _ _) Hc)].
Qed.

(** The first loop uses the context for the directory, the flag and the
    results only: the list of files on disk that the context holds is not
    read by it. *)
Lemma verify_filesOnDisk_context (context : VerificationContext.t)
    (files : list SignatureFileEntry) (fs : FS) (held rels : list string) :
  SignatureFilesEntry.verify_filesOnDisk (with_relFilesOnDisk context held) files
    (skipPackageJson context) rels fs
  = SignatureFilesEntry.verify_filesOnDisk context files
      (skipPackageJson context) rels fs.
Proof.
  induction rels as [|rel rels IH]; [done|]. simpl. rewrite IH.
  repeat case_match; done.
Qed.

Lemma verify_filesOnDisk_normalised (context : VerificationContext.t)
    (files : list SignatureFileEntry) (fs : FS) (rels : list string) :
  SignatureFilesEntry.verify_filesOnDisk context files (skipPackageJson context)
    (SignatureFilesEntry.normalise <$> rels) fs
  = SignatureFilesEntry.verify_filesOnDisk context files
      (skipPackageJson context) rels fs.
Proof.
  induction rels as [|rel rels IH]; [done|].
  rewrite fmap_cons. simpl. rewrite normalise_idempotent, IH. done.
Qed.

Lemma onDisk_from (found : bool) (rels : list string) (p : string) :
  fold_left
    (λ found relFileOnDisk,
       if String.eqb (SignatureFilesEntry.normalise relFileOnDisk) p
       then true else found) rels found
  = found || SignatureFilesEntry.onDisk rels p.
Proof.
  unfold SignatureFilesEntry.onDisk. revert found.
  induction rels as [|rel rels IH]; intros found; simpl.
  - by rewrite orb_false_r.
  - destruct (String.eqb (SignatureFilesEntry.normalise rel) p).
    + rewrite (IH true). by rewrite orb_true_r.
    + done.
Qed.

Lemma onDisk_cons (rel : string) (rels : list string) (p : string) :
  SignatureFilesEntry.onDisk (rel :: rels) p
  = String.eqb (SignatureFilesEntry.normalise rel) p
    || SignatureFilesEntry.onDisk rels p.
Proof.
  unfold SignatureFilesEntry.onDisk at 1. simpl. rewrite onDisk_from.
  by destruct (String.eqb _ p).
Qed.

Lemma onDisk_normalised (rels : list string) (p : string) :
  SignatureFilesEntry.onDisk (SignatureFilesEntry.normalise <$> rels) p
  = SignatureFilesEntry.onDisk rels p.
Proof.
  induction rels as [|rel rels IH]; [done|].
  by rewrite fmap_cons, !onDisk_cons, normalise_idempotent, IH.
Qed.

(** The second loop reads the list of files on disk through [onDisk]. *)
Lemma verify_signedFiles_onDisk (context : VerificationContext.t)
    (rels rels' : list string) (files : list SignatureFileEntry) :
  (∀ e, e ∈ files → path e ≠ "signature.json" →
     SignatureFilesEntry.onDisk rels (path e)
     = SignatureFilesEntry.onDisk rels' (path e)) →
  SignatureFilesEntry.verify_signedFiles (with_relFilesOnDisk context rels) files
  = SignatureFilesEntry.verify_signedFiles (with_relFilesOnDisk context rels') files.
Proof.
  induction files as [|e files IH]; intros Hsame; [done|]. simpl.
  rewrite IH; [|intros e' He'; apply Hsame; right; done].
  destruct (String.eqb_spec (path e) "signature.json") as [Hsig|Hsig]; [done|].
  rewrite (Hsame e); [done|left|done].
Qed.

Lemma verify_with_relFilesOnDisk (context : VerificationContext.t)
    (files : list SignatureFileEntry) (fs : FS) (rels : list string) :
  SignatureFilesEntry.verify files (with_relFilesOnDisk context rels) fs =
  match SignatureFilesEntry.verify_filesOnDisk context files
          (skipPackageJson context) rels fs with
  | Thrown e => Thrown e
  | Returned (Some failure) => Returned (Some failure)
  | Returned None =>
      Returned (SignatureFilesEntry.verify_signedFiles
                  (with_relFilesOnDisk context rels) files)
  end.
Proof.
  rewrite verify_unfold.
  change (skipPackageJson (with_relFilesOnDisk context rels))
    with (skipPackageJson context).
  change (relFilesOnDisk (with_relFilesOnDisk context rels)) with rels.
  by rewrite verify_filesOnDisk_context.
Qed.

End FilesEntryPaths.

(** X8.  The separator does not matter: the content check of a files entry
    gives the same result for the relative paths as they are found on disk
    and for the same paths with every backslash replaced by a forward
    slash. *)
Theorem files_entry_ignores_separators `{Runtime} (files : list SignatureFileEntry)
    (context : VerificationContext.t) (fs : FS) (relFilesOnDisk : list string) :
  SignatureFilesEntry.verify files
    (with_relFilesOnDisk context (SignatureFilesEntry.normalise <$> relFilesOnDisk))
    fs
  = SignatureFilesEntry.verify files (with_relFilesOnDisk context relFilesOnDisk) fs.
Proof.
  rewrite !verify_with_relFilesOnDisk, verify_filesOnDisk_normalised.
  rewrite (verify_signedFiles_onDisk context
             (SignatureFilesEntry.normalise <$> relFilesOnDisk) relFilesOnDisk);
    [done|].
  intros e _ _. apply onDisk_normalised.
Qed.

(** X9.  Whether [signature.json] is among the files found on disk makes no
    difference to the content check of a files entry: dropping it from the
    list gives the same result. *)
Theorem files_entry_ignores_signature_json `{Runtime}
    (files : list SignatureFileEntry) (context : VerificationContext.t) (fs : FS)
    (relFilesOnDisk : list string) :
  SignatureFilesEntry.verify files
    (with_relFilesOnDisk context
       (filter (λ rel, SignatureFilesEntry.normalise rel ≠ "signature.json")
               relFilesOnDisk)) fs
  = SignatureFilesEntry.verify files (with_relFilesOnDisk context relFilesOnDisk) fs.
Proof.
  rewrite !verify_with_relFilesOnDisk.
  assert (SignatureFilesEntry.verify_filesOnDisk context files
            (skipPackageJson context)
            (filter (λ rel, SignatureFilesEntry.normalise rel ≠ "signature.json")
                    relFilesOnDisk) fs
          = SignatureFilesEntry.verify_filesOnDisk context files
              (skipPackageJson context) relFilesOnDisk fs) as ->.
  { induction relFilesOnDisk as [|rel rels IH]; [done|].
    destruct (decide (SignatureFilesEntry.normalise rel = "signature.json"))
      as [Hsig|Hsig].
    - rewrite filter_cons_False by (by intros ?).
      rewrite IH. symmetry. apply verify_filesOnDisk_pass. left. by left.
    - rewrite filter_cons_True by done. simpl. rewrite IH. done. }
  rewrite (verify_signedFiles_onDisk context
             (filter (λ rel, SignatureFilesEntry.normalise rel ≠ "signature.json")
                     relFilesOnDisk) relFilesOnDisk); [done|].
  intros e _ Hsig.
  induction relFilesOnDisk as [|rel rels IH]; [done|].
  destruct (decide (SignatureFilesEntry.normalise rel = "signature.json"))
    as [Heq|Hne].
  - rewrite filter_cons_False by (by intros ?).
    rewrite onDisk_cons, Heq, IH.
    apply not_eq_sym, String.eqb_neq in Hsig. by rewrite Hsig.
  - rewrite filter_cons_True by done. by rewrite !onDisk_cons, IH.
Qed.

(** X10.  The content check of a files entry reads the file system only at
    the files it hashes: two file systems that hold the same thing at
    [<dir>/<p>], for every normalised path [p] on disk outside the skip
    set, get the same result.  In particular the content of
    [<dir>/signature.json] is never looked at. *)
Theorem files_entry_reads_only_hashed_files `{Runtime}
    (files : list SignatureFileEntry) (context : VerificationContext.t)
    (fs1 fs2 : FS) :
  (∀ p, on_disk context p → ¬ in_skip_set context p →
     fs1 !! path_join (VerificationContext.dir context) p
     = fs2 !! path_join (VerificationContext.dir context) p) →
  SignatureFilesEntry.verify files context fs1
  = SignatureFilesEntry.verify files context fs2.
Proof.
  intros Hsame. rewrite !verify_unfold.
  assert (∀ rels,
    (∀ rel, rel ∈ rels → rel ∈ VerificationContext.relFilesOnDisk context) →
    SignatureFilesEntry.verify_filesOnDisk context files (skipPackageJson context)
      rels fs1
    = SignatureFilesEntry.verify_filesOnDisk context files
        (skipPackageJson context) rels fs2) as Hloop.
  { induction rels as [|rel rels IH]; intros Hsub; [done|].
    assert (∀ r, r ∈ rels → r ∈ VerificationContext.relFilesOnDisk context)
      as Hrest by (intros r Hr; apply Hsub; by right).
    specialize (IH Hrest).
    destruct (in_skip_set_dec context (SignatureFilesEntry.normalise rel))
      as [Hskip|Hskip].
    - by rewrite !verify_filesOnDisk_pass by (by left).
    - rewrite !verify_filesOnDisk_examines by done.
      unfold sha512OfFile, readFilePromise.
      rewrite (Hsame (SignatureFilesEntry.normalise rel)), IH; [done| |done].
      exists rel. split; [|done]. apply Hsub. by left. }
  by rewrite Hloop.
Qed.

Lemma files_entry_reads_only_hashed_files_witness :
  let context :=
    Example.context ["a.txt"; "package.json"; "signature.json"]
                    ["files/v1alpha1"; "identity/v1alpha1"] in
  SignatureFilesEntry.verify (H := Reference.runtime)
    (Example.listing Example.manifest) context
    (Example.package Example.manifest "one")
  = SignatureFilesEntry.verify (H := Reference.runtime)
      (Example.listing Example.manifest) context
      (Example.package Example.manifest "another").
Proof.
  intros context.
  apply (files_entry_reads_only_hashed_files (H := Reference.runtime)).
  intros p (rel & Hin & <-) Hskip.
  vm_compute in Hin.
  apply elem_of_cons in Hin as [->|Hin]; [reflexivity|].
  apply elem_of_cons in Hin as [->|Hin]; [reflexivity|].
  apply elem_of_cons in Hin as [->|Hin]; [|by apply elem_of_nil in Hin].
  exfalso. apply Hskip. by left.
Defined.

(** X11.  The canonical text of a files entry splits along the list, and
    as long as no path and no hash holds a line feed it determines the
    list: two lists have the same canonical text exactly when they are
    the same list. *)
Theorem files_serialization_determines_list (l1 l2 : list SignatureFileEntry) :
  Forall pair_line_feed_free l1 → Forall pair_line_feed_free l2 →
  SignatureFilesEntry.toDeterministicString (l1 ++ l2)
    = SignatureFilesEntry.toDeterministicString l1
      +:+ SignatureFilesEntry.toDeterministicString l2
  ∧ (SignatureFilesEntry.toDeterministicString l1
       = SignatureFilesEntry.toDeterministicString l2
     ↔ l1 = l2).
Proof.
  intros H1 H2. split.
  - unfold SignatureFilesEntry.toDeterministicString at 1.
    rewrite fold_left_app.
    fold (SignatureFilesEntry.toDeterministicString l1).
    rewrite toDeterministicString_from.
    by rewrite <- toDeterministicString_concatenation.
  - split; [|by intros ->].
    rewrite !toDeterministicString_concatenation.
    by apply serialization_injective.
Qed.

Lemma files_serialization_determines_list_witness :
  let a := {| path := "a.txt"; sha512 := "01" |} in
  let b := {| path := "b.txt"; sha512 := "02" |} in
  SignatureFilesEntry.toDeterministicString ([a; b] ++ [b; a])
    = SignatureFilesEntry.toDeterministicString [a; b]
      +:+ SignatureFilesEntry.toDeterministicString [b; a]
  ∧ (SignatureFilesEntry.toDeterministicString [a; b]
       = SignatureFilesEntry.toDeterministicString [b; a]
     ↔ [a; b] = [b; a]).
Proof.
  intros a b.
  apply (files_serialization_determines_list [a; b] [b; a]).
  - constructor; [by split|constructor; [by split|constructor]].
  - constructor; [by split|constructor; [by split|constructor]].
Defined.

(** ** The module verifier *)

Section ModuleVerifierFurther.
Import ModuleVerifier.
Context `{Runtime} `{Collaborators} (process : Process).

Lemma verify_entries_inv (context : Context) (remaining : list SignatureEntry.t)
    (fs : FS) :
  match verify_entries context remaining fs with
  | Returned None =>
      Forall (λ entry, SignatureEntry.verify entry context fs = Returned None)
             remaining
  | Returned (Some failure) =>
      ∃ before entry after,
        remaining = before ++ entry :: after
        ∧ Forall (λ entry, SignatureEntry.verify entry context fs = Returned None)
                 before
        ∧ SignatureEntry.verify entry context fs = Returned (Some failure)
  | Thrown e =>
      ∃ before entry after,
        remaining = before ++ entry :: after
        ∧ Forall (λ entry, SignatureEntry.verify entry context fs = Returned None)
                 before
        ∧ SignatureEntry.verify entry context fs = Thrown e
  end.
Proof.
  induction remaining as [|entry remaining IH]; simpl; [constructor|].
  destruct (SignatureEntry.verify entry context fs) as [[failure|]|e] eqn:Hentry.
  - by exists [], entry, remaining.
  - destruct (verify_entries context remaining fs) as [[failure|]|e].
    + destruct IH as (before & entry' & after & -> & Hbefore & Hfail).
      exists (entry :: before), entry', after. split; [done|].
      split; [by constructor|done].
    + by constructor.
    + destruct IH as (before & entry' & after & -> & Hbefore & Hfail).
      exists (entry :: before), entry', after. split; [done|].
      split; [by constructor|done].
  - by exists [], entry, remaining.
Qed.

Lemma verify_entries_first (context : Context) (before after : list SignatureEntry.t)
    (entry : SignatureEntry.t) (fs : FS) :
  Forall (λ entry, SignatureEntry.verify entry context fs = Returned None) before →
  verify_entries context (before ++ entry :: after) fs =
  match SignatureEntry.verify entry context fs with
  | Returned None => verify_entries context after fs
  | other => other
  end.
Proof.
  induction 1 as [|e before He _ IH]; simpl.
  - by destruct (SignatureEntry.verify entry context fs) as [[?|]|].
  - by rewrite He.
Qed.

Lemma find_identity_inv (remaining : list SignatureEntry.t) :
  match find_identity remaining with
  | Some signer =>
      ∃ before entry after,
        remaining = before ++ entry :: after
        ∧ Forall (λ e, SignatureEntry.getIdentity e = None) before
        ∧ SignatureEntry.getIdentity entry = Some signer
  | None => Forall (λ e, SignatureEntry.getIdentity e = None) remaining
  end.
Proof.
  induction remaining as [|entry remaining IH]; simpl; [constructor|].
  destruct (SignatureEntry.getIdentity entry) as [identity|] eqn:Hentry.
  - by exists [], entry, remaining.
  - destruct (find_identity remaining) as [identity|].
    + destruct IH as (before & entry' & after & -> & Hbefore & Hid).
      exists (entry :: before), entry', after. split; [done|].
      split; [by constructor|done].
    + by constructor.
Qed.

Lemma find_identity_none (remaining : list SignatureEntry.t) :
  Forall (λ e, SignatureEntry.getIdentity e = None) remaining →
  find_identity remaining = None.
Proof. induction 1 as [|e rest He _ IH]; [done|]. simpl. by rewrite He. Qed.

Lemma verifier_for_inv (identity : SignatureIdentity) :
  match verifier_for identity with
  | Some verifier => routed identity verifier
  | None => keybaseUser identity = None ∧ pgpPublicKeyUrl identity = None
  end.
Proof.
  unfold verifier_for, routed.
  destruct (keybaseUser identity) as [user|]; [left; by eauto|].
  destruct (pgpPublicKeyUrl identity) as [url|]; [right; by eauto|done].
Qed.

(** The run of [verify] up to its signature check. *)
Lemma verify_before_signature_check (dir : string) (relFilesOnDisk : list string)
    (expectedPackageName : string) (fs : FS) (signature : SignatureInfo) :
  signature_document dir fs signature →
  let context :=
    {| dir := dir; relFilesOnDisk := relFilesOnDisk;
       expectedPackageName := expectedPackageName |} in
  match verify_entries context (entries signature) fs with
  | Thrown e =>
      verify process dir relFilesOnDisk expectedPackageName fs = (Thrown e, fs)
  | Returned (Some failure) =>
      verify process dir relFilesOnDisk expectedPackageName fs
      = (Returned failure, fs)
  | Returned None =>
      match find_identity (entries signature) with
      | None =>
          verify process dir relFilesOnDisk expectedPackageName fs
          = (Returned (result Compromised
                         (Some "No identity information in signature.json")
                         expectedPackageName None), fs)
      | Some signer =>
          match verifier_for signer with
          | None =>
              verify process dir relFilesOnDisk expectedPackageName fs
              = (Returned (result Compromised
                             (Some "Unknown identity in signature.json")
                             expectedPackageName None), fs)
          | Some verifier =>
              match verifier signer (ModuleVerifier.signature signature)
                      (createDeterministicString signature) fs with
              | (Thrown e, fs1) =>
                  verify process dir relFilesOnDisk expectedPackageName fs
                  = (Thrown e, fs1)
              | (Returned valid, fs1) =>
                  signature_checked dir relFilesOnDisk expectedPackageName fs
                    signer valid fs1
              end
          end
      end
  end.
Proof.
  intros Hdoc context.
  pose proof Hdoc as (rawJson & Hread & Hparse).
  pose proof (verify_entries_inv context (entries signature) fs) as Hentries.
  unfold verify. io_unfold. rewrite Hread. simpl. rewrite Hparse. simpl.
  fold context.
  destruct (verify_entries context (entries signature) fs) as [[failure|]|e];
    simpl; [done| |done].
  pose proof (find_identity_inv (entries signature)) as Hid.
  destruct (find_identity (entries signature)) as [identity|]; [|done].
  pose proof (verifier_for_inv identity) as Hrouted.
  destruct (verifier_for identity) as [verifier|]; [|done].
  destruct (verifier identity _ _ fs) as [[valid|e] fs1] eqn:Hvalid; [|done].
  exists signature, verifier. by repeat split.
Qed.

End ModuleVerifierFurther.

Section ModuleVerifierEffects.
Context `{Runtime} (process : Process).

(** [isTrusted] leaves the file system that [createTrustStoreIfNecessary]
    leaves. *)
Lemma isTrusted_effect (identity : SignatureIdentity) (packageName : string)
    (fs : FS) :
  snd (TrustStore.isTrusted process identity packageName fs)
  = snd (TrustStore.createTrustStoreIfNecessary process fs).
Proof.
  destruct (TrustStore.createTrustStoreIfNecessary process fs)
    as [[folder|e] fs1] eqn:Hcreate.
  - by rewrite (isTrusted_unfold process identity packageName fs fs1 folder Hcreate).
  - by rewrite (isTrusted_thrown process identity packageName fs fs1 e Hcreate).
Qed.

Lemma createTrustStoreIfNecessary_adds_folder (fs : FS) :
  let fs' := snd (TrustStore.createTrustStoreIfNecessary process fs) in
  fs' = fs
  ∨ ∃ folder, trustStoreFolder process = Some folder
              ∧ fs !! folder = None ∧ fs' = <[folder := Directory]> fs.
Proof.
  pose proof (createTrustStoreIfNecessary_effect process fs) as Heffect.
  destruct (TrustStore.createTrustStoreIfNecessary process fs) as [[folder|e] fs1].
  - destruct Heffect as [_ Hreturned].
    destruct (Hreturned folder eq_refl) as (Hfolder & _ & [->|[Hout ->]]);
      [by left|]. right. by exists folder.
  - destruct Heffect as [Hthrown _]. left. simpl. by apply (Hthrown e).
Qed.

End ModuleVerifierEffects.

(** X12.  The first failing entry decides: when the signature document
    parses and the content checks of the entries before some entry pass,
    a result that this entry returns is the verdict of [verify], and an
    exception that it throws is thrown by [verify]; the later entries, the
    verifiers, the manifest and the trust store are not consulted and the
    file system is left as it was. *)
Theorem first_failing_entry_decides `{Runtime} `{ModuleVerifier.Collaborators}
    (process : Process) (dir : string) (relFilesOnDisk : list string)
    (expectedPackageName : string) (fs : FS)
    (signature : ModuleVerifier.SignatureInfo)
    (before after : list ModuleVerifier.SignatureEntry.t)
    (entry : ModuleVerifier.SignatureEntry.t) :
  let context :=
    {| ModuleVerifier.dir := dir;
       ModuleVerifier.relFilesOnDisk := relFilesOnDisk;
       ModuleVerifier.expectedPackageName := expectedPackageName |} in
  signature_document dir fs signature →
  ModuleVerifier.entries signature = before ++ entry :: after →
  Forall (λ e, ModuleVerifier.SignatureEntry.verify e context fs = Returned None)
         before →
  (∀ failure,
     ModuleVerifier.SignatureEntry.verify entry context fs
       = Returned (Some failure) →
     ModuleVerifier.verify process dir relFilesOnDisk expectedPackageName fs
     = (Returned failure, fs))
  ∧ (∀ e,
       ModuleVerifier.SignatureEntry.verify entry context fs = Thrown e →
       ModuleVerifier.verify process dir relFilesOnDisk expectedPackageName fs
       = (Thrown e, fs)).
Proof.
  intros context Hdoc Hentries Hbefore.
  pose proof (verify_before_signature_check process dir relFilesOnDisk
                expectedPackageName fs signature Hdoc) as Hrun.
  simpl in Hrun. fold context in Hrun.
  rewrite Hentries, verify_entries_first in Hrun by done.
  split.
  - intros failure Hentry. by rewrite Hentry in Hrun.
  - intros e Hentry. by rewrite Hentry in Hrun.
Qed.

Lemma first_failing_entry_decides_witness :
  let fs :=
    <["/p/a.txt" := File "ho"]>
      (Example.package Example.manifest
         (Example.signed "alice" (Example.message Example.manifest))) in
  ModuleVerifier.verify (H := Reference.runtime)
    (H0 := Double.collaborators (Example.document Example.manifest))
    (Example.linux (Some "/home/u")) "/p" Example.found "p" fs
  = (Returned (ModuleVerifier.result Compromised
       (Some "a.txt does not have content that was signed for (mismatched hash)")
       "p" None), fs).
Proof.
  intros fs.
  apply (first_failing_entry_decides (H := Reference.runtime)
           (H0 := Double.collaborators (Example.document Example.manifest))
           (Example.linux (Some "/home/u")) "/p" Example.found "p" fs
           {| ModuleVerifier.entries := Example.document Example.manifest;
              ModuleVerifier.signature :=
                "alice signed " +:+ Example.message Example.manifest |}
           []
           [Double.identityEntry Example.alice]
           (Double.filesEntry (H := Reference.runtime) Example.tags
              (Example.listing Example.manifest))).
  - eexists. split; [vm_compute; reflexivity|]. reflexivity.
  - reflexivity.
  - constructor.
  - vm_compute. reflexivity.
Defined.

(** X13.  A document from which no identity can be taken is compromised:
    when the signature document parses and every content check passes,
    [verify] returns [Compromised] with the reason
    [No identity information in signature.json] if no entry provides an
    identity (as when the document has no entry at all), and with the
    reason [Unknown identity in signature.json] if the first identity
    provided has neither member populated.  No verifier is consulted and
    the file system is left as it was. *)
Theorem identity_is_required `{Runtime} `{ModuleVerifier.Collaborators}
    (process : Process) (dir : string) (relFilesOnDisk : list string)
    (expectedPackageName : string) (fs : FS)
    (signature : ModuleVerifier.SignatureInfo) :
  signature_document dir fs signature →
  entries_pass {| ModuleVerifier.dir := dir;
                  ModuleVerifier.relFilesOnDisk := relFilesOnDisk;
                  ModuleVerifier.expectedPackageName := expectedPackageName |}
               signature fs →
  (Forall (λ e, ModuleVerifier.SignatureEntry.getIdentity e = None)
          (ModuleVerifier.entries signature) →
   ModuleVerifier.verify process dir relFilesOnDisk expectedPackageName fs
   = (Returned
        {| ModuleVerificationResult.status := Compromised;
           ModuleVerificationResult.reason := Some "No identity information in signature.json";
           ModuleVerificationResult.packageName := expectedPackageName;
           ModuleVerificationResult.untrustedIdentity := None;
           ModuleVerificationResult.untrustedPackageVersion := None;
           ModuleVerificationResult.isPrivate := None |},
      fs))
  ∧ (∀ identity,
       extracted signature identity →
       keybaseUser identity = None → pgpPublicKeyUrl identity = None →
       ModuleVerifier.verify process dir relFilesOnDisk expectedPackageName fs
       = (Returned
            {| ModuleVerificationResult.status := Compromised;
               ModuleVerificationResult.reason := Some "Unknown identity in signature.json";
               ModuleVerificationResult.packageName := expectedPackageName;
               ModuleVerificationResult.untrustedIdentity := None;
               ModuleVerificationResult.untrustedPackageVersion := None;
               ModuleVerificationResult.isPrivate := None |},
          fs)).
Proof.
  intros Hdoc Hpass.
  pose proof (verify_before_signature_check process dir relFilesOnDisk
                expectedPackageName fs signature Hdoc) as Hrun.
  simpl in Hrun. rewrite (verify_entries_pass _ _ _ Hpass) in Hrun.
  split.
  - intros Hnone. by rewrite (find_identity_none _ Hnone) in Hrun.
  - intros identity Hid Huser Hurl.
    rewrite (find_identity_extracted _ _ Hid) in Hrun.
    unfold ModuleVerifier.verifier_for in Hrun. by rewrite Huser, Hurl in Hrun.
Qed.

Lemma identity_is_required_witness :
  let fs := Example.package Example.manifest (Example.signed "alice" "") in
  ModuleVerifier.verify (H := Reference.runtime) (H0 := Double.collaborators [])
    (Example.linux (Some "/home/u")) "/p" Example.found "p" fs
  = (Returned
       {| ModuleVerificationResult.status := Compromised;
          ModuleVerificationResult.reason := Some "No identity information in signature.json";
          ModuleVerificationResult.packageName := "p";
          ModuleVerificationResult.untrustedIdentity := None;
          ModuleVerificationResult.untrustedPackageVersion := None;
          ModuleVerificationResult.isPrivate := None |},
     fs).
Proof.
  intros fs.
  apply (identity_is_required (H := Reference.runtime)
           (H0 := Double.collaborators [])
           (Example.linux (Some "/home/u")) "/p" Example.found "p" fs
           {| ModuleVerifier.entries := [];
              ModuleVerifier.signature := "alice signed " |}).
  - eexists. split; [vm_compute; reflexivity|]. reflexivity.
  - constructor.
  - constructor.
Defined.

(** X14.  After a valid signature the manifest must be there: when the
    signature check has been passed and [<dir>/package.json] cannot be
    read, or does not parse as JSON, [verify] returns [Compromised] with
    the reason [Missing or unparsable package.json]; the trust store is
    not consulted. *)
Theorem manifest_is_required `{Runtime} `{ModuleVerifier.Collaborators}
    (process : Process) (dir : string) (relFilesOnDisk : list string)
    (expectedPackageName : string) (fs fs' : FS) (identity : SignatureIdentity) :
  signature_checked dir relFilesOnDisk expectedPackageName fs identity true fs' →
  (∀ raw, readFilePromise (path_join dir "package.json") fs' = Returned raw →
          JSON_parse raw = None) →
  ModuleVerifier.verify process dir relFilesOnDisk expectedPackageName fs
  = (Returned
       {| ModuleVerificationResult.status := Compromised;
          ModuleVerificationResult.reason := Some "Missing or unparsable package.json";
          ModuleVerificationResult.packageName := expectedPackageName;
          ModuleVerificationResult.untrustedIdentity := None;
          ModuleVerificationResult.untrustedPackageVersion := None;
          ModuleVerificationResult.isPrivate := None |},
     fs').
Proof.
  intros Hchecked Hmanifest.
  rewrite (verify_after_signature_check _ _ _ _ _ _ _ _ Hchecked).
  destruct (readFilePromise (path_join dir "package.json") fs') as [raw|];
    [|done].
  by rewrite (Hmanifest raw eq_refl).
Qed.

Lemma manifest_is_required_witness :
  let document := [Double.identityEntry Example.alice] in
  let message :=
    Double.canonicalMessage
      {| ModuleVerifier.entries := document; ModuleVerifier.signature := "" |} in
  let fs :=
    delete "/p/package.json"
      (Example.package Example.manifest (Example.signed "alice" message)) in
  ModuleVerifier.verify (H := Reference.runtime)
    (H0 := Double.collaborators document)
    (Example.linux (Some "/home/u")) "/p" ["a.txt"; "signature.json"] "p" fs
  = (Returned
       {| ModuleVerificationResult.status := Compromised;
          ModuleVerificationResult.reason := Some "Missing or unparsable package.json";
          ModuleVerificationResult.packageName := "p";
          ModuleVerificationResult.untrustedIdentity := None;
          ModuleVerificationResult.untrustedPackageVersion := None;
          ModuleVerificationResult.isPrivate := None |},
     fs).
Proof.
  intros document message fs.
  apply (manifest_is_required (H := Reference.runtime)
           (H0 := Double.collaborators document)
           _ _ _ _ fs fs Example.alice).
  - exists {| ModuleVerifier.entries := document;
              ModuleVerifier.signature := "alice signed " +:+ message |},
           (@ModuleVerifier.KeybaseVerifier_verify (Double.collaborators document)).
    split; [|split; [|split; [|split]]].
    + eexists. split; [vm_compute; reflexivity|]. reflexivity.
    + constructor; [reflexivity|constructor].
    + exists [], (Double.identityEntry Example.alice), [].
      split; [reflexivity|]. split; [constructor|reflexivity].
    + left. split; [|reflexivity]. simpl. eauto.
    + vm_compute. reflexivity.
  - intros raw Hraw. vm_compute in Hraw. discriminate.
Defined.

(** X15.  A name that is a string is compared exactly: once the signature
    check has been passed and the manifest parses to a value, other than
    [null], whose [name] member is a string, the verdict is [Compromised]
    with the reason of the package name when that string is not the
    expected package name, and is that of the trust store when it is. *)
Theorem string_name_is_compared_exactly `{Runtime} `{ModuleVerifier.Collaborators}
    (process : Process) (dir : string) (relFilesOnDisk : list string)
    (expectedPackageName : string) (fs fs' : FS) (identity : SignatureIdentity)
    (raw : string) (packageInfo : JSValue) (name : string) :
  signature_checked dir relFilesOnDisk expectedPackageName fs identity true fs' →
  readFilePromise (path_join dir "package.json") fs' = Returned raw →
  JSON_parse raw = Some packageInfo →
  is_nullish packageInfo = false →
  get_property packageInfo "name" = Returned (JSString name) →
  (name ≠ expectedPackageName →
   ModuleVerifier.verify process dir relFilesOnDisk expectedPackageName fs
   = (Returned
        {| ModuleVerificationResult.status := Compromised;
           ModuleVerificationResult.reason := Some "Provided package name in package.json did not match expected package name";
           ModuleVerificationResult.packageName := expectedPackageName;
           ModuleVerificationResult.untrustedIdentity := None;
           ModuleVerificationResult.untrustedPackageVersion := None;
           ModuleVerificationResult.isPrivate := None |},
      fs'))
  ∧ (name = expectedPackageName →
     ModuleVerifier.verify process dir relFilesOnDisk expectedPackageName fs
     = match TrustStore.isTrusted process identity expectedPackageName fs' with
       | (Returned true, fs'') =>
           (Returned
              {| ModuleVerificationResult.status := Trusted;
                 ModuleVerificationResult.reason := None;
                 ModuleVerificationResult.packageName := expectedPackageName;
                 ModuleVerificationResult.untrustedIdentity := None;
                 ModuleVerificationResult.untrustedPackageVersion := None;
                 ModuleVerificationResult.isPrivate := None |},
            fs'')
       | (Returned false, fs'') =>
           (Returned
              {| ModuleVerificationResult.status := Untrusted;
                 ModuleVerificationResult.reason := None;
                 ModuleVerificationResult.packageName := expectedPackageName;
                 ModuleVerificationResult.untrustedIdentity := Some identity;
                 ModuleVerificationResult.untrustedPackageVersion := None;
                 ModuleVerificationResult.isPrivate := None |},
            fs'')
       | (Thrown e, fs'') => (Thrown e, fs'')
       end).
Proof.
  intros Hchecked Hread Hparse Hnull Hname.
  rewrite (verify_after_signature_check _ _ _ _ _ _ _ _ Hchecked).
  rewrite Hread, Hparse, Hnull, Hname. simpl.
  assert (loose_equals_string (or_else (JSString name) (JSString ""))
                              expectedPackageName
          = Returned (String.eqb name expectedPackageName)) as ->.
  { unfold or_else. simpl. destruct name; [|done]. simpl.
    by destruct expectedPackageName. }
  simpl. split.
  - intros Hne. apply String.eqb_neq in Hne. by rewrite Hne.
  - intros ->. by rewrite String.eqb_refl.
Qed.

Lemma string_name_is_compared_exactly_witness :
  let fs := Example.signed_package in
  ModuleVerifier.verify (H := Reference.runtime)
    (H0 := Double.collaborators (Example.document Example.manifest))
    (Example.linux (Some "/home/u")) "/p" Example.found "P" fs
  = (Returned
       {| ModuleVerificationResult.status := Compromised;
          ModuleVerificationResult.reason := Some "Provided package name in package.json did not match expected package name";
          ModuleVerificationResult.packageName := "P";
          ModuleVerificationResult.untrustedIdentity := None;
          ModuleVerificationResult.untrustedPackageVersion := None;
          ModuleVerificationResult.isPrivate := None |},
     fs).
Proof.
  intros fs.
  destruct (string_name_is_compared_exactly (H := Reference.runtime)
              (H0 := Double.collaborators (Example.document Example.manifest))
              (Example.linux (Some "/home/u")) "/p" Example.found "P" fs fs
              Example.alice Example.manifest
              (JSObject [("name", JSString "p")]) "p") as [Hother _].
  - exists {| ModuleVerifier.entries := Example.document Example.manifest;
              ModuleVerifier.signature :=
                "alice signed " +:+ Example.message Example.manifest |},
           (@ModuleVerifier.KeybaseVerifier_verify
              (Double.collaborators (Example.document Example.manifest))).
    split; [|split; [|split; [|split]]].
    + eexists. split; [vm_compute; reflexivity|]. reflexivity.
    + constructor; [|constructor; [|constructor]]; vm_compute; reflexivity.
    + exists [Double.filesEntry (H := Reference.runtime) Example.tags
                (Example.listing Example.manifest)],
             (Double.identityEntry Example.alice), [].
      split; [reflexivity|]. split; [|reflexivity].
      constructor; [reflexivity|constructor].
    + left. split; [|reflexivity]. simpl. eauto.
    + vm_compute. reflexivity.
  - vm_compute. reflexivity.
  - reflexivity.
  - reflexivity.
  - reflexivity.
  - apply Hother. discriminate.
Defined.

(** X16.  A verdict of trust is earned: granted that a content check that
    fails, fails with [Compromised], a verdict [Trusted] or [Untrusted] of
    [verify] means that the signature document parsed, every content check
    passed, the verifier of the first identity provided accepted the
    signature over the canonical message, the manifest parsed to a value
    (not [null]) whose name compares equal to the expected package name,
    and the trust store was asked about that identity and that name: the
    verdict is [Trusted] if it answered true, and else [Untrusted],
    carrying the identity. *)
Theorem trust_verdict_is_earned `{Runtime} `{ModuleVerifier.Collaborators}
    (process : Process) (dir : string) (relFilesOnDisk : list string)
    (expectedPackageName : string) (fs fs' : FS)
    (verdict : ModuleVerificationResult.t) :
  (∀ signature,
     signature_document dir fs signature →
     entries_fail_compromised
       {| ModuleVerifier.dir := dir;
          ModuleVerifier.relFilesOnDisk := relFilesOnDisk;
          ModuleVerifier.expectedPackageName := expectedPackageName |}
       signature fs) →
  ModuleVerifier.verify process dir relFilesOnDisk expectedPackageName fs
    = (Returned verdict, fs') →
  ModuleVerificationResult.status verdict = Trusted
  ∨ ModuleVerificationResult.status verdict = Untrusted →
  ∃ identity fs1 raw packageInfo name trusted,
    signature_checked dir relFilesOnDisk expectedPackageName fs identity true fs1
    ∧ readFilePromise (path_join dir "package.json") fs1 = Returned raw
    ∧ JSON_parse raw = Some packageInfo
    ∧ is_nullish packageInfo = false
    ∧ get_property packageInfo "name" = Returned name
    ∧ loose_equals_string (or_else name (JSString "")) expectedPackageName
      = Returned true
    ∧ TrustStore.isTrusted process identity expectedPackageName fs1
      = (Returned trusted, fs')
    ∧ verdict
      = if trusted
        then ModuleVerifier.result Trusted None expectedPackageName None
        else ModuleVerifier.result Untrusted None expectedPackageName
               (Some identity).
Proof.
  intros Hentries Hverify Hstatus.
  destruct (signature_loads_or_fails dir fs) as [Hfails|[signature Hdoc]].
  { rewrite (verify_unsigned _ _ _ _ _ Hfails) in Hverify.
    injection Hverify as <- _. by destruct Hstatus. }
  pose proof (verify_before_signature_check process dir relFilesOnDisk
                expectedPackageName fs signature Hdoc) as Hrun.
  simpl in Hrun.
  destruct (ModuleVerifier.verify_entries _ (ModuleVerifier.entries signature) fs)
    as [[failure|]|e] eqn:Hloop.
  { rewrite Hrun in Hverify. injection Hverify as <- _.
    rewrite (verify_entries_compromised _ _ _ _ (Hentries _ Hdoc) Hloop) in Hstatus.
    by destruct Hstatus. }
  2: { by rewrite Hrun in Hverify. }
  destruct (ModuleVerifier.find_identity (ModuleVerifier.entries signature))
    as [identity|].
  2: { rewrite Hrun in Hverify. injection Hverify as <- _. by destruct Hstatus. }
  destruct (ModuleVerifier.verifier_for identity) as [verifier|].
  2: { rewrite Hrun in Hverify. injection Hverify as <- _. by destruct Hstatus. }
  destruct (verifier identity _ _ fs) as [[valid|e] fs1].
  2: { by rewrite Hrun in Hverify. }
  rewrite (verify_after_signature_check _ _ _ _ _ _ _ _ Hrun) in Hverify.
  destruct valid.
  2: { injection Hverify as <- _. by destruct Hstatus. }
  destruct (readFilePromise (path_join dir "package.json") fs1) as [raw|] eqn:Hread.
  2: { injection Hverify as <- _. by destruct Hstatus. }
  destruct (JSON_parse raw) as [packageInfo|] eqn:Hparse.
  2: { injection Hverify as <- _. by destruct Hstatus. }
  simpl in Hverify.
  destruct (is_nullish packageInfo) eqn:Hnull.
  { injection Hverify as <- _. by destruct Hstatus. }
  destruct (get_property packageInfo "name") as [name|] eqn:Hname; [|done].
  simpl in Hverify.
  destruct (loose_equals_string _ expectedPackageName) as [[]|] eqn:Hsame;
    simpl in Hverify; [| |done].
  2: { injection Hverify as <- _. by destruct Hstatus. }
  destruct (TrustStore.isTrusted process identity expectedPackageName fs1)
    as [[trusted|e] fs2] eqn:Htrusted.
  2: { done. }
  exists identity, fs1, raw, packageInfo, name, trusted.
  destruct trusted; injection Hverify as <- <-; by repeat split.
Qed.

Lemma trust_verdict_is_earned_witness :
  let fs := Example.signed_package in
  ∃ identity fs1 trusted,
    TrustStore.isTrusted (H := Reference.runtime) (Example.linux (Some "/home/u"))
      identity "p" fs1
    = (Returned trusted, <["/home/u/.pkgsign-trust-store" := Directory]> fs)
    ∧ ModuleVerifier.result Untrusted None "p" (Some Example.alice)
      = if trusted
        then ModuleVerifier.result Trusted None "p" None
        else ModuleVerifier.result Untrusted None "p" (Some identity).
Proof.
  intros fs.
  destruct (trust_verdict_is_earned (H := Reference.runtime)
              (H0 := Double.collaborators (Example.document Example.manifest))
              (Example.linux (Some "/home/u")) "/p" Example.found "p" fs
              (<["/home/u/.pkgsign-trust-store" := Directory]> fs)
              (ModuleVerifier.result Untrusted None "p" (Some Example.alice)))
    as (identity & fs1 & raw & packageInfo & name & trusted & _ & _ & _ & _ & _
        & _ & Htrusted & Hverdict).
  - intros signature (rawJson & Hread & Hparse).
    vm_compute in Hread. injection Hread as <-.
    injection Hparse as <-.
    constructor; [|constructor; [|constructor]].
    + intros failure. apply files_entry_fails_compromised.
    + intros failure. discriminate.
  - vm_compute. reflexivity.
  - by right.
  - by exists identity, fs1, trusted.
Defined.

(** X17.  [verify] writes no file: with verifiers that leave the file
    system as it is, a run of [verify] leaves it as it was or with the
    trust-store folder added, whatever the outcome; and it is left exactly
    as it was whenever the verdict is [Compromised] or [Unsigned]. *)
Theorem verify_writes_no_file `{Runtime} `{ModuleVerifier.Collaborators}
    (process : Process) (dir : string) (relFilesOnDisk : list string)
    (expectedPackageName : string) (fs : FS) :
  verifiers_read_only →
  let run :=
    ModuleVerifier.verify process dir relFilesOnDisk expectedPackageName fs in
  (snd run = fs
   ∨ ∃ folder, trustStoreFolder process = Some folder
               ∧ fs !! folder = None ∧ snd run = <[folder := Directory]> fs)
  ∧ (∀ verdict,
       fst run = Returned verdict →
       ModuleVerificationResult.status verdict = Compromised
       ∨ ModuleVerificationResult.status verdict = Unsigned →
       snd run = fs).
Proof.
  intros Hreadonly run. subst run.
  destruct (signature_loads_or_fails dir fs) as [Hfails|[signature Hdoc]].
  { rewrite (verify_unsigned _ _ _ _ _ Hfails). simpl. by eauto. }
  pose proof (verify_before_signature_check process dir relFilesOnDisk
                expectedPackageName fs signature Hdoc) as Hrun.
  simpl in Hrun.
  destruct (ModuleVerifier.verify_entries _ (ModuleVerifier.entries signature) fs)
    as [[failure|]|e]; [rewrite Hrun; simpl; by eauto| |rewrite Hrun; simpl; by eauto].
  destruct (ModuleVerifier.find_identity (ModuleVerifier.entries signature))
    as [identity|]; [|rewrite Hrun; simpl; by eauto].
  pose proof (verifier_for_inv identity) as Hrouted.
  destruct (ModuleVerifier.verifier_for identity) as [verifier|];
    [|rewrite Hrun; simpl; by eauto].
  assert (∀ s m, snd (verifier identity s m fs) = fs) as Hverifier.
  { intros s m. destruct (Hreadonly identity s m fs) as [Hk Hp].
    by destruct Hrouted as [[_ ->]|(_ & _ & ->)]. }
  specialize (Hverifier (ModuleVerifier.signature signature)
                (ModuleVerifier.createDeterministicString signature)).
  destruct (verifier identity _ _ fs) as [[valid|e] fs1]; simpl in Hverifier;
    subst fs1; [|rewrite Hrun; simpl; by eauto].
  rewrite (verify_after_signature_check _ _ _ _ _ _ _ _ Hrun).
  destruct valid; [|simpl; by eauto].
  destruct (readFilePromise (path_join dir "package.json") fs) as [raw|];
    [|simpl; by eauto].
  destruct (JSON_parse raw) as [packageInfo|]; [|simpl; by eauto].
  simpl. destruct (is_nullish packageInfo); [simpl; by eauto|].
  destruct (get_property packageInfo "name") as [name|]; [|simpl; by eauto].
  simpl.
  destruct (loose_equals_string _ expectedPackageName) as [[]|];
    simpl; [|by eauto..].
  pose proof (isTrusted_effect process identity expectedPackageName fs) as Heffect.
  pose proof (createTrustStoreIfNecessary_adds_folder process fs) as Hfolder.
  simpl in Hfolder. rewrite <- Heffect in Hfolder.
  destruct (TrustStore.isTrusted process identity expectedPackageName fs)
    as [[[]|e] fs2]; simpl in *; (split; [done|]);
    intros verdict [= <-] [?|?]; done.
Qed.

Lemma verify_writes_no_file_witness :
  let fs := Example.signed_package in
  let run :=
    ModuleVerifier.verify (H := Reference.runtime)
      (H0 := Double.collaborators (Example.document Example.manifest))
      (Example.linux (Some "/home/u")) "/p" Example.found "p" fs in
  snd run = fs
  ∨ ∃ folder,
      trustStoreFolder (H := Reference.runtime) (Example.linux (Some "/home/u"))
        = Some folder
      ∧ fs !! folder = None ∧ snd run = <[folder := Directory]> fs.
Proof.
  intros fs run.
  apply (verify_writes_no_file (H := Reference.runtime)
           (H0 := Double.collaborators (Example.document Example.manifest))
           (Example.linux (Some "/home/u")) "/p" Example.found "p" fs).
  intros identity signature message fs0. split; reflexivity.
Defined.

(** X18.  The trust store can make [verify] throw: when the signature
    check has been passed, the manifest carries the expected name, and the
    home variable that the platform selects is not set, [verify] throws a
    [TypeError] instead of returning a verdict. *)
Theorem verify_needs_home `{Runtime} `{ModuleVerifier.Collaborators}
    (process : Process) (dir : string) (relFilesOnDisk : list string)
    (expectedPackageName : string) (fs fs' : FS) (identity : SignatureIdentity)
    (raw : string) (packageInfo : JSValue) :
  signature_checked dir relFilesOnDisk expectedPackageName fs identity true fs' →
  readFilePromise (path_join dir "package.json") fs' = Returned raw →
  JSON_parse raw = Some packageInfo →
  is_nullish packageInfo = false →
  get_property packageInfo "name" = Returned (JSString expectedPackageName) →
  (if String.prefix "win" (platform process)
   then USERPROFILE process else HOME process) = None →
  ModuleVerifier.verify process dir relFilesOnDisk expectedPackageName fs
  = (Thrown TypeError, fs').
Proof.
  intros Hchecked Hread Hparse Hnull Hname Hhome.
  rewrite (verify_after_signature_check _ _ _ _ _ _ _ _ Hchecked).
  rewrite Hread, Hparse, Hnull, Hname. simpl.
  assert (loose_equals_string
            (or_else (JSString expectedPackageName) (JSString ""))
            expectedPackageName = Returned true) as ->.
  { unfold or_else. simpl. destruct expectedPackageName; [done|]. simpl.
    by rewrite Ascii.eqb_refl, String.eqb_refl. }
  simpl.
  assert (TrustStore.isTrusted process identity expectedPackageName fs'
          = (Thrown TypeError, fs')) as ->; [|done].
  apply isTrusted_thrown.
  rewrite createTrustStoreIfNecessary_unfold.
  unfold trustStoreFolder, trustStoreBaseFolder. by rewrite Hhome.
Qed.

Lemma verify_needs_home_witness :
  let fs := Example.signed_package in
  ModuleVerifier.verify (H := Reference.runtime)
    (H0 := Double.collaborators (Example.document Example.manifest))
    (Example.linux None) "/p" Example.found "p" fs
  = (Thrown TypeError, fs).
Proof.
  intros fs.
  apply (verify_needs_home (H := Reference.runtime)
           (H0 := Double.collaborators (Example.document Example.manifest))
           (Example.linux None) "/p" Example.found "p" fs fs
           Example.alice Example.manifest
           (JSObject [("name", JSString "p")])).
  - exists {| ModuleVerifier.entries := Example.document Example.manifest;
              ModuleVerifier.signature :=
                "alice signed " +:+ Example.message Example.manifest |},
           (@ModuleVerifier.KeybaseVerifier_verify
              (Double.collaborators (Example.document Example.manifest))).
    split; [|split; [|split; [|split]]].
    + eexists. split; [vm_compute; reflexivity|]. reflexivity.
    + constructor; [|constructor; [|constructor]]; vm_compute; reflexivity.
    + exists [Double.filesEntry (H := Reference.runtime) Example.tags
                (Example.listing Example.manifest)],
             (Double.identityEntry Example.alice), [].
      split; [reflexivity|]. split; [|reflexivity].
      constructor; [reflexivity|constructor].
    + left. split; [|reflexivity]. simpl. eauto.
    + vm_compute. reflexivity.
  - vm_compute. reflexivity.
  - reflexivity.
  - reflexivity.
  - reflexivity.
  - reflexivity.
Defined.

(** ** The verify command *)

Section VerifyCommandProperties.
Import VerifyCommand.
Context `{Runtime} `{Terminal} (process : Process).

Lemma verifyDirectory_counts_from (results : Results) (a b c d : nat) :
  fold_left
    (λ '(compromisedCount, unsignedCount, untrustedCount, trustedCount) entry,
       match ModuleVerificationResult.status (snd entry) with
       | Compromised =>
           (S compromisedCount, unsignedCount, untrustedCount, trustedCount)
       | Unsigned =>
           (compromisedCount, S unsignedCount, untrustedCount, trustedCount)
       | Untrusted =>
           (compromisedCount, unsignedCount, S untrustedCount, trustedCount)
       | Trusted =>
           (compromisedCount, unsignedCount, untrustedCount, S trustedCount)
       end)
    results (a, b, c, d)
  = (a + count_status Compromised results, b + count_status Unsigned results,
     c + count_status Untrusted results, d + count_status Trusted results).
Proof.
  revert a b c d. unfold count_status.
  induction results as [|[path result] results IH]; intros a b c d; simpl.
  - by rewrite !Nat.add_0_r.
  - destruct (ModuleVerificationResult.status result) eqn:Hstatus; rewrite IH;
      rewrite !filter_cons; simpl; rewrite Hstatus;
      repeat case_decide; try done; simpl; repeat f_equal; lia.
Qed.

Lemma verifyDirectory_counts_spec (results : Results) :
  verifyDirectory_counts results
  = (count_status Compromised results, count_status Unsigned results,
     count_status Untrusted results, count_status Trusted results).
Proof. unfold verifyDirectory_counts. by rewrite verifyDirectory_counts_from. Qed.

Lemma count_status_total (results : Results) :
  count_status Compromised results + count_status Unsigned results
  + count_status Untrusted results + count_status Trusted results
  = length results.
Proof.
  unfold count_status. induction results as [|[path result] results IH]; [done|].
  rewrite !filter_cons. simpl.
  destruct (ModuleVerificationResult.status result);
    repeat case_decide; try done; simpl; lia.
Qed.

Lemma count_status_zero (status : ModuleVerificationStatus) (results : Results) :
  count_status status results = 0
  ↔ Forall (λ entry, ModuleVerificationResult.status (snd entry) ≠ status) results.
Proof.
  unfold count_status. induction results as [|entry results IH].
  - split; [constructor|done].
  - rewrite filter_cons. case_decide as Hstatus; simpl.
    + split; [done|]. intros Hall. by inversion Hall.
    + rewrite IH. split; [by constructor|]. intros Hall. by inversion Hall.
Qed.

Lemma verifyDirectory_summary_result (results : Results) :
  snd (verifyDirectory_summary results) = true ↔ all_trusted results.
Proof.
  unfold verifyDirectory_summary.
  rewrite verifyDirectory_counts_spec. simpl.
  pose proof (count_status_zero Compromised results) as Hc.
  pose proof (count_status_zero Unsigned results) as Hu.
  pose proof (count_status_zero Untrusted results) as Ht.
  split.
  - intros Hsummary.
    destruct (count_status Compromised results); [|done].
    destruct (count_status Unsigned results); [|done].
    destruct (count_status Untrusted results); [|done].
    apply proj1 in Hc, Hu, Ht. specialize (Hc eq_refl). specialize (Hu eq_refl).
    specialize (Ht eq_refl). unfold all_trusted.
    rewrite Forall_forall in *. intros entry Hentry.
    specialize (Hc entry Hentry). specialize (Hu entry Hentry).
    specialize (Ht entry Hentry).
    by destruct (ModuleVerificationResult.status entry.2).
  - intros Hall.
    assert (∀ status, status ≠ Trusted → count_status status results = 0) as Hzero.
    { intros status Hstatus. apply count_status_zero.
      eapply Forall_impl; [exact Hall|]. simpl. intros entry ->. done. }
    by rewrite !Hzero.
Qed.

End VerifyCommandProperties.

(** X19.  The summary counts each result once: the four lines it logs
    after the heading give, for each status, the number of results with
    that status, these numbers add up to the number of results, and the
    result is true exactly when every result is [Trusted], as it is when
    there is no result at all. *)
Theorem summary_counts_every_result (results : VerifyCommand.Results) :
  fst (VerifyCommand.verifyDirectory_summary results)
  = [ "package verification summary:";
      pretty (count_status Compromised results) +:+ " compromised";
      pretty (count_status Unsigned results) +:+ " unsigned";
      pretty (count_status Untrusted results) +:+ " untrusted";
      pretty (count_status Trusted results) +:+ " trusted" ]
  ∧ count_status Compromised results + count_status Unsigned results
    + count_status Untrusted results + count_status Trusted results
    = length results
  ∧ (snd (VerifyCommand.verifyDirectory_summary results) = true
     ↔ all_trusted results).
Proof.
  split; [|split; [apply count_status_total|apply verifyDirectory_summary_result]].
  unfold VerifyCommand.verifyDirectory_summary.
  by rewrite verifyDirectory_counts_spec.
Qed.

Section VerifyCommandPrompts.
Import VerifyCommand.
Context `{Runtime} `{Terminal}.

Lemma filter_basename_empty (prompts : list Prompt.t) (path : string) :
  (length (filter (λ value, path_basename (Prompt.name value)
                            = path_basename path) prompts) =? 0) = true
  ↔ path_basename path ∉ prompted prompts.
Proof.
  rewrite Nat.eqb_eq. unfold prompted. induction prompts as [|prompt prompts IH].
  - split; [|done]. intros _ Hin. by apply elem_of_nil in Hin.
  - rewrite filter_cons. simpl. rewrite not_elem_of_cons.
    case_decide as Hname; simpl.
    + split; [done|]. intros [Hne _]. by destruct Hne.
    + rewrite IH. split; [done|]. by intros [_ Hrest].
Qed.

Lemma verifyDirectory_prompts_inv (remaining : Results)
    (prompts0 prompts : list Prompt.t) :
  verifyDirectory_prompts remaining prompts0 = Returned prompts →
  ∃ added,
    prompts = prompts0 ++ added
    ∧ Forall (asks_about remaining) added
    ∧ (NoDup (prompted prompts0) → NoDup (prompted prompts))
    ∧ (∀ path result,
         (path, result) ∈ remaining →
         ModuleVerificationResult.status result = Untrusted →
         path_basename path ∈ prompted prompts).
Proof.
  revert prompts0.
  induction remaining as [|[path result] remaining IH]; intros prompts0; simpl.
  - intros [= <-]. exists []. rewrite app_nil_r.
    split; [done|]. split; [constructor|]. split; [done|].
    intros path result Hin. by apply elem_of_nil in Hin.
  - assert (∀ added, Forall (asks_about remaining) added →
                     Forall (asks_about ((path, result) :: remaining)) added)
      as Hweaken.
    { intros added Hall. eapply Forall_impl; [exact Hall|].
      intros prompt (found & signer & Hin & Hrest).
      exists found, signer. split; [by right|done]. }
    assert (∀ prompts1,
              verifyDirectory_prompts remaining prompts1 = Returned prompts →
              ModuleVerificationResult.status result ≠ Untrusted
              ∨ path_basename path ∈ prompted prompts1 →
              ∀ added0, prompts1 = prompts0 ++ added0 →
              Forall (asks_about ((path, result) :: remaining)) added0 →
              (NoDup (prompted prompts0) → NoDup (prompted prompts1)) →
              ∃ added,
                prompts = prompts0 ++ added
                ∧ Forall (asks_about ((path, result) :: remaining)) added
                ∧ (NoDup (prompted prompts0) → NoDup (prompted prompts))
                ∧ (∀ path' result',
                     (path', result') ∈ (path, result) :: remaining →
                     ModuleVerificationResult.status result' = Untrusted →
                     path_basename path' ∈ prompted prompts)) as Hstep.
    { intros prompts1 Hrun Hhead added0 -> Hadded0 Hnodup.
      destruct (IH _ Hrun) as (added & -> & Hadded & Hkeep & Hcover).
      exists (added0 ++ added). rewrite app_assoc. split; [done|].
      split; [apply Forall_app; split; [done|by apply Hweaken]|].
      split; [by intros Hnd; apply Hkeep, Hnodup|].
      intros path' result' Hin Hstatus.
      apply elem_of_cons in Hin as [[= -> ->]|Hin]; [|by eapply Hcover].
      destruct Hhead as [Hne|Hhead]; [done|].
      unfold prompted in *. rewrite map_app. apply elem_of_app. by left. }
    destruct (ModuleVerificationResult.status result) eqn:Hstatus;
      try (intros Hrun; apply (Hstep prompts0 Hrun) with (added0 := []);
           [by left|by rewrite app_nil_r|constructor|done]).
    destruct (ModuleVerificationResult.untrustedIdentity result)
      as [signer|] eqn:Hsigner; [|intros [=]].
    destruct (length (filter _ prompts0) =? 0) eqn:Hfilter.
    + apply filter_basename_empty in Hfilter. intros Hrun.
      eapply (Hstep _ Hrun); [| reflexivity | |].
      * right. unfold prompted. rewrite map_app. apply elem_of_app. right.
        simpl. by left.
      * constructor; [|constructor]. exists result, signer. simpl.
        split; [by left|done].
      * intros Hnd. unfold prompted in *. rewrite map_app. simpl.
        apply NoDup_app. split; [done|]. split.
        -- intros name Hname Hin.
           apply elem_of_cons in Hin as [->|Hin]; [done|].
           by apply elem_of_nil in Hin.
        -- apply NoDup_singleton.
    + intros Hrun.
      apply (Hstep prompts0 Hrun) with (added0 := []);
        [|by rewrite app_nil_r|constructor|done].
      right. apply dec_stable. intros Hnot.
      apply filter_basename_empty in Hnot. congruence.
Qed.

Lemma verifyDirectory_prompts_returns (remaining : Results)
    (prompts0 : list Prompt.t) :
  is_Some (match verifyDirectory_prompts remaining prompts0 with
           | Returned prompts => Some prompts
           | Thrown _ => None
           end)
  ↔ untrusted_are_identified remaining.
Proof.
  unfold untrusted_are_identified. revert prompts0.
  induction remaining as [|[path result] remaining IH]; intros prompts0; simpl.
  - split; [constructor|by eexists].
  - destruct (ModuleVerificationResult.status result) eqn:Hstatus;
      try (rewrite IH; split;
           [intros Hall; constructor; [simpl; congruence|done]
           |by intros Hall; inversion Hall]).
    destruct (ModuleVerificationResult.untrustedIdentity result)
      as [signer|] eqn:Hsigner.
    + destruct (length (filter _ prompts0) =? 0); rewrite IH; split;
        try (by intros Hall; inversion Hall);
        intros Hall; constructor; simpl; try done; rewrite Hsigner; by eexists.
    + split; [by intros [? [=]]|]. intros Hall. inversion Hall as [|? ? Hhead].
      simpl in Hhead. rewrite Hsigner in Hhead.
      destruct (Hhead Hstatus) as [? [=]].
Qed.

Lemma verifyDirectory_prompts_none (remaining : Results)
    (prompts0 : list Prompt.t) :
  Forall (λ entry, ModuleVerificationResult.status (snd entry) ≠ Untrusted)
         remaining →
  verifyDirectory_prompts remaining prompts0 = Returned prompts0.
Proof.
  induction 1 as [|[path result] remaining Hhead _ IH]; [done|]. simpl in *.
  by destruct (ModuleVerificationResult.status result).
Qed.

End VerifyCommandPrompts.

(** X20.  The command asks once per package name: when the first loop of
    [verifyDirectory] hands back its prompts, no two of them are about the
    same basename, each asks about an untrusted result, as a required
    yes-or-no question whose default is no, and the basename of every
    untrusted result is asked about. *)
Theorem prompts_ask_once_per_basename `{Runtime} `{VerifyCommand.Terminal}
    (results : VerifyCommand.Results) (prompts : list VerifyCommand.Prompt.t) :
  VerifyCommand.verifyDirectory_prompts results [] = Returned prompts →
  NoDup (prompted prompts)
  ∧ Forall (asks_about results) prompts
  ∧ (∀ path result,
       (path, result) ∈ results →
       ModuleVerificationResult.status result = Untrusted →
       VerifyCommand.path_basename path ∈ prompted prompts).
Proof.
  intros Hrun.
  destruct (verifyDirectory_prompts_inv _ _ _ Hrun)
    as (added & -> & Hadded & Hnodup & Hcover).
  simpl in *. split; [apply Hnodup; constructor|]. by split.
Qed.

Lemma prompts_ask_once_per_basename_witness :
  NoDup (prompted (H := CommandExample.terminal (JSBoolean false))
           CommandExample.prompts)
  ∧ Forall (asks_about (H := CommandExample.terminal (JSBoolean false))
              CommandExample.results)
           CommandExample.prompts
  ∧ (∀ path result,
       (path, result) ∈ CommandExample.results →
       ModuleVerificationResult.status result = Untrusted →
       TerminalDouble.basename path
       ∈ prompted (H := CommandExample.terminal (JSBoolean false))
           CommandExample.prompts).
Proof.
  apply (prompts_ask_once_per_basename (H := Reference.runtime)
           (H0 := CommandExample.terminal (JSBoolean false))
           CommandExample.results CommandExample.prompts).
  vm_compute. reflexivity.
Defined.

Section VerifyCommandRuns.
Import VerifyCommand.
Context `{Runtime} `{Terminal} (process : Process).

Lemma verifyDirectory_unfold (path : string) (fs : FS) :
  verifyDirectory process path fs
  = match ModuleHierarchyVerifier_verify path fs with
    | (Returned results, fs1) =>
        match verifyDirectory_prompts results [] with
        | Returned prompts =>
            if (0 <? length prompts)%nat then
              match prompt_get prompts with
              | Returned trustResults =>
                  match verifyDirectory_trust process results trustResults
                          false fs1 with
                  | (Returned true, fs2) =>
                      match ModuleHierarchyVerifier_verify path fs2 with
                      | (Returned results', fs3) =>
                          (Returned (verifyDirectory_summary results'), fs3)
                      | (Thrown e, fs3) => (Thrown e, fs3)
                      end
                  | (Returned false, fs2) =>
                      (Returned (verifyDirectory_summary results), fs2)
                  | (Thrown e, fs2) => (Thrown e, fs2)
                  end
              | Thrown e => (Thrown e, fs1)
              end
            else (Returned (verifyDirectory_summary results), fs1)
        | Thrown e => (Thrown e, fs1)
        end
    | (Thrown e, fs1) => (Thrown e, fs1)
    end.
Proof.
  unfold verifyDirectory. io_unfold.
  destruct (ModuleHierarchyVerifier_verify path fs) as [[results|e] fs1]; [|done].
  destruct (verifyDirectory_prompts results []) as [prompts|e]; [|done].
  destruct (0 <? length prompts)%nat; [|done].
  destruct (prompt_get prompts) as [trustResults|e]; [|done].
  destruct (verifyDirectory_trust process results trustResults false fs1)
    as [[[]|e] fs2]; [|done..].
  by destruct (ModuleHierarchyVerifier_verify path fs2) as [[results'|e] fs3].
Qed.

Lemma verifyDirectory_trust_declined (results : Results)
    (answers : list (string * JSValue)) (didModify : bool) (fs : FS) :
  Forall declined answers →
  verifyDirectory_trust process results answers didModify fs
  = (Returned didModify, fs).
Proof.
  induction 1 as [|[path answer] answers Hhead _ IH]; [done|].
  unfold declined in Hhead. simpl in *. by rewrite Hhead.
Qed.

Lemma verifyDirectory_trust_true (results : Results)
    (answers : list (string * JSValue)) (fs fs' : FS) (didModify : bool) :
  verifyDirectory_trust process results answers true fs
  = (Returned didModify, fs') →
  didModify = true.
Proof.
  revert fs. induction answers as [|[path answer] answers IH]; intros fs; simpl.
  - by intros [= <- _].
  - destruct (truthy answer); [|by apply IH].
    destruct (property results path) as [result|]; [|done].
    io_unfold.
    destruct (match ModuleVerificationResult.untrustedIdentity result with
              | Some untrustedIdentity =>
                  TrustStore.addTrusted process untrustedIdentity
                                        (path_basename path)
              | None => addTrusted_undefined (path_basename path)
              end fs) as [[[]|e] fs1]; [by apply IH|done].
Qed.

Lemma verifyDirectory_trust_false (results : Results)
    (answers : list (string * JSValue)) (fs fs' : FS) :
  verifyDirectory_trust process results answers false fs = (Returned false, fs') →
  Forall declined answers ∧ fs' = fs.
Proof.
  revert fs. induction answers as [|[path answer] answers IH]; intros fs; simpl.
  - intros [= <-]. split; [constructor|done].
  - destruct (truthy answer) eqn:Hanswer.
    + destruct (property results path) as [result|]; [|done].
      io_unfold.
      destruct (match ModuleVerificationResult.untrustedIdentity result with
                | Some untrustedIdentity =>
                    TrustStore.addTrusted process untrustedIdentity
                                          (path_basename path)
                | None => addTrusted_undefined (path_basename path)
                end fs) as [[[]|e] fs1]; [|done].
      intros Hrun. by apply verifyDirectory_trust_true in Hrun.
    + intros Hrun. destruct (IH _ Hrun) as [Hall ->].
      split; [by constructor|done].
Qed.

Lemma verifyDirectory_prompts_thrown (remaining : Results)
    (prompts0 : list Prompt.t) (e : JSError) :
  verifyDirectory_prompts remaining prompts0 = Thrown e → e = TypeError.
Proof.
  revert prompts0.
  induction remaining as [|[path result] remaining IH]; intros prompts0; simpl;
    [done|].
  destruct (ModuleVerificationResult.status result); try apply IH.
  destruct (ModuleVerificationResult.untrustedIdentity result);
    [|by intros [= <-]].
  destruct (length (filter _ prompts0) =? 0); apply IH.
Qed.

Lemma verifyDirectory_inv (path : string) (fs fs' : FS)
    (logged : list string * bool) :
  verifyDirectory process path fs = (Returned logged, fs') →
  ∃ results fs0,
    ModuleHierarchyVerifier_verify path fs0 = (Returned results, fs')
    ∧ logged = verifyDirectory_summary results.
Proof.
  rewrite verifyDirectory_unfold.
  destruct (ModuleHierarchyVerifier_verify path fs) as [[results|e] fs1] eqn:Hfirst;
    [|done].
  destruct (verifyDirectory_prompts results []) as [prompts|e]; [|done].
  destruct (0 <? length prompts)%nat;
    [|intros [= <- <-]; by exists results, fs].
  destruct (prompt_get prompts) as [trustResults|e]; [|done].
  destruct (verifyDirectory_trust process results trustResults false fs1)
    as [[[]|e] fs2] eqn:Htrust; [| |done].
  - destruct (ModuleHierarchyVerifier_verify path fs2) as [[results'|e] fs3]
      eqn:Hsecond; [|done].
    intros [= <- <-]. by exists results', fs2.
  - apply verifyDirectory_trust_false in Htrust as [_ ->].
    intros [= <- <-]. by exists results, fs.
Qed.

Lemma execute_unfold (path : string) (fs : FS) :
  execute process path fs
  = let exit (run : outcome (list string * bool) * FS) :=
      match run with
      | (Returned (lines, outcome), fs') =>
          (Returned (lines, if outcome then 0 else 1), fs')
      | (Thrown e, fs') => (Thrown e, fs')
      end in
    if endsWith path ".tgz" then
      match lstatSync_isFile path fs with
      | Returned true => (Thrown (ForeignError "not supported yet!"), fs)
      | Returned false => exit (verifyDirectory process path fs)
      | Thrown e => (Thrown e, fs)
      end
    else exit (verifyDirectory process path fs).
Proof.
  unfold execute, verifyTarball. io_unfold. simpl.
  destruct (endsWith path ".tgz").
  - destruct (lstatSync_isFile path fs) as [[]|e]; [done| |done].
    by destruct (verifyDirectory process path fs) as [[[lines outcome]|e] fs'].
  - by destruct (verifyDirectory process path fs) as [[[lines outcome]|e] fs'].
Qed.

End VerifyCommandRuns.

(** X21.  An untrusted result must name its signer: the first loop of
    [verifyDirectory] hands back prompts exactly when every untrusted
    result carries an identity; when one does not, the command throws a
    [TypeError] right after the hierarchy has been verified, before any
    prompt is shown. *)
Theorem untrusted_result_needs_identity `{Runtime} `{VerifyCommand.Terminal}
    (process : Process) (results : VerifyCommand.Results) :
  ((∃ prompts,
      VerifyCommand.verifyDirectory_prompts results [] = Returned prompts)
   ↔ untrusted_are_identified results)
  ∧ (∀ path fs fs1,
       VerifyCommand.ModuleHierarchyVerifier_verify path fs
       = (Returned results, fs1) →
       ¬ untrusted_are_identified results →
       VerifyCommand.verifyDirectory process path fs = (Thrown TypeError, fs1)).
Proof.
  pose proof (verifyDirectory_prompts_returns results []) as Hreturns.
  split.
  - rewrite <- Hreturns.
    destruct (VerifyCommand.verifyDirectory_prompts results []) as [prompts|e].
    + split; by eauto.
    + split; [by intros [? [=]]|by intros [? [=]]].
  - intros path fs fs1 Hfirst Hnot.
    rewrite verifyDirectory_unfold, Hfirst.
    destruct (VerifyCommand.verifyDirectory_prompts results [])
      as [prompts|e] eqn:Hprompts.
    + destruct Hnot. apply Hreturns. by eexists.
    + by rewrite (verifyDirectory_prompts_thrown _ _ _ Hprompts).
Qed.

Lemma untrusted_result_needs_identity_witness :
  let results := [("/p", ModuleVerifier.result Untrusted None "p" None)] in
  VerifyCommand.verifyDirectory (H := Reference.runtime)
    (H0 := TerminalDouble.reporting results (JSBoolean true))
    (Example.linux (Some "/home/u")) "/p" Example.fresh_home
  = (Thrown TypeError, Example.fresh_home).
Proof.
  intros results.
  apply (untrusted_result_needs_identity (H := Reference.runtime)
           (H0 := TerminalDouble.reporting results (JSBoolean true))
           (Example.linux (Some "/home/u")) results).
  - reflexivity.
  - intros Hall. inversion Hall as [|? ? Hhead _]. by destruct (Hhead eq_refl).
Defined.

(** X22.  The exit code reports the last verification: when [execute]
    returns, the hierarchy has been verified, the lines logged are the
    summary of the results of that verification, after which nothing else
    is done, and the exit code is 0 when every one of these results is
    [Trusted] and 1 otherwise. *)
Theorem exit_code_reports_last_verification `{Runtime} `{VerifyCommand.Terminal}
    (process : Process) (path : string) (fs fs' : FS) (lines : list string)
    (code : nat) :
  VerifyCommand.execute process path fs = (Returned (lines, code), fs') →
  ∃ results fs0,
    VerifyCommand.ModuleHierarchyVerifier_verify path fs0
    = (Returned results, fs')
    ∧ lines = fst (VerifyCommand.verifyDirectory_summary results)
    ∧ (code = 0 ↔ all_trusted results)
    ∧ (code = 1 ↔ ¬ all_trusted results).
Proof.
  rewrite execute_unfold. simpl.
  assert (∀ run,
            run = VerifyCommand.verifyDirectory process path fs →
            match run with
            | (Returned (lines, outcome), fs') =>
                (Returned (lines, if outcome then 0 else 1), fs')
            | (Thrown e, fs') => (Thrown e, fs')
            end = (Returned (lines, code), fs') →
            ∃ results fs0,
              VerifyCommand.ModuleHierarchyVerifier_verify path fs0
              = (Returned results, fs')
              ∧ lines = fst (VerifyCommand.verifyDirectory_summary results)
              ∧ (code = 0 ↔ all_trusted results)
              ∧ (code = 1 ↔ ¬ all_trusted results)) as Hexit.
  { intros [[[lines0 outcome]|e] fs1] Hrun; [|done]. intros [= -> <- ->].
    symmetry in Hrun.
    apply verifyDirectory_inv in Hrun as (results & fs0 & Hlast & Hlogged).
    exists results, fs0. split; [done|].
    assert (outcome = true ↔ all_trusted results) as [Htrue Hall].
    { by rewrite <- verifyDirectory_summary_result, <- Hlogged. }
    split; [by rewrite <- Hlogged|].
    destruct outcome; (split; split); try done; auto.
    - intros Hnot. destruct Hnot. by apply Htrue.
    - intros Htrusted. by specialize (Hall Htrusted).
    - intros _ Htrusted. by specialize (Hall Htrusted). }
  destruct (VerifyCommand.endsWith path ".tgz"); [|by apply Hexit].
  destruct (VerifyCommand.lstatSync_isFile path fs) as [[]|e]; [done| |done].
  by apply Hexit.
Qed.

Lemma exit_code_reports_last_verification_witness :
  let fs' :=
    snd (CommandExample.execute (JSBoolean true) "/p" Example.signed_package) in
  ∃ results fs0,
    VerifyCommand.ModuleHierarchyVerifier_verify
      (Terminal := CommandExample.terminal (JSBoolean true)) "/p" fs0
    = (Returned results, fs')
    ∧ [ "package verification summary:"; "0 compromised"; "0 unsigned";
        "0 untrusted"; "1 trusted" ]
      = fst (VerifyCommand.verifyDirectory_summary results)
    ∧ (0 = 0 ↔ all_trusted results)
    ∧ (0 = 1 ↔ ¬ all_trusted results).
Proof.
  intros fs'.
  apply (exit_code_reports_last_verification (H := Reference.runtime)
           (H0 := CommandExample.terminal (JSBoolean true))
           (Example.linux (Some "/home/u")) "/p" Example.signed_package fs').
  vm_compute. reflexivity.
Defined.

(** X23.  Tarballs are not supported: for a path that ends in [.tgz] and
    is not a directory, [execute] never yields an exit code; it throws the
    error [not supported yet!] when the path is a file, and the error of
    [lstatSync] when nothing is there, and the file system is left as it
    was. *)
Theorem tarball_is_not_supported `{Runtime} `{VerifyCommand.Terminal}
    (process : Process) (path : string) (fs : FS) :
  VerifyCommand.endsWith path ".tgz" = true →
  fs !! path ≠ Some Directory →
  VerifyCommand.execute process path fs
  = (Thrown (match fs !! path with
             | Some _ => ForeignError "not supported yet!"
             | None => SystemError "ENOENT"
             end), fs).
Proof.
  intros Hsuffix Hfile. rewrite execute_unfold. simpl. rewrite Hsuffix.
  unfold VerifyCommand.lstatSync_isFile.
  by destruct (fs !! path) as [[content|]|].
Qed.

Lemma tarball_is_not_supported_witness :
  let fs := <["/p.tgz" := File "x"]> Example.signed_package in
  CommandExample.execute (JSBoolean true) "/p.tgz" fs
  = (Thrown (ForeignError "not supported yet!"), fs)
  ∧ CommandExample.execute (JSBoolean true) "/q.tgz" fs
    = (Thrown (SystemError "ENOENT"), fs).
Proof.
  intros fs. split.
  - apply (tarball_is_not_supported (H := Reference.runtime)
             (H0 := CommandExample.terminal (JSBoolean true))
             (Example.linux (Some "/home/u")) "/p.tgz" fs);
      [reflexivity|vm_compute; discriminate].
  - apply (tarball_is_not_supported (H := Reference.runtime)
             (H0 := CommandExample.terminal (JSBoolean true))
             (Example.linux (Some "/home/u")) "/q.tgz" fs);
      [reflexivity|vm_compute; discriminate].
Defined.

(** X24.  Declined prompts record nothing: when no result of the hierarchy
    verification is untrusted, or the operator declines every prompt,
    [verifyDirectory] verifies the hierarchy once, writes nothing to the
    trust store, and reports the summary of that one verification. *)
Theorem declined_prompts_record_nothing `{Runtime} `{VerifyCommand.Terminal}
    (process : Process) (path : string) (fs fs1 : FS)
    (results : VerifyCommand.Results) :
  VerifyCommand.ModuleHierarchyVerifier_verify path fs = (Returned results, fs1) →
  (Forall (λ entry, ModuleVerificationResult.status (snd entry) ≠ Untrusted)
          results
   ∨ ∃ prompts answers,
       VerifyCommand.verifyDirectory_prompts results [] = Returned prompts
       ∧ VerifyCommand.prompt_get prompts = Returned answers
       ∧ Forall declined answers) →
  VerifyCommand.verifyDirectory process path fs
  = (Returned (VerifyCommand.verifyDirectory_summary results), fs1).
Proof.
  intros Hfirst Hcase. rewrite verifyDirectory_unfold, Hfirst.
  destruct Hcase as [Hnone|(prompts & answers & Hprompts & Hget & Hdeclined)].
  - by rewrite (verifyDirectory_prompts_none _ _ Hnone).
  - rewrite Hprompts. destruct (0 <? length prompts)%nat; [|done].
    by rewrite Hget, (verifyDirectory_trust_declined _ _ _ _ _ Hdeclined).
Qed.

Lemma declined_prompts_record_nothing_witness :
  let fs1 :=
    snd (VerifyCommand.ModuleHierarchyVerifier_verify
           (Terminal := CommandExample.terminal (JSBoolean false))
           "/p" Example.signed_package) in
  VerifyCommand.verifyDirectory (H := Reference.runtime)
    (H0 := CommandExample.terminal (JSBoolean false))
    (Example.linux (Some "/home/u")) "/p" Example.signed_package
  = (Returned
       (VerifyCommand.verifyDirectory_summary
          [("/p", CommandExample.untrusted Example.alice "p")]), fs1).
Proof.
  intros fs1.
  apply (declined_prompts_record_nothing (H := Reference.runtime)
           (H0 := CommandExample.terminal (JSBoolean false))
           (Example.linux (Some "/home/u")) "/p" Example.signed_package fs1
           [("/p", CommandExample.untrusted Example.alice "p")]).
  - vm_compute. reflexivity.
  - right. eexists _, _. split; [reflexivity|]. split; [reflexivity|].
    constructor; [reflexivity|constructor].
Defined.

Section VerifyCommandTrust.
Import VerifyCommand.
Context `{Runtime} `{Terminal} (process : Process).

Lemma verifyDirectory_trust_app (results : Results)
    (answers later : list (string * JSValue)) (didModify : bool) (fs : FS) :
  verifyDirectory_trust process results (answers ++ later) didModify fs
  = match verifyDirectory_trust process results answers didModify fs with
    | (Returned modified, fs1) =>
        verifyDirectory_trust process results later modified fs1
    | (Thrown e, fs1) => (Thrown e, fs1)
    end.
Proof.
  revert didModify fs.
  induction answers as [|[path answer] answers IH]; intros didModify fs; simpl;
    [done|].
  destruct (truthy answer); [|by apply IH].
  destruct (property results path) as [result|]; [|done].
  io_unfold.
  destruct (match ModuleVerificationResult.untrustedIdentity result with
            | Some untrustedIdentity =>
                TrustStore.addTrusted process untrustedIdentity
                                      (path_basename path)
            | None => addTrusted_undefined (path_basename path)
            end fs) as [[[]|e] fs1]; [by apply IH|done].
Qed.

End VerifyCommandTrust.

(** X25.  An accepted prompt trusts the signer for the basename: when the
    loop over the operator's answers completes and its last answer accepts
    the prompt of a path, the identity that the result of this path
    carries is the one identity trusted for the basename of the path. *)
Theorem accepted_prompt_trusts_basename `{Runtime} `{VerifyCommand.Terminal}
    (process : Process) (results : VerifyCommand.Results)
    (answers : list (string * JSValue)) (path : string) (answer : JSValue)
    (result : ModuleVerificationResult.t) (signer : SignatureIdentity)
    (didModify : bool) (fs fs' : FS) :
  JSON_round_trip →
  VerifyCommand.property results path = Some result →
  ModuleVerificationResult.untrustedIdentity result = Some signer →
  truthy answer = true →
  VerifyCommand.verifyDirectory_trust process results
    (answers ++ [(path, answer)]) false fs = (Returned didModify, fs') →
  didModify = true
  ∧ ∀ asked,
      TrustStore.isTrusted process asked (VerifyCommand.path_basename path) fs'
      = (Returned (bool_decide (asked = signer)), fs').
Proof.
  intros Hjson Hresult Hsigner Hanswer. rewrite verifyDirectory_trust_app.
  destruct (VerifyCommand.verifyDirectory_trust process results answers false fs)
    as [[modified|e] fs1]; [|done].
  simpl. rewrite Hanswer, Hresult, Hsigner. io_unfold.
  destruct (TrustStore.addTrusted process signer
              (VerifyCommand.path_basename path) fs1)
    as [[[]|e] fs2] eqn:Hadd; [|done].
  intros [= <- <-]. split; [done|]. intros asked.
  apply addTrusted_completes in Hadd as (folder & Hfolder & Hin & Hfile).
  by eapply isTrusted_reads_record.
Qed.

Lemma accepted_prompt_trusts_basename_witness :
  let process := Example.linux (Some "/home/u") in
  let fs' :=
    snd (TrustStore.addTrusted (H := Reference.runtime) process Example.alice
           "p" Example.signed_package) in
  true = true
  ∧ ∀ asked,
      TrustStore.isTrusted (H := Reference.runtime) process asked
        (TerminalDouble.basename "/a/node_modules/p") fs'
      = (Returned (bool_decide (asked = Example.alice)), fs').
Proof.
  intros process fs'.
  apply (accepted_prompt_trusts_basename (H := Reference.runtime)
           (H0 := CommandExample.terminal (JSBoolean true))
           process CommandExample.results [("/c", JSBoolean false)]
           "/a/node_modules/p" (JSBoolean true)
           (CommandExample.untrusted Example.alice "p") Example.alice
           true Example.signed_package fs').
  - exact parse_stringify_identity.
  - reflexivity.
  - reflexivity.
  - reflexivity.
  - vm_compute. reflexivity.
Defined.

(** ** The JSON normaliser *)

Section JsonNormalizeValues.
Import JsonNormalize.

Lemma own_property_snoc (props : list (string * JSValue)) (k key : string)
    (v : JSValue) :
  own_property (props ++ [(k, v)]) key
  = if String.eqb k key then Some v else own_property props key.
Proof. unfold own_property. by rewrite fold_left_app. Qed.

Lemma own_property_elem (props : list (string * JSValue)) (key : string)
    (v : JSValue) :
  own_property props key = Some v → (key, v) ∈ props.
Proof.
  induction props as [|[k w] props IH] using rev_ind; [done|].
  rewrite own_property_snoc. destruct (String.eqb_spec k key) as [->|Hne].
  - intros [= ->]. apply elem_of_app. right. by left.
  - intros Hprops. apply elem_of_app. left. by apply IH.
Qed.

Lemma own_property_absent (props : list (string * JSValue)) (key : string) :
  key ∉ props.*1 → own_property props key = None.
Proof.
  induction props as [|[k w] props IH] using rev_ind; [done|].
  rewrite own_property_snoc, fmap_app, not_elem_of_app. simpl.
  intros [Hprops Hk]. destruct (String.eqb_spec k key) as [->|Hne].
  - destruct Hk. by left.
  - by apply IH.
Qed.

Lemma own_property_NoDup (props : list (string * JSValue)) (key : string)
    (v : JSValue) :
  NoDup props.*1 → (key, v) ∈ props → own_property props key = Some v.
Proof.
  induction props as [|[k w] props IH] using rev_ind.
  { intros _ Hin. by apply elem_of_nil in Hin. }
  rewrite fmap_app, own_property_snoc. simpl.
  intros Hnodup. apply NoDup_app in Hnodup as (Hprops & Hfresh & _).
  rewrite elem_of_app. intros [Hin|Hin].
  - destruct (String.eqb_spec k key) as [->|Hne]; [|by apply IH].
    destruct (Hfresh key); [|by left].
    apply list_elem_of_fmap. by exists (key, v).
  - apply elem_of_cons in Hin as [[= -> ->]|Hin];
      [|by apply elem_of_nil in Hin].
    by rewrite String.eqb_refl.
Qed.

Lemma member_defined (props : list (string * JSValue)) (key : string) :
  is_defined (member props key) = true → (key, member props key) ∈ props.
Proof.
  unfold member. destruct (own_property props key) as [v|] eqn:Hkey; [|done].
  intros _. by apply own_property_elem.
Qed.

Lemma elem_of_Object_keys (props : list (string * JSValue)) (key : string) :
  key ∈ Object_keys props ↔ key ∈ props.*1.
Proof.
  unfold Object_keys.
  by rewrite elem_of_reverse, elem_of_remove_dups, elem_of_reverse.
Qed.

Lemma NoDup_Object_keys (props : list (string * JSValue)) :
  NoDup (Object_keys props).
Proof.
  unfold Object_keys. rewrite reverse_Permutation. apply NoDup_remove_dups.
Qed.

Lemma depth_item (items : list JSValue) (item : JSValue) :
  item ∈ items → depth item < depth (JSArray items).
Proof.
  simpl. induction items as [|first items IH]; simpl.
  - intros Hin. by apply elem_of_nil in Hin.
  - intros Hin. apply elem_of_cons in Hin as [->|Hin]; [lia|].
    specialize (IH Hin). lia.
Qed.

Lemma depth_member_of (props : list (string * JSValue)) (key : string)
    (v : JSValue) :
  (key, v) ∈ props → depth v < depth (JSObject props).
Proof.
  simpl. induction props as [|[k w] props IH]; simpl.
  - intros Hin. by apply elem_of_nil in Hin.
  - intros Hin. apply elem_of_cons in Hin as [[= -> ->]|Hin]; [lia|].
    specialize (IH Hin). lia.
Qed.

Lemma depth_member (props : list (string * JSValue)) (key : string) :
  depth (member props key) < depth (JSObject props).
Proof.
  destruct (is_defined (member props key)) eqn:Hdefined.
  - by eapply depth_member_of, member_defined.
  - destruct (member props key); try done. simpl. lia.
Qed.

Lemma depth_nullified (item : JSValue) :
  depth (match item with JSUndefined => JSNull | _ => item end) = depth item.
Proof. by destruct item. Qed.

Lemma same_content_defined (v v' : JSValue) :
  same_content v v' → is_defined v = is_defined v'.
Proof. by inversion 1. Qed.

Lemma same_content_refl_below (n : nat) (v : JSValue) :
  depth v < n → same_content v v.
Proof.
  revert v. induction n as [|n IH]; intros v Hdepth; [lia|].
  destruct v as [| | | | |items|props]; try by constructor.
  - apply same_array. apply Forall2_same_length_lookup_2; [done|].
    intros i item item' Hitem Hitem'. simplify_eq. apply IH.
    rewrite depth_nullified.
    apply list_elem_of_lookup_2, depth_item in Hitem. lia.
  - apply same_object. intros key. apply IH.
    pose proof (depth_member props key). lia.
Qed.

Lemma same_content_refl (v : JSValue) : same_content v v.
Proof. apply (same_content_refl_below (S (depth v))). lia. Qed.

End JsonNormalizeValues.

Section JsonNormalizeRuns.
Import JsonNormalize.
Context `{Runtime}.

Lemma map_keys_returned {K A} (f : K → Run A) (g : K → A) (keys : list K) :
  (∀ key, key ∈ keys → f key = Some (Returned (g key))) →
  map_keys f keys = Some (Returned (g <$> keys)).
Proof.
  induction keys as [|key keys IH]; [done|]. intros Hkeys. simpl.
  rewrite (Hkeys key) by by left. simpl.
  rewrite IH; [done|]. intros other Hother. apply Hkeys. by right.
Qed.

Lemma map_keys_Forall2 {K K' A} (f : K → Run A) (f' : K' → Run A)
    (keys : list K) (keys' : list K') :
  Forall2 (λ key key',
             ∃ a, f key = Some (Returned a) ∧ f' key' = Some (Returned a))
          keys keys' →
  ∃ values,
    map_keys f keys = Some (Returned values)
    ∧ map_keys f' keys' = Some (Returned values).
Proof.
  induction 1 as [|key key' keys keys' (a & Hkey & Hkey') _ (values & Hf & Hf')].
  - by exists [].
  - exists (a :: values). simpl. by rewrite Hkey, Hkey', Hf, Hf'.
Qed.

Lemma concat_fmap_Permutation {K A} (g : K → list A) (keys keys' : list K) :
  keys ≡ₚ keys' → concat (g <$> keys) ≡ₚ concat (g <$> keys').
Proof.
  induction 1 as [|key keys keys' _ IH|key other keys|? ? ? _ IH1 _ IH2]; simpl.
  - done.
  - by rewrite IH.
  - rewrite !app_assoc. f_equiv. apply Permutation_app_comm.
  - by etrans.
Qed.

Lemma concat_fmap_filter {K A} (g : K → list A) (P : K → Prop)
    `{∀ key, Decision (P key)} (keys : list K) :
  (∀ key, key ∈ keys → ¬ P key → g key = []) →
  concat (g <$> filter P keys) = concat (g <$> keys).
Proof.
  induction keys as [|key keys IH]; [done|]. intros Hempty.
  specialize (IH (λ other Hother, Hempty other (list_elem_of_further _ _ _ Hother))).
  rewrite filter_cons. case_decide as HP.
  - rewrite !fmap_cons. simpl. by rewrite IH.
  - rewrite fmap_cons. simpl. rewrite IH, (Hempty key); [done|by left|done].
Qed.

Lemma sort_unique (values sorted : list (option string)) :
  Forall is_Some values → values ≡ₚ sorted →
  StronglySorted (λ a b, String.le (sort_key a) (sort_key b)) sorted →
  sort values = sorted.
Proof.
  intros Hsome Hperm Hsorted. unfold sort.
  set (R := λ a b : option string, String.le (sort_key a) (sort_key b)) in *.
  assert (Transitive R) as Htrans.
  { intros a b c. unfold R. apply transitivity. }
  assert (Total R) as Htotal.
  { intros a b. unfold R. apply total, _. }
  apply StronglySorted_unique_strong with (R := R).
  - intros a b Ha Hb Hab Hba.
    rewrite merge_sort_Permutation in Ha.
    rewrite <- Hperm in Hb. rewrite Forall_forall in Hsome.
    destruct (Hsome a Ha) as [s ->]. destruct (Hsome b Hb) as [t ->].
    unfold R in *. simpl in *. f_equal. by apply (anti_symm String.le).
  - apply StronglySorted_merge_sort; apply _.
  - done.
  - by rewrite merge_sort_Permutation.
Qed.

Lemma sort_Permutation (values values' : list (option string)) :
  Forall is_Some values → values ≡ₚ values' → sort values = sort values'.
Proof.
  intros Hsome Hperm. apply sort_unique; [done| |]; unfold sort.
  - by rewrite Hperm, merge_sort_Permutation.
  - set (R := λ a b : option string, String.le (sort_key a) (sort_key b)).
    assert (Transitive R) as Htrans.
    { intros a b c. unfold R. apply transitivity. }
    assert (Total R) as Htotal.
    { intros a b. unfold R. apply total, _. }
    apply StronglySorted_merge_sort; apply _.
Qed.

Lemma remove_dups_NoDup {A} `{EqDecision A} (l : list A) :
  NoDup l → remove_dups l = l.
Proof.
  induction 1 as [|x l Hx _ IH]; [done|]. simpl.
  destruct (decide_rel elem_of x l) as [Hin|_]; [done|]. by rewrite IH.
Qed.

Lemma Object_keys_NoDup (props : list (string * JSValue)) :
  NoDup props.*1 → Object_keys props = props.*1.
Proof.
  intros Hnodup. unfold Object_keys.
  rewrite remove_dups_NoDup by by rewrite reverse_Permutation.
  apply reverse_involutive.
Qed.

Lemma serializeSync_literal (calls : nat) (v : JSValue) (key : option string) :
  depth v = 0 →
  serializeSync (S calls) v None key = Some (handleLiteral v).
Proof. destruct v; try done; intros _; simpl; by rewrite orb_true_r. Qed.

Lemma serializeSync_array (calls : nat) (items : list JSValue)
    (key : option string) :
  serializeSync (S calls) (JSArray items) None key
  = Run_bind
      (map_keys
         (λ '(index, item),
            serializeSync calls
              (match item with JSUndefined => JSNull | _ => item end)
              None (Some (pretty (index : nat))))
         (imap (λ index item, (index, item)) items))
      (λ values,
         Some (Returned (Some
           ("[" +:+ String.concat "," (map (default "null") values) +:+ "]")))).
Proof. done. Qed.

Lemma serializeSync_object (calls : nat) (props : list (string * JSValue))
    (key : option string) :
  serializeSync (S calls) (JSObject props) None key
  = Run_bind
      (map_keys
         (λ key,
            match member props key with
            | JSUndefined => Some (Returned [])
            | value =>
                Run_bind (serializeSync calls value None (Some key)) (λ val,
                  Some (Returned
                    [ (λ val, quotation_mark +:+ key +:+ quotation_mark
                              +:+ ":" +:+ val) <$> val ]))
            end)
         (Object_keys props))
      (λ values,
         Some (Returned (Some
           ("{" +:+ String.concat "," (filter_Boolean (sort (concat values)))
                +:+ "}")))).
Proof. done. Qed.

Lemma serializeSync_same_content (calls calls' : nat) (v v' : JSValue)
    (key key' : option string) :
  depth v < calls → depth v' < calls' → same_content v v' →
  ∃ out,
    serializeSync calls v None key = Some (Returned out)
    ∧ serializeSync calls' v' None key' = Some (Returned out)
    ∧ (is_Some out ↔ is_defined v = true).
Proof.
  revert calls' v v' key key'.
  induction calls as [|calls IH]; intros calls' v v' key key' Hv Hv' Hsame;
    [lia|].
  destruct calls' as [|calls']; [lia|].
  inversion Hsame as [? Hliteral|items items' Hitems|props props' Hmembers];
    subst.
  - rewrite !serializeSync_literal by done. eexists. split; [done|].
    split; [done|]. destruct v'; simpl; split; try done; by eauto.
  - rewrite !serializeSync_array.
    set (f := λ '((index, item) : nat * JSValue),
           serializeSync calls
             (match item with JSUndefined => JSNull | _ => item end)
             None (Some (pretty index))).
    set (f' := λ '((index, item) : nat * JSValue),
           serializeSync calls'
             (match item with JSUndefined => JSNull | _ => item end)
             None (Some (pretty index))).
    destruct (map_keys_Forall2 f f' (imap (λ index item, (index, item)) items)
                (imap (λ index item, (index, item)) items'))
      as (values & -> & ->); [|simpl; eexists; split; [done|split; [done|]];
                               split; by eauto].
    apply Forall2_same_length_lookup_2.
    { rewrite !length_imap. by eapply Forall2_length. }
    intros i entry entry'. rewrite !list_lookup_imap.
    destruct (items !! i) as [item|] eqn:Hitem; [|done].
    destruct (items' !! i) as [item'|] eqn:Hitem'; [|done].
    intros [= <-] [= <-]. unfold f, f'.
    destruct (IH calls' (match item with JSUndefined => JSNull | _ => item end)
                 (match item' with JSUndefined => JSNull | _ => item' end)
                 (Some (pretty i)) (Some (pretty i)))
      as (out & Hout & Hout' & _).
    + rewrite depth_nullified.
      apply list_elem_of_lookup_2, depth_item in Hitem. lia.
    + rewrite depth_nullified.
      apply list_elem_of_lookup_2, depth_item in Hitem'. lia.
    + exact (Forall2_lookup_lr _ _ _ _ _ _ Hitems Hitem Hitem').
    + by exists out.
  - rewrite !serializeSync_object.
    set (f := λ key : string,
           match member props key with
           | JSUndefined => Some (Returned [])
           | value =>
               Run_bind (serializeSync calls value None (Some key)) (λ val,
                 Some (Returned
                   [ (λ val, quotation_mark +:+ key +:+ quotation_mark
                             +:+ ":" +:+ val) <$> val ]))
           end).
    set (f' := λ key : string,
           match member props' key with
           | JSUndefined => Some (Returned [])
           | value =>
               Run_bind (serializeSync calls' value None (Some key)) (λ val,
                 Some (Returned
                   [ (λ val, quotation_mark +:+ key +:+ quotation_mark
                             +:+ ":" +:+ val) <$> val ]))
           end).
    set (g := λ key : string,
           match f key with Some (Returned a) => a | _ => [] end).
    assert (∀ key,
              f key = Some (Returned (g key)) ∧ f' key = Some (Returned (g key))
              ∧ Forall is_Some (g key)
              ∧ (is_defined (member props key) = false → g key = []))
      as Hkeys.
    { intros name. unfold g.
      pose proof (Hmembers name) as Hmember.
      pose proof (same_content_defined _ _ Hmember) as Hdefined.
      pose proof (depth_member props name) as Hdepth.
      pose proof (depth_member props' name) as Hdepth'.
      destruct (IH calls' (member props name) (member props' name)
                  (Some name) (Some name))
        as (out & Hout & Hout' & Hsome); [simpl in *; lia..|done|].
      unfold f, f'.
      destruct (member props name) eqn:Hname;
        destruct (member props' name) eqn:Hname'; try done;
        rewrite ?Hout, ?Hout'; simpl;
        (split; [done|split; [done|split; [|done]]]);
        constructor; try constructor;
        destruct Hsome as [_ [text ->]]; by eauto. }
    rewrite (map_keys_returned f g) by (intros name _; apply Hkeys).
    rewrite (map_keys_returned f' g) by (intros name _; apply Hkeys).
    simpl.
    assert (sort (concat (g <$> Object_keys props))
            = sort (concat (g <$> Object_keys props'))) as ->;
      [|eexists; split; [done|]; split; [done|split; by eauto]].
    apply sort_Permutation.
    { apply Forall_concat, Forall_fmap, Forall_forall. intros name _.
      apply Hkeys. }
    rewrite <- (concat_fmap_filter g (λ name, is_defined (member props name))
                 (Object_keys props)).
    2:{ intros name _ Hnot. apply Hkeys.
        by destruct (is_defined (member props name)). }
    rewrite <- (concat_fmap_filter g (λ name, is_defined (member props' name))
                 (Object_keys props')).
    2:{ intros name _ Hnot. apply Hkeys.
        rewrite (same_content_defined _ _ (Hmembers name)).
        by destruct (is_defined (member props' name)). }
    apply concat_fmap_Permutation, NoDup_Permutation.
    + apply NoDup_filter, NoDup_Object_keys.
    + apply NoDup_filter, NoDup_Object_keys.
    + intros name. rewrite !list_elem_of_filter, !elem_of_Object_keys.
      rewrite (same_content_defined _ _ (Hmembers name)).
      assert (∀ entries, is_defined (member entries name) →
                         name ∈ entries.*1) as Hpresent.
      { intros entries Hdefined. apply list_elem_of_fmap.
        exists (name, member entries name). split; [done|].
        apply member_defined. by destruct (is_defined _). }
      split; intros [Hdefined _]; (split; [done|]); apply Hpresent; [done|].
      by rewrite (same_content_defined _ _ (Hmembers name)).
Qed.

End JsonNormalizeRuns.

(** X26.  [normalizeSync] always answers, and a replacer is never
    called: handed any replacer it throws the error of [handleReplacer]
    about the missing key, at the first call; handed none it hands back a
    text, or [undefined] exactly when the value is [undefined]. *)
Theorem normalizeSync_always_answers `{Runtime} (obj : JSValue) :
  (∀ replacer,
     JsonNormalize.normalizeSync obj (Some replacer)
     = Some (Thrown (ForeignError "key is undefined in handleReplacer")))
  ∧ ∃ out,
      JsonNormalize.normalizeSync obj None = Some (Returned out)
      ∧ (out = None ↔ obj = JSUndefined).
Proof.
  split; [done|]. unfold JsonNormalize.normalizeSync.
  destruct (serializeSync_same_content (S (JsonNormalize.depth obj))
              (S (JsonNormalize.depth obj)) obj obj None None)
    as (out & Hout & _ & Hsome); [lia|lia|apply same_content_refl|].
  exists out. split; [done|]. rewrite <- not_eq_None_Some in Hsome.
  destruct obj, out; simpl in Hsome; split; try done;
    intros; exfalso; by apply Hsome.
Qed.

(** X27.  The normalised text depends on the content only: two values
    with the same content, whatever the order in which their objects hold
    their members, whether a member is [undefined] or absent, and whether
    an array holds [undefined] or [null], have the same normalised
    text. *)
Theorem normalizeSync_same_content `{Runtime} (v v' : JSValue) :
  same_content v v' →
  JsonNormalize.normalizeSync v None = JsonNormalize.normalizeSync v' None.
Proof.
  intros Hsame. unfold JsonNormalize.normalizeSync.
  destruct (serializeSync_same_content (S (JsonNormalize.depth v))
              (S (JsonNormalize.depth v')) v v' None None)
    as (out & -> & -> & _); [lia|lia|done|done].
Qed.

Lemma normalizeSync_same_content_witness :
  JsonNormalize.normalizeSync (H := Reference.runtime)
    NormalizeExample.written None
  = JsonNormalize.normalizeSync (H := Reference.runtime)
      NormalizeExample.rewritten None.
Proof.
  apply (normalizeSync_same_content (H := Reference.runtime)
           NormalizeExample.written NormalizeExample.rewritten).
  apply same_object. intros key.
  unfold JsonNormalize.member, own_property. cbn [fold_left fst snd].
  destruct (String.eqb_spec "c" key) as [<-|Hc].
  { change (String.eqb "a" "c") with false. cbn [default].
    apply same_array.
    constructor; [by apply same_literal|].
    constructor; [by apply same_literal|constructor]. }
  destruct (String.eqb_spec "b" key) as [<-|Hb].
  { change (String.eqb "a" "b") with false. by apply same_literal. }
  destruct (String.eqb "a" key); by apply same_literal.
Defined.

Section JsonNormalizeMembers.
Import JsonNormalize.

Lemma member_NoDup (props : list (string * JSValue)) (key : string)
    (v : JSValue) :
  NoDup props.*1 → (key, v) ∈ props → member props key = v.
Proof.
  intros Hnodup Hin. unfold member. by rewrite (own_property_NoDup _ _ v).
Qed.

Lemma member_of_defined_members (props props' : list (string * JSValue))
    (key : string) :
  NoDup props'.*1 →
  defined_members props ⊆ defined_members props' →
  is_defined (member props key) = true →
  member props' key = member props key.
Proof.
  intros Hnodup Hsub Hdefined. apply member_NoDup; [done|].
  assert ((key, member props key) ∈ defined_members props') as Hin.
  { apply Hsub. apply list_elem_of_filter. split.
    - simpl. by rewrite Hdefined.
    - by apply member_defined. }
  by apply list_elem_of_filter in Hin as [_ Hin].
Qed.

End JsonNormalizeMembers.

(** X28.  The order of the members does not matter: two objects that hold
    every key once and have the same members that are not [undefined], in
    whatever order, have the same normalised text. *)
Theorem normalizeSync_ignores_member_order `{Runtime}
    (props props' : list (string * JSValue)) :
  NoDup props.*1 → NoDup props'.*1 →
  defined_members props ≡ₚ defined_members props' →
  JsonNormalize.normalizeSync (JSObject props) None
  = JsonNormalize.normalizeSync (JSObject props') None.
Proof.
  intros Hnodup Hnodup' Hperm. unfold JsonNormalize.normalizeSync.
  destruct (serializeSync_same_content
              (S (JsonNormalize.depth (JSObject props)))
              (S (JsonNormalize.depth (JSObject props')))
              (JSObject props) (JSObject props') None None)
    as (out & -> & -> & _); [lia|lia| |done].
  apply same_object. intros key.
  destruct (is_defined (JsonNormalize.member props key)) eqn:Hdefined.
  - rewrite (member_of_defined_members props props' key);
      [apply same_content_refl|done| |done].
    intros entry. by rewrite Hperm.
  - destruct (is_defined (JsonNormalize.member props' key)) eqn:Hdefined'.
    + rewrite <- (member_of_defined_members props' props key);
        [apply same_content_refl|done| |done].
      intros entry. by rewrite Hperm.
    + destruct (JsonNormalize.member props key); try done.
      destruct (JsonNormalize.member props' key); try done.
      by apply same_literal.
Qed.

Lemma normalizeSync_ignores_member_order_witness :
  JsonNormalize.normalizeSync (H := Reference.runtime)
    (JSObject [("b", JSNull); ("skipped", JSUndefined); ("a", JSString "x")])
    None
  = JsonNormalize.normalizeSync (H := Reference.runtime)
      (JSObject [("a", JSString "x"); ("b", JSNull)]) None.
Proof.
  apply (normalizeSync_ignores_member_order (H := Reference.runtime)
           [("b", JSNull); ("skipped", JSUndefined); ("a", JSString "x")]
           [("a", JSString "x"); ("b", JSNull)]).
  - apply (bool_decide_unpack _). vm_compute. reflexivity.
  - apply (bool_decide_unpack _). vm_compute. reflexivity.
  - vm_compute. apply perm_swap.
Defined.

(** The text of an object with two members whose values are literals,
    when the text of the first member does not sort after that of the
    second. *)
Lemma normalizeSync_two_members `{Runtime} (key key' : string)
    (v v' : JSValue) :
  JsonNormalize.depth v = 0 → JsonNormalize.depth v' = 0 →
  is_defined v = true → is_defined v' = true →
  key ≠ key' →
  String.le (member_text key (JSON_stringify v))
            (member_text key' (JSON_stringify v')) →
  JsonNormalize.normalizeSync (JSObject [(key, v); (key', v')]) None
  = JsonNormalize.normalizeSync
      (JSObject
         [(key +:+ JsonNormalize.quotation_mark +:+ ":" +:+ JSON_stringify v
               +:+ "," +:+ JsonNormalize.quotation_mark +:+ key', v')])
      None.
Proof.
  intros Hv Hv' Hdefined Hdefined' Hne Hle.
  unfold JsonNormalize.normalizeSync.
  rewrite !serializeSync_object.
  set (long := key +:+ JsonNormalize.quotation_mark +:+ ":" +:+ JSON_stringify v
               +:+ "," +:+ JsonNormalize.quotation_mark +:+ key').
  rewrite (Object_keys_NoDup [(key, v); (key', v')]).
  2:{ simpl. apply NoDup_cons. split; [|apply NoDup_singleton].
      intros Hin. by apply list_elem_of_singleton in Hin. }
  rewrite (Object_keys_NoDup [(long, v')]) by apply NoDup_singleton.
  assert (JsonNormalize.member [(key, v); (key', v')] key = v) as Hkey.
  { unfold JsonNormalize.member, own_property. simpl.
    rewrite String.eqb_refl.
    by rewrite (proj2 (String.eqb_neq key' key)) by done. }
  assert (JsonNormalize.member [(key, v); (key', v')] key' = v') as Hkey'.
  { unfold JsonNormalize.member, own_property. simpl.
    by rewrite String.eqb_refl. }
  assert (JsonNormalize.member [(long, v')] long = v') as Hlong.
  { unfold JsonNormalize.member, own_property. simpl.
    by rewrite String.eqb_refl. }
  assert (∀ calls props name,
            JsonNormalize.depth (JsonNormalize.member props name) = 0 →
            is_defined (JsonNormalize.member props name) = true →
            match JsonNormalize.member props name with
            | JSUndefined => Some (Returned [])
            | value =>
                JsonNormalize.Run_bind
                  (JsonNormalize.serializeSync (S calls) value None (Some name))
                  (λ val,
                     Some (Returned
                       [ (λ val, JsonNormalize.quotation_mark +:+ name
                                 +:+ JsonNormalize.quotation_mark
                                 +:+ ":" +:+ val) <$> val ]))
            end
            = Some (Returned
                [Some (member_text name
                         (JSON_stringify (JsonNormalize.member props name)))]))
    as Hentry.
  { intros calls props name Hdepth Hvalue.
    destruct (JsonNormalize.member props name); try done;
      by rewrite serializeSync_literal. }
  assert (∀ name text, String.eqb (member_text name text) "" = false)
    as Hfilled by done.
  simpl JsonNormalize.depth. rewrite Hv, Hv'. simpl Nat.max.
  cbn [fmap list_fmap JsonNormalize.map_keys fst].
  rewrite !Hentry by (by rewrite ?Hkey, ?Hkey', ?Hlong).
  rewrite Hkey, Hkey', Hlong.
  cbn [JsonNormalize.Run_bind concat app].
  rewrite (sort_unique _
             [Some (member_text key (JSON_stringify v));
              Some (member_text key' (JSON_stringify v'))]).
  2:{ constructor; [by eexists|constructor; [by eexists|constructor]]. }
  2:{ done. }
  2:{ constructor; [constructor; [constructor|constructor]|].
      constructor; [done|constructor]. }
  rewrite (sort_unique _
             [Some (member_text long (JSON_stringify v'))]).
  2:{ constructor; [by eexists|constructor]. }
  2:{ done. }
  2:{ constructor; [constructor|constructor]. }
  unfold JsonNormalize.filter_Boolean. cbn [omap list_omap].
  rewrite !Hfilled. cbn [String.concat]. do 3 f_equal.
  unfold member_text, long. by rewrite !string_app_assoc.
Qed.

Lemma normalizeSync_swap `{Runtime} (key key' : string) (v v' : JSValue) :
  key ≠ key' →
  JsonNormalize.normalizeSync (JSObject [(key, v); (key', v')]) None
  = JsonNormalize.normalizeSync (JSObject [(key', v'); (key, v)]) None.
Proof.
  intros Hne. unfold JsonNormalize.normalizeSync.
  destruct (serializeSync_same_content
              (S (JsonNormalize.depth (JSObject [(key, v); (key', v')])))
              (S (JsonNormalize.depth (JSObject [(key', v'); (key, v)])))
              (JSObject [(key, v); (key', v')]) (JSObject [(key', v'); (key, v)])
              None None)
    as (out & -> & -> & _); [lia|lia| |done].
  apply same_object. intros name.
  unfold JsonNormalize.member, own_property. cbn [fold_left fst snd].
  destruct (String.eqb_spec key name) as [Hkey|Hkey];
    destruct (String.eqb_spec key' name) as [Hkey'|Hkey'];
    [congruence|apply same_content_refl..].
Qed.

(** X29.  Keys are copied without escaping, so that the normalised text
    does not determine the object: an object with two members whose
    values are literals has the text of an object with one member only,
    whose key spells out one of the two members and the key of the other
    (the member whose text [sort] puts first, whichever order [sort]
    uses). *)
Theorem normalizeSync_copies_keys `{Runtime} (key key' : string)
    (v v' : JSValue) :
  JsonNormalize.depth v = 0 → JsonNormalize.depth v' = 0 →
  is_defined v = true → is_defined v' = true →
  key ≠ key' →
  let spelled first value second :=
    first +:+ JsonNormalize.quotation_mark +:+ ":" +:+ JSON_stringify value
          +:+ "," +:+ JsonNormalize.quotation_mark +:+ second in
  JsonNormalize.normalizeSync (JSObject [(key, v); (key', v')]) None
  = JsonNormalize.normalizeSync (JSObject [(spelled key v key', v')]) None
  ∨ JsonNormalize.normalizeSync (JSObject [(key, v); (key', v')]) None
    = JsonNormalize.normalizeSync (JSObject [(spelled key' v' key, v)]) None.
Proof.
  intros Hv Hv' Hdefined Hdefined' Hne spelled.
  destruct (total String.le (member_text key (JSON_stringify v))
                            (member_text key' (JSON_stringify v')))
    as [Hle|Hle].
  - left. by apply normalizeSync_two_members.
  - right. rewrite normalizeSync_swap by done.
    by apply normalizeSync_two_members.
Qed.

Lemma normalizeSync_copies_keys_witness :
  let spelled first value second :=
    first +:+ JsonNormalize.quotation_mark +:+ ":"
          +:+ JSON_stringify (Runtime := Reference.runtime) value
          +:+ "," +:+ JsonNormalize.quotation_mark +:+ second in
  JsonNormalize.normalizeSync (H := Reference.runtime)
    (JSObject [("b", JSNull); ("a", JSBoolean true)]) None
  = JsonNormalize.normalizeSync (H := Reference.runtime)
      (JSObject [(spelled "b" JSNull "a", JSBoolean true)]) None
  ∨ JsonNormalize.normalizeSync (H := Reference.runtime)
      (JSObject [("b", JSNull); ("a", JSBoolean true)]) None
    = JsonNormalize.normalizeSync (H := Reference.runtime)
        (JSObject [(spelled "a" (JSBoolean true) "b", JSNull)]) None.
Proof.
  apply (normalizeSync_copies_keys (H := Reference.runtime) "b" "a"
           JSNull (JSBoolean true)).
  - reflexivity.
  - reflexivity.
  - reflexivity.
  - reflexivity.
  - discriminate.
Defined.
